(** * libuvc_camera: the camera driver's state machine

    A shallow embedding of [src/libuvc_camera/src/camera_driver.cpp]
    (class [CameraDriver]): the life cycle Initial / Stopped / Running,
    the reconfiguration callback with its per-control rollback, the frame
    callback, the control-change callback and the video-mode table.

    The driver talks to libuvc, to the image publisher, to the
    configuration server and to the calibration manager.  Those calls are
    kept in a trace, in the order the code makes them, each with the code
    it returned; what the library answers is a parameter of the
    development. *)

From Stdlib Require Import ZArith List String Bool Lia.
From Stdlib Require Import Floats.PrimFloat Floats.FloatOps Floats.SpecFloat.
From Stdlib Require Import Uint63.
From Stdlib Require Strings.Byte.
Import ListNotations.

#[local] Set Warnings "-inexact-float".
#[local] Open Scope string_scope.
#[local] Open Scope list_scope.
#[local] Open Scope Z_scope.

(** ** Machine numbers *)

Abbreviation byte := Byte.byte.

(** A [uint8_t] read as a number. *)
Definition byte_to_Z (b : byte) : Z := Z.of_N (Byte.to_N b).

(** Conversion to [uint32_t]: the value modulo 2^32. *)
Definition to_uint32 (z : Z) : Z := z mod 2 ^ 32.

(** Conversion to [int] on the two's-complement targets the driver is
    built for: the value wrapped into [-2^31, 2^31). *)
Definition to_int (z : Z) : Z := (z + 2 ^ 31) mod 2 ^ 32 - 2 ^ 31.

Definition INT_MIN : Z := - 2 ^ 31.

(** [double] is IEEE 754 binary64, which is what the kernel's floats are. *)
Definition double : Type := float.

(** A [double] truncated toward zero, when it is finite. *)
Definition double_trunc (f : double) : option Z :=
  match Prim2SF f with
  | S754_zero _ => Some 0
  | S754_finite s m e =>
      let mag := if 0 <=? e then Z.pos m * 2 ^ e else Z.pos m / 2 ^ (- e) in
      Some (if s then - mag else mag)
  | S754_infinity _ | S754_nan => None
  end.

(** [int val = <double>]: truncation toward zero.  The language leaves
    the conversion of a value that does not fit (or of a NaN) open; the
    model takes what the x86-64 conversion instruction yields there,
    [INT_MIN]. *)
Definition double_to_int (f : double) : Z :=
  match double_trunc f with
  | Some z => if (INT_MIN <=? z) && (z <? 2 ^ 31) then z else INT_MIN
  | None => INT_MIN
  end.

(** [uint32_t] to [double]: exact, a 32-bit value fits the mantissa. *)
Definition uint32_to_double (z : Z) : double :=
  PrimFloat.of_uint63 (Uint63.of_Z z).

(** ** libuvc's enumerations

    [libuvc.h] is not part of the repository; the enumerations below list
    the names the driver uses, as that header declares them.  The
    [UVC_COLOR_FORMAT_*] names are the header's aliases of the
    [UVC_FRAME_FORMAT_*] enumerators. *)

Inductive uvc_frame_format : Type :=
| UVC_FRAME_FORMAT_UNKNOWN
| UVC_FRAME_FORMAT_UNCOMPRESSED
| UVC_FRAME_FORMAT_COMPRESSED
| UVC_FRAME_FORMAT_YUYV
| UVC_FRAME_FORMAT_UYVY
| UVC_FRAME_FORMAT_RGB
| UVC_FRAME_FORMAT_BGR
| UVC_FRAME_FORMAT_MJPEG
| UVC_FRAME_FORMAT_GRAY8.

Definition UVC_COLOR_FORMAT_UNCOMPRESSED := UVC_FRAME_FORMAT_UNCOMPRESSED.
Definition UVC_COLOR_FORMAT_COMPRESSED := UVC_FRAME_FORMAT_COMPRESSED.
Definition UVC_COLOR_FORMAT_YUYV := UVC_FRAME_FORMAT_YUYV.
Definition UVC_COLOR_FORMAT_UYVY := UVC_FRAME_FORMAT_UYVY.
Definition UVC_COLOR_FORMAT_RGB := UVC_FRAME_FORMAT_RGB.
Definition UVC_COLOR_FORMAT_BGR := UVC_FRAME_FORMAT_BGR.
Definition UVC_COLOR_FORMAT_MJPEG := UVC_FRAME_FORMAT_MJPEG.
Definition UVC_COLOR_FORMAT_GRAY8 := UVC_FRAME_FORMAT_GRAY8.

Inductive uvc_status_class : Type :=
| UVC_STATUS_CLASS_CONTROL
| UVC_STATUS_CLASS_CONTROL_CAMERA
| UVC_STATUS_CLASS_CONTROL_PROCESSING.

Inductive uvc_status_attribute : Type :=
| UVC_STATUS_ATTRIBUTE_VALUE_CHANGE
| UVC_STATUS_ATTRIBUTE_INFO_CHANGE
| UVC_STATUS_ATTRIBUTE_FAILURE_CHANGE
| UVC_STATUS_ATTRIBUTE_UNKNOWN.

(** [UVC_SUCCESS], the one error code the driver compares with. *)
Definition UVC_SUCCESS : Z := 0.

(** ** [CameraDriver::GetVideoMode] (lines 321-342)

    A chain of string comparisons; the last branch warns and answers the
    uncompressed format. *)
Definition GetVideoMode (vmode : string) : uvc_frame_format :=
  if String.eqb vmode "uncompressed" then UVC_COLOR_FORMAT_UNCOMPRESSED
  else if String.eqb vmode "compressed" then UVC_COLOR_FORMAT_COMPRESSED
  else if String.eqb vmode "yuyv" then UVC_COLOR_FORMAT_YUYV
  else if String.eqb vmode "uyvy" then UVC_COLOR_FORMAT_UYVY
  else if String.eqb vmode "rgb" then UVC_COLOR_FORMAT_RGB
  else if String.eqb vmode "bgr" then UVC_COLOR_FORMAT_BGR
  else if String.eqb vmode "mjpeg" then UVC_COLOR_FORMAT_MJPEG
  else if String.eqb vmode "gray8" then UVC_COLOR_FORMAT_GRAY8
  else UVC_COLOR_FORMAT_UNCOMPRESSED.

(** The eight strings the chain knows. *)
Definition video_modes : list string :=
  ["uncompressed"; "compressed"; "yuyv"; "uyvy"; "rgb"; "bgr"; "mjpeg"; "gray8"].

(** ** The configuration snapshot

    [UVCCameraConfig] is generated from the package's configuration
    description, which is not among the sources.  The record has the
    members this file reads or writes, with the types its uses of them
    fix: [exposure_absolute] is multiplied by a [double], [auto_focus] is
    a truth value, [vendor], [product] and [serial] are strings, the
    controls handed to libuvc are [int]. *)
Record UVCCameraConfig : Type := {
  vendor : string;
  product : string;
  serial : string;
  index : Z;
  width : Z;
  height : Z;
  video_mode : string;
  frame_rate : double;
  frame_id : string;
  camera_info_url : string;
  scanning_mode : Z;
  auto_exposure : Z;
  auto_exposure_priority : Z;
  exposure_absolute : double;
  auto_focus : bool;
  focus_absolute : Z;
  pan_absolute : Z;
  tilt_absolute : Z;
  gain : Z;
  iris_absolute : Z;
  brightness : Z;
  white_balance_temperature : Z
}.

(** Assignment to one member: [c.name = v]. *)
Definition with_scanning_mode (v : Z) (c : UVCCameraConfig) : UVCCameraConfig :=
  {|
    vendor := vendor c; product := product c; serial := serial c;
    index := index c; width := width c; height := height c;
    video_mode := video_mode c; frame_rate := frame_rate c;
    frame_id := frame_id c; camera_info_url := camera_info_url c;
    scanning_mode := v; auto_exposure := auto_exposure c;
    auto_exposure_priority := auto_exposure_priority c;
    exposure_absolute := exposure_absolute c; auto_focus := auto_focus c;
    focus_absolute := focus_absolute c; pan_absolute := pan_absolute c;
    tilt_absolute := tilt_absolute c; gain := gain c;
    iris_absolute := iris_absolute c; brightness := brightness c;
    white_balance_temperature := white_balance_temperature c
  |}.

Definition with_auto_exposure (v : Z) (c : UVCCameraConfig) : UVCCameraConfig :=
  {|
    vendor := vendor c; product := product c; serial := serial c;
    index := index c; width := width c; height := height c;
    video_mode := video_mode c; frame_rate := frame_rate c;
    frame_id := frame_id c; camera_info_url := camera_info_url c;
    scanning_mode := scanning_mode c; auto_exposure := v;
    auto_exposure_priority := auto_exposure_priority c;
    exposure_absolute := exposure_absolute c; auto_focus := auto_focus c;
    focus_absolute := focus_absolute c; pan_absolute := pan_absolute c;
    tilt_absolute := tilt_absolute c; gain := gain c;
    iris_absolute := iris_absolute c; brightness := brightness c;
    white_balance_temperature := white_balance_temperature c
  |}.

Definition with_auto_exposure_priority (v : Z) (c : UVCCameraConfig) : UVCCameraConfig :=
  {|
    vendor := vendor c; product := product c; serial := serial c;
    index := index c; width := width c; height := height c;
    video_mode := video_mode c; frame_rate := frame_rate c;
    frame_id := frame_id c; camera_info_url := camera_info_url c;
    scanning_mode := scanning_mode c; auto_exposure := auto_exposure c;
    auto_exposure_priority := v; exposure_absolute := exposure_absolute c;
    auto_focus := auto_focus c; focus_absolute := focus_absolute c;
    pan_absolute := pan_absolute c; tilt_absolute := tilt_absolute c;
    gain := gain c; iris_absolute := iris_absolute c;
    brightness := brightness c;
    white_balance_temperature := white_balance_temperature c
  |}.

Definition with_exposure_absolute (v : double) (c : UVCCameraConfig) : UVCCameraConfig :=
  {|
    vendor := vendor c; product := product c; serial := serial c;
    index := index c; width := width c; height := height c;
    video_mode := video_mode c; frame_rate := frame_rate c;
    frame_id := frame_id c; camera_info_url := camera_info_url c;
    scanning_mode := scanning_mode c; auto_exposure := auto_exposure c;
    auto_exposure_priority := auto_exposure_priority c;
    exposure_absolute := v; auto_focus := auto_focus c;
    focus_absolute := focus_absolute c; pan_absolute := pan_absolute c;
    tilt_absolute := tilt_absolute c; gain := gain c;
    iris_absolute := iris_absolute c; brightness := brightness c;
    white_balance_temperature := white_balance_temperature c
  |}.

Definition with_auto_focus (v : bool) (c : UVCCameraConfig) : UVCCameraConfig :=
  {|
    vendor := vendor c; product := product c; serial := serial c;
    index := index c; width := width c; height := height c;
    video_mode := video_mode c; frame_rate := frame_rate c;
    frame_id := frame_id c; camera_info_url := camera_info_url c;
    scanning_mode := scanning_mode c; auto_exposure := auto_exposure c;
    auto_exposure_priority := auto_exposure_priority c;
    exposure_absolute := exposure_absolute c; auto_focus := v;
    focus_absolute := focus_absolute c; pan_absolute := pan_absolute c;
    tilt_absolute := tilt_absolute c; gain := gain c;
    iris_absolute := iris_absolute c; brightness := brightness c;
    white_balance_temperature := white_balance_temperature c
  |}.

Definition with_focus_absolute (v : Z) (c : UVCCameraConfig) : UVCCameraConfig :=
  {|
    vendor := vendor c; product := product c; serial := serial c;
    index := index c; width := width c; height := height c;
    video_mode := video_mode c; frame_rate := frame_rate c;
    frame_id := frame_id c; camera_info_url := camera_info_url c;
    scanning_mode := scanning_mode c; auto_exposure := auto_exposure c;
    auto_exposure_priority := auto_exposure_priority c;
    exposure_absolute := exposure_absolute c; auto_focus := auto_focus c;
    focus_absolute := v; pan_absolute := pan_absolute c;
    tilt_absolute := tilt_absolute c; gain := gain c;
    iris_absolute := iris_absolute c; brightness := brightness c;
    white_balance_temperature := white_balance_temperature c
  |}.

Definition with_pan_absolute (v : Z) (c : UVCCameraConfig) : UVCCameraConfig :=
  {|
    vendor := vendor c; product := product c; serial := serial c;
    index := index c; width := width c; height := height c;
    video_mode := video_mode c; frame_rate := frame_rate c;
    frame_id := frame_id c; camera_info_url := camera_info_url c;
    scanning_mode := scanning_mode c; auto_exposure := auto_exposure c;
    auto_exposure_priority := auto_exposure_priority c;
    exposure_absolute := exposure_absolute c; auto_focus := auto_focus c;
    focus_absolute := focus_absolute c; pan_absolute := v;
    tilt_absolute := tilt_absolute c; gain := gain c;
    iris_absolute := iris_absolute c; brightness := brightness c;
    white_balance_temperature := white_balance_temperature c
  |}.

Definition with_tilt_absolute (v : Z) (c : UVCCameraConfig) : UVCCameraConfig :=
  {|
    vendor := vendor c; product := product c; serial := serial c;
    index := index c; width := width c; height := height c;
    video_mode := video_mode c; frame_rate := frame_rate c;
    frame_id := frame_id c; camera_info_url := camera_info_url c;
    scanning_mode := scanning_mode c; auto_exposure := auto_exposure c;
    auto_exposure_priority := auto_exposure_priority c;
    exposure_absolute := exposure_absolute c; auto_focus := auto_focus c;
    focus_absolute := focus_absolute c; pan_absolute := pan_absolute c;
    tilt_absolute := v; gain := gain c; iris_absolute := iris_absolute c;
    brightness := brightness c;
    white_balance_temperature := white_balance_temperature c
  |}.

Definition with_gain (v : Z) (c : UVCCameraConfig) : UVCCameraConfig :=
  {|
    vendor := vendor c; product := product c; serial := serial c;
    index := index c; width := width c; height := height c;
    video_mode := video_mode c; frame_rate := frame_rate c;
    frame_id := frame_id c; camera_info_url := camera_info_url c;
    scanning_mode := scanning_mode c; auto_exposure := auto_exposure c;
    auto_exposure_priority := auto_exposure_priority c;
    exposure_absolute := exposure_absolute c; auto_focus := auto_focus c;
    focus_absolute := focus_absolute c; pan_absolute := pan_absolute c;
    tilt_absolute := tilt_absolute c; gain := v;
    iris_absolute := iris_absolute c; brightness := brightness c;
    white_balance_temperature := white_balance_temperature c
  |}.

Definition with_iris_absolute (v : Z) (c : UVCCameraConfig) : UVCCameraConfig :=
  {|
    vendor := vendor c; product := product c; serial := serial c;
    index := index c; width := width c; height := height c;
    video_mode := video_mode c; frame_rate := frame_rate c;
    frame_id := frame_id c; camera_info_url := camera_info_url c;
    scanning_mode := scanning_mode c; auto_exposure := auto_exposure c;
    auto_exposure_priority := auto_exposure_priority c;
    exposure_absolute := exposure_absolute c; auto_focus := auto_focus c;
    focus_absolute := focus_absolute c; pan_absolute := pan_absolute c;
    tilt_absolute := tilt_absolute c; gain := gain c; iris_absolute := v;
    brightness := brightness c;
    white_balance_temperature := white_balance_temperature c
  |}.

Definition with_brightness (v : Z) (c : UVCCameraConfig) : UVCCameraConfig :=
  {|
    vendor := vendor c; product := product c; serial := serial c;
    index := index c; width := width c; height := height c;
    video_mode := video_mode c; frame_rate := frame_rate c;
    frame_id := frame_id c; camera_info_url := camera_info_url c;
    scanning_mode := scanning_mode c; auto_exposure := auto_exposure c;
    auto_exposure_priority := auto_exposure_priority c;
    exposure_absolute := exposure_absolute c; auto_focus := auto_focus c;
    focus_absolute := focus_absolute c; pan_absolute := pan_absolute c;
    tilt_absolute := tilt_absolute c; gain := gain c;
    iris_absolute := iris_absolute c; brightness := v;
    white_balance_temperature := white_balance_temperature c
  |}.

Definition with_white_balance_temperature (v : Z) (c : UVCCameraConfig) : UVCCameraConfig :=
  {|
    vendor := vendor c; product := product c; serial := serial c;
    index := index c; width := width c; height := height c;
    video_mode := video_mode c; frame_rate := frame_rate c;
    frame_id := frame_id c; camera_info_url := camera_info_url c;
    scanning_mode := scanning_mode c; auto_exposure := auto_exposure c;
    auto_exposure_priority := auto_exposure_priority c;
    exposure_absolute := exposure_absolute c; auto_focus := auto_focus c;
    focus_absolute := focus_absolute c; pan_absolute := pan_absolute c;
    tilt_absolute := tilt_absolute c; gain := gain c;
    iris_absolute := iris_absolute c; brightness := brightness c;
    white_balance_temperature := v
  |}.

(** ** Frames and messages *)

(** A captured frame ([uvc_frame_t]) as the driver reads it: [data] is
    the payload, [None] for a null pointer, and [data_bytes] is its
    length. *)
Record uvc_frame : Type := {
  data : option (list byte);
  frame_format : uvc_frame_format
}.

Definition data_bytes (frame : uvc_frame) : Z :=
  match data frame with
  | Some payload => Z.of_nat (List.length payload)
  | None => 0
  end.

Module sensor_msgs.

(** [sensor_msgs::Image]: the header members the driver fills and the
    picture. *)
Record Image : Type := {
  frame_id : string;
  stamp : Z;
  height : Z;
  width : Z;
  encoding : string;
  step : Z;
  data : list byte
}.

(** [sensor_msgs::CameraInfo]: the driver copies the manager's record
    and writes its header; the calibration itself passes through
    untouched and is left out. *)
Record CameraInfo : Type := {
  info_frame_id : string;
  info_stamp : Z
}.

End sensor_msgs.

(** ** Calls that leave the driver *)

Module fn.

(** The libuvc setters the [PARAM_INT] macro pastes together:
    [uvc_set_##fn]. *)
Inductive t : Type :=
| scanning_mode | ae_mode | ae_priority | exposure_abs | focus_auto
| focus_abs | gain | iris_abs | brightness.

Definition eqb (a b : t) : bool :=
  match a, b with
  | scanning_mode, scanning_mode | ae_mode, ae_mode
  | ae_priority, ae_priority | exposure_abs, exposure_abs
  | focus_auto, focus_auto | focus_abs, focus_abs | gain, gain
  | iris_abs, iris_abs | brightness, brightness => true
  | _, _ => false
  end.

End fn.

(** Every call the driver makes to libuvc, to the calibration manager,
    to the publisher, to the configuration server and to the allocator
    of the picture's buffer, with the arguments it passes.  Handles are
    not recorded: there is one context, one device and one device handle
    at a time. *)
Inductive Call : Type :=
| uvc_init
| uvc_exit
| uvc_find_device (vendor_id product_id : Z) (serial : option string)
| uvc_open
| uvc_close
| uvc_unref_device
| uvc_set_status_callback
| uvc_get_stream_ctrl_format_size
    (format : uvc_frame_format) (width height : Z) (frame_rate : double)
| uvc_start_iso_streaming
| uvc_print_diag
| uvc_free_frame
| uvc_allocate_frame (size : Z)
| uvc_set (f : fn.t) (val : Z)
| uvc_set_pantilt_abs (pan tilt : Z)
| uvc_yuyv2bgr (frame : uvc_frame)
| uvc_mjpeg2rgb (frame : uvc_frame)
| uvc_any2bgr (frame : uvc_frame)
| loadCameraInfo (url : string)
| getCameraInfo
| resize (size : Z)
| publish (image : sensor_msgs.Image) (cinfo : sensor_msgs.CameraInfo)
| updateConfig (config : UVCCameraConfig).

(** A call together with what it returned: libuvc's error code, zero
    or non-zero for a pointer, and zero for a call that returns nothing. *)
Inductive Event : Type :=
| Called (c : Call) (ret : Z).

(** A write of a control value to the device. *)
Definition is_control_write (e : Event) : bool :=
  match e with
  | Called (uvc_set _ _) _ | Called (uvc_set_pantilt_abs _ _) _ => true
  | _ => false
  end.

Definition control_writes (evs : list Event) : list Event :=
  filter is_control_write evs.

(** The pictures handed to the publisher. *)
Fixpoint published (evs : list Event) : list sensor_msgs.Image :=
  match evs with
  | [] => []
  | Called (publish image _) _ :: rest => image :: published rest
  | _ :: rest => published rest
  end.

(** The sizes asked of the allocator for a picture's buffer. *)
Fixpoint allocated (evs : list Event) : list Z :=
  match evs with
  | [] => []
  | Called (resize n) _ :: rest => n :: allocated rest
  | _ :: rest => allocated rest
  end.

(** ** What surrounds the driver

    The constants of headers that are not among the sources, and the
    answers of the library: [uvc] gives the code a call returns after
    the calls made so far, [uvc_out] the bytes a conversion leaves in its
    output frame, given the bytes that were there.  [kReconfigureClose] is the driver's own constant,
    declared in [camera_driver.h]. *)
Class Platform : Type := {
  kReconfigureClose : Z;
  UVC_CT_EXPOSURE_TIME_ABSOLUTE_CONTROL : Z;
  UVC_PU_WHITE_BALANCE_TEMPERATURE_CONTROL : Z;
  LIBUVC_HAS_JPEG : bool;
  strtol : string -> Z;
  uvc : list Event -> Call -> Z;
  uvc_out : list Event -> Call -> list byte -> list byte
}.

(** ** The driver's members *)

Inductive State : Type := kInitial | kStopped | kRunning.

Definition State_eqb (a b : State) : bool :=
  match a, b with
  | kInitial, kInitial | kStopped, kStopped | kRunning, kRunning => true
  | _, _ => false
  end.

(** A pointer member, as far as the driver looks at it. *)
Inductive Ptr : Type := NULL | NonNull.

(** The members of [CameraDriver] that the modelled functions touch.
    [rgb_frame_] holds the scratch frame's bytes; [calls] is the trace
    of the calls made so far, oldest first. *)
Record CameraDriver : Type := {
  state_ : State;
  ctx_ : Ptr;
  dev_ : Ptr;
  devh_ : Ptr;
  rgb_frame_ : option (list byte);
  creation_ : bool;
  config_changed_ : bool;
  config_ : UVCCameraConfig;
  calls : list Event
}.

Definition set_state (v : State) (d : CameraDriver) : CameraDriver :=
  {|
    state_ := v; ctx_ := ctx_ d; dev_ := dev_ d; devh_ := devh_ d;
    rgb_frame_ := rgb_frame_ d; creation_ := creation_ d;
    config_changed_ := config_changed_ d; config_ := config_ d;
    calls := calls d
  |}.

Definition set_ctx (v : Ptr) (d : CameraDriver) : CameraDriver :=
  {|
    state_ := state_ d; ctx_ := v; dev_ := dev_ d; devh_ := devh_ d;
    rgb_frame_ := rgb_frame_ d; creation_ := creation_ d;
    config_changed_ := config_changed_ d; config_ := config_ d;
    calls := calls d
  |}.

Definition set_dev (v : Ptr) (d : CameraDriver) : CameraDriver :=
  {|
    state_ := state_ d; ctx_ := ctx_ d; dev_ := v; devh_ := devh_ d;
    rgb_frame_ := rgb_frame_ d; creation_ := creation_ d;
    config_changed_ := config_changed_ d; config_ := config_ d;
    calls := calls d
  |}.

Definition set_devh (v : Ptr) (d : CameraDriver) : CameraDriver :=
  {|
    state_ := state_ d; ctx_ := ctx_ d; dev_ := dev_ d; devh_ := v;
    rgb_frame_ := rgb_frame_ d; creation_ := creation_ d;
    config_changed_ := config_changed_ d; config_ := config_ d;
    calls := calls d
  |}.

Definition set_rgb_frame (v : option (list byte)) (d : CameraDriver) : CameraDriver :=
  {|
    state_ := state_ d; ctx_ := ctx_ d; dev_ := dev_ d; devh_ := devh_ d;
    rgb_frame_ := v; creation_ := creation_ d;
    config_changed_ := config_changed_ d; config_ := config_ d;
    calls := calls d
  |}.

Definition set_creation (v : bool) (d : CameraDriver) : CameraDriver :=
  {|
    state_ := state_ d; ctx_ := ctx_ d; dev_ := dev_ d; devh_ := devh_ d;
    rgb_frame_ := rgb_frame_ d; creation_ := v;
    config_changed_ := config_changed_ d; config_ := config_ d;
    calls := calls d
  |}.

Definition set_config_changed (v : bool) (d : CameraDriver) : CameraDriver :=
  {|
    state_ := state_ d; ctx_ := ctx_ d; dev_ := dev_ d; devh_ := devh_ d;
    rgb_frame_ := rgb_frame_ d; creation_ := creation_ d;
    config_changed_ := v; config_ := config_ d; calls := calls d
  |}.

Definition set_config (v : UVCCameraConfig) (d : CameraDriver) : CameraDriver :=
  {|
    state_ := state_ d; ctx_ := ctx_ d; dev_ := dev_ d; devh_ := devh_ d;
    rgb_frame_ := rgb_frame_ d; creation_ := creation_ d;
    config_changed_ := config_changed_ d; config_ := v; calls := calls d
  |}.

Definition set_calls (v : list Event) (d : CameraDriver) : CameraDriver :=
  {|
    state_ := state_ d; ctx_ := ctx_ d; dev_ := dev_ d; devh_ := devh_ d;
    rgb_frame_ := rgb_frame_ d; creation_ := creation_ d;
    config_changed_ := config_changed_ d; config_ := config_ d; calls := v
  |}.

(** The constructor's initialisers (lines 45-52); [config_] starts as
    whatever the configuration type's default is. *)
Definition CameraDriver_new (config : UVCCameraConfig) : CameraDriver :=
  {|
    state_ := kInitial; ctx_ := NULL; dev_ := NULL; devh_ := NULL;
    rgb_frame_ := None; creation_ := true; config_changed_ := false;
    config_ := config; calls := []
  |}.

(** ** Running a member function

    A member function either returns, or stops the process: a failed
    [assert], or a copy or read past the end of a buffer. *)

Inductive Failure : Type := AssertionFailed | OutOfBounds.

Inductive Result (A : Type) : Type :=
| Ret (a : A) (d : CameraDriver)
| Fail (why : Failure) (d : CameraDriver).

Arguments Ret {A} a d.
Arguments Fail {A} why d.

Definition M (A : Type) : Type := CameraDriver -> Result A.

Definition ret {A : Type} (a : A) : M A := fun d => Ret a d.

Definition bind {A B : Type} (m : M A) (k : A -> M B) : M B :=
  fun d =>
    match m d with
    | Ret a d' => k a d'
    | Fail why d' => Fail why d'
    end.

Declare Scope driver_scope.
Delimit Scope driver_scope with driver.
Notation "x <- m ;; k" := (bind m (fun x => k))
  (at level 61, m at next level, right associativity) : driver_scope.
Notation "m ;; k" := (bind m (fun _ => k))
  (at level 61, right associativity) : driver_scope.
#[local] Open Scope driver_scope.

(** The driver as the function left it, returned or not. *)
Definition driver_of {A : Type} (r : Result A) : CameraDriver :=
  match r with
  | Ret _ d => d
  | Fail _ d => d
  end.

Definition returned {A : Type} (r : Result A) : bool :=
  match r with
  | Ret _ _ => true
  | Fail _ _ => false
  end.

Definition gets {A : Type} (member : CameraDriver -> A) : M A :=
  fun d => Ret (member d) d.

Definition modify (f : CameraDriver -> CameraDriver) : M unit :=
  fun d => Ret tt (f d).

Definition assert (b : bool) : M unit :=
  fun d => if b then Ret tt d else Fail AssertionFailed d.

Definition out_of_bounds {A : Type} : M A :=
  fun d => Fail OutOfBounds d.

(** A call that returns nothing. *)
Definition emit (c : Call) : M unit :=
  fun d => Ret tt (set_calls (calls d ++ [Called c 0]) d).

(** A call whose result the driver looks at. *)
Definition call `{Platform} (c : Call) : M Z :=
  fun d =>
    let r := uvc (calls d) c in
    Ret r (set_calls (calls d ++ [Called c r]) d).

(** [memcpy(&dst[0], src, n)] with [n] the length of [src]: the first
    [n] bytes of [dst] are replaced; more than [dst] holds is a write
    past its end. *)
Definition memcpy (dst src : list byte) : M (list byte) :=
  if (List.length src <=? List.length dst)%nat
  then ret (src ++ skipn (List.length src) dst)
  else out_of_bounds.

(** ** The members a [PARAM_INT] line names

    [PARAM_INT(name, fn, value)] compares [new_config.name] with
    [config_.name] and, when the device refuses the value, assigns
    [config_.name] back to [new_config.name].  A [Field] is those two
    uses of [name]. *)
Record Field : Type := {
  differs : UVCCameraConfig -> UVCCameraConfig -> bool;
  restore : UVCCameraConfig -> UVCCameraConfig -> UVCCameraConfig
}.

Definition int_differs (a b : Z) : bool := negb (a =? b).
Definition bool_differs (a b : bool) : bool := negb (Bool.eqb a b).
(** [!=] on [double]: IEEE comparison, a NaN differs from itself. *)
Definition double_differs (a b : double) : bool := negb (PrimFloat.eqb a b).

Module name.

Definition scanning_mode : Field :=
  {| differs new_config config :=
       int_differs (scanning_mode new_config) (scanning_mode config);
     restore config new_config :=
       with_scanning_mode (scanning_mode config) new_config |}.

Definition auto_exposure : Field :=
  {| differs new_config config :=
       int_differs (auto_exposure new_config) (auto_exposure config);
     restore config new_config :=
       with_auto_exposure (auto_exposure config) new_config |}.

Definition auto_exposure_priority : Field :=
  {| differs new_config config :=
       int_differs (auto_exposure_priority new_config)
                   (auto_exposure_priority config);
     restore config new_config :=
       with_auto_exposure_priority (auto_exposure_priority config) new_config |}.

Definition exposure_absolute : Field :=
  {| differs new_config config :=
       double_differs (exposure_absolute new_config) (exposure_absolute config);
     restore config new_config :=
       with_exposure_absolute (exposure_absolute config) new_config |}.

Definition auto_focus : Field :=
  {| differs new_config config :=
       bool_differs (auto_focus new_config) (auto_focus config);
     restore config new_config :=
       with_auto_focus (auto_focus config) new_config |}.

Definition focus_absolute : Field :=
  {| differs new_config config :=
       int_differs (focus_absolute new_config) (focus_absolute config);
     restore config new_config :=
       with_focus_absolute (focus_absolute config) new_config |}.

Definition gain : Field :=
  {| differs new_config config :=
       int_differs (gain new_config) (gain config);
     restore config new_config := with_gain (gain config) new_config |}.

Definition iris_absolute : Field :=
  {| differs new_config config :=
       int_differs (iris_absolute new_config) (iris_absolute config);
     restore config new_config :=
       with_iris_absolute (iris_absolute config) new_config |}.

Definition brightness : Field :=
  {| differs new_config config :=
       int_differs (brightness new_config) (brightness config);
     restore config new_config :=
       with_brightness (brightness config) new_config |}.

End name.

(** [1 << n] on [int]; the shift count is taken modulo 32, as the
    targets' shift instruction does. *)
Definition shl_int (a n : Z) : Z := to_int (Z.shiftl a (n mod 32)).

(** [new_config.exposure_absolute * 10000] assigned to an [int]. *)
Definition exposure_value (exposure : double) : Z :=
  double_to_int (PrimFloat.mul exposure 10000%float).

(** A pointer-like member tested as a condition. *)
Definition non_null {A : Type} (p : option A) : bool :=
  match p with
  | Some _ => true
  | None => false
  end.

(** The bytes behind [rgb_frame_]. *)
Definition scratch_bytes (rgb : option (list byte)) : list byte :=
  match rgb with
  | Some bytes => bytes
  | None => []
  end.

Section Driver.

Context {P : Platform}.

(** ** [CameraDriver::CloseCamera] (lines 435-445) *)
Definition CloseCamera : M unit :=
  st <- gets state_ ;;
  assert (State_eqb st kRunning) ;;
  emit uvc_close ;;
  modify (set_devh NULL) ;;
  emit uvc_unref_device ;;
  modify (set_dev NULL) ;;
  modify (set_state kStopped).

(** ** [CameraDriver::OpenCamera] (lines 344-433)

    Each failure returns with [state_] still [kStopped].  The calls made
    only to fill a log line (bus number, device address, error string)
    are left out. *)
Definition OpenCamera (new_config : UVCCameraConfig) : M unit :=
  st <- gets state_ ;;
  assert (State_eqb st kStopped) ;;
  let vendor_id := to_int (strtol (vendor new_config)) in
  let product_id := to_int (strtol (product new_config)) in
  find_err <- call (uvc_find_device vendor_id product_id
                      (if String.eqb (serial new_config) ""
                       then None else Some (serial new_config))) ;;
  if negb (find_err =? UVC_SUCCESS) then ret tt
  else
    modify (set_dev NonNull) ;;
    open_err <- call uvc_open ;;
    if negb (open_err =? UVC_SUCCESS) then emit uvc_unref_device
    else
      modify (set_devh NonNull) ;;
      emit uvc_set_status_callback ;;
      mode_err <- call (uvc_get_stream_ctrl_format_size
                          (GetVideoMode (video_mode new_config))
                          (width new_config) (height new_config)
                          (frame_rate new_config)) ;;
      if negb (mode_err =? UVC_SUCCESS) then
        emit uvc_close ;;
        emit uvc_unref_device ;;
        emit uvc_print_diag
      else
        stream_err <- call uvc_start_iso_streaming ;;
        if negb (stream_err =? UVC_SUCCESS) then
          emit uvc_close ;;
          emit uvc_unref_device
        else
          rgb <- gets rgb_frame_ ;;
          (if non_null rgb then emit uvc_free_frame else ret tt) ;;
          let size :=
            to_int (to_int (width new_config * height new_config) * 3) in
          p <- call (uvc_allocate_frame size) ;;
          modify (set_rgb_frame
                    (if p =? 0 then None
                     else Some (repeat Byte.x00 (Z.to_nat size)))) ;;
          rgb <- gets rgb_frame_ ;;
          assert (non_null rgb) ;;
          modify (set_state kRunning).

(** ** The [PARAM_INT] macro (lines 125-134) *)
Definition PARAM_INT (name : Field) (f : fn.t)
    (value : UVCCameraConfig -> Z) (new_config : UVCCameraConfig)
  : M UVCCameraConfig :=
  config <- gets config_ ;;
  if differs name new_config config then
    let val := value new_config in
    err <- call (uvc_set f val) ;;
    if negb (err =? 0) then ret (restore name config new_config)
    else ret new_config
  else ret new_config.

(** Pan and tilt go to the device in one call (lines 147-153). *)
Definition pantilt (new_config : UVCCameraConfig) : M UVCCameraConfig :=
  config <- gets config_ ;;
  if int_differs (pan_absolute new_config) (pan_absolute config)
     || int_differs (tilt_absolute new_config) (tilt_absolute config)
  then
    err <- call (uvc_set_pantilt_abs (pan_absolute new_config)
                                      (tilt_absolute new_config)) ;;
    if negb (err =? 0) then
      ret (with_tilt_absolute (tilt_absolute config)
             (with_pan_absolute (pan_absolute config) new_config))
    else ret new_config
  else ret new_config.

(** ** [CameraDriver::ReconfigureCallback] (lines 103-169)

    [new_config] is passed by reference and the rollback writes to it;
    the function's result is [new_config] as the caller finds it
    afterwards.  [level] is a [uint32_t]. *)
Definition ReconfigureCallback (new_config : UVCCameraConfig) (level : Z)
  : M UVCCameraConfig :=
  creation <- gets creation_ ;;
  if creation then
    modify (set_config new_config) ;;
    ret new_config
  else
    st <- gets state_ ;;
    (if Z.land level (to_uint32 kReconfigureClose)
        =? to_uint32 kReconfigureClose
     then if State_eqb st kRunning then CloseCamera else ret tt
     else ret tt) ;;
    st <- gets state_ ;;
    (if State_eqb st kStopped then OpenCamera new_config else ret tt) ;;
    config <- gets config_ ;;
    (if negb (String.eqb (camera_info_url new_config) (camera_info_url config))
     then emit (loadCameraInfo (camera_info_url new_config))
     else ret tt) ;;
    st <- gets state_ ;;
    if State_eqb st kRunning then
      new_config <- PARAM_INT name.scanning_mode fn.scanning_mode
                      scanning_mode new_config ;;
      new_config <- PARAM_INT name.auto_exposure fn.ae_mode
                      (fun c => shl_int 1 (auto_exposure c)) new_config ;;
      new_config <- PARAM_INT name.auto_exposure_priority fn.ae_priority
                      auto_exposure_priority new_config ;;
      new_config <- PARAM_INT name.exposure_absolute fn.exposure_abs
                      (fun c => exposure_value (exposure_absolute c))
                      new_config ;;
      new_config <- PARAM_INT name.auto_focus fn.focus_auto
                      (fun c => if auto_focus c then 1 else 0) new_config ;;
      new_config <- PARAM_INT name.focus_absolute fn.focus_abs
                      focus_absolute new_config ;;
      new_config <- PARAM_INT name.gain fn.gain gain new_config ;;
      new_config <- PARAM_INT name.iris_absolute fn.iris_abs
                      iris_absolute new_config ;;
      new_config <- PARAM_INT name.brightness fn.brightness
                      brightness new_config ;;
      new_config <- pantilt new_config ;;
      modify (set_config new_config) ;;
      ret new_config
    else ret new_config.

(** ** [CameraDriver::Start] (lines 66-85)

    The call [ReconfigureCallback(config_, 0)] passes the member itself;
    the callback reads [config_] only before it assigns to it, so a copy
    behaves the same. *)
Definition Start : M bool :=
  st <- gets state_ ;;
  assert (State_eqb st kInitial) ;;
  err <- call uvc_init ;;
  if negb (err =? UVC_SUCCESS) then ret false
  else
    modify (set_ctx NonNull) ;;
    modify (set_state kStopped) ;;
    modify (set_creation false) ;;
    config <- gets config_ ;;
    ReconfigureCallback config 0 ;;
    st <- gets state_ ;;
    ret (State_eqb st kRunning).

(** ** [CameraDriver::Stop] (lines 87-101) *)
Definition Stop : M unit :=
  st <- gets state_ ;;
  assert (negb (State_eqb st kInitial)) ;;
  (if State_eqb st kRunning then CloseCamera else ret tt) ;;
  st <- gets state_ ;;
  assert (State_eqb st kStopped) ;;
  emit uvc_exit ;;
  modify (set_ctx NULL) ;;
  modify (set_state kInitial).

(** The size of the picture's buffer as the frame callback computes it
    (lines 194-197): [image->width], [image->height] and [image->step]
    are [uint32_t], so is their product. *)
Definition image_width (config : UVCCameraConfig) : Z :=
  to_uint32 (to_int (width config)).
Definition image_height (config : UVCCameraConfig) : Z :=
  to_uint32 (to_int (height config)).
Definition image_step (config : UVCCameraConfig) : Z :=
  to_uint32 (image_width config * 3).
Definition image_bytes (config : UVCCameraConfig) : Z :=
  to_uint32 (image_step config * image_height config).

(** The conversions into the scratch frame (lines 214-221, 225-232 and
    236-243): the library fills [rgb_frame_]; on success its bytes are
    copied into the picture. *)
Definition via_scratch (conversion : Call) (label : string)
    (buffer : list byte) : M (option (string * list byte)) :=
  trace <- gets calls ;;
  rgb <- gets rgb_frame_ ;;
  let filled := uvc_out trace conversion (scratch_bytes rgb) in
  conv_ret <- call conversion ;;
  modify (set_rgb_frame (Some filled)) ;;
  if negb (conv_ret =? UVC_SUCCESS) then ret None
  else
    copied <- memcpy buffer filled ;;
    ret (Some (label, copied)).

(** The chain on [frame->frame_format] (lines 203-244): the label and
    the bytes of the picture, or nothing when a conversion failed. *)
Definition convert (frame : uvc_frame) (payload buffer : list byte)
  : M (option (string * list byte)) :=
  match frame_format frame with
  | UVC_FRAME_FORMAT_BGR =>
      copied <- memcpy buffer payload ;; ret (Some ("bgr8", copied))
  | UVC_FRAME_FORMAT_RGB =>
      copied <- memcpy buffer payload ;; ret (Some ("rgb8", copied))
  | UVC_FRAME_FORMAT_UYVY =>
      copied <- memcpy buffer payload ;; ret (Some ("yuv422", copied))
  | UVC_FRAME_FORMAT_YUYV => via_scratch (uvc_yuyv2bgr frame) "bgr8" buffer
  | UVC_FRAME_FORMAT_MJPEG =>
      if LIBUVC_HAS_JPEG
      then via_scratch (uvc_mjpeg2rgb frame) "rgb8" buffer
      else via_scratch (uvc_any2bgr frame) "bgr8" buffer
  | _ => via_scratch (uvc_any2bgr frame) "bgr8" buffer
  end.

(** ** [CameraDriver::ImageCallback] (lines 171-258)

    [timestamp] is the clock's reading at entry. *)
Definition ImageCallback (timestamp : Z) (frame : uvc_frame) : M unit :=
  match data frame with
  | None => ret tt
  | Some payload =>
      st <- gets state_ ;;
      assert (State_eqb st kRunning) ;;
      rgb <- gets rgb_frame_ ;;
      assert (non_null rgb) ;;
      config <- gets config_ ;;
      if (width config =? 0) || (height config =? 0) then ret tt
      else if 1920 * 1080 * 3 <? image_bytes config then ret tt
      else
        emit (resize (image_bytes config)) ;;
        let buffer := repeat Byte.x00 (Z.to_nat (image_bytes config)) in
        converted <- convert frame payload buffer ;;
        match converted with
        | None => ret tt
        | Some (label, bytes) =>
            emit getCameraInfo ;;
            config <- gets config_ ;;
            let image :=
              {| sensor_msgs.frame_id := frame_id config;
                 sensor_msgs.stamp := timestamp;
                 sensor_msgs.height := image_height config;
                 sensor_msgs.width := image_width config;
                 sensor_msgs.encoding := label;
                 sensor_msgs.step := image_step config;
                 sensor_msgs.data := bytes |} in
            let cinfo :=
              {| sensor_msgs.info_frame_id := frame_id config;
                 sensor_msgs.info_stamp := timestamp |} in
            emit (publish image cinfo) ;;
            changed <- gets config_changed_ ;;
            if changed then
              emit (updateConfig config) ;;
              modify (set_config_changed false)
            else ret tt
        end
  end.

(** The little-endian readings of the control payload (lines 283-284
    and 296): the bytes are promoted to [int], shifted and or-ed; the
    first is then stored in a [uint32_t]. *)
Definition exposure_int (b0 b1 b2 b3 : byte) : Z :=
  to_uint32
    (to_int
       (Z.lor (Z.lor (Z.lor (byte_to_Z b0) (Z.shiftl (byte_to_Z b1) 8))
                     (Z.shiftl (byte_to_Z b2) 16))
              (Z.shiftl (byte_to_Z b3) 24))).

Definition white_balance_int (b0 b1 : byte) : Z :=
  Z.lor (byte_to_Z b0) (Z.shiftl (byte_to_Z b1) 8).

(** ** [CameraDriver::AutoControlsCallback] (lines 266-306)

    [payload] is [data] with its [data_len] bytes; the function does not
    look at [data_len], so a payload shorter than what it reads is a
    read past the end. *)
Definition AutoControlsCallback (status_class : uvc_status_class)
    (event selector : Z) (status_attribute : uvc_status_attribute)
    (payload : list byte) : M unit :=
  match status_attribute with
  | UVC_STATUS_ATTRIBUTE_VALUE_CHANGE =>
      match status_class with
      | UVC_STATUS_CLASS_CONTROL_CAMERA =>
          if selector =? UVC_CT_EXPOSURE_TIME_ABSOLUTE_CONTROL then
            match payload with
            | b0 :: b1 :: b2 :: b3 :: _ =>
                config <- gets config_ ;;
                modify (set_config
                          (with_exposure_absolute
                             (PrimFloat.mul
                                (uint32_to_double (exposure_int b0 b1 b2 b3))
                                0.0001%float)
                             config)) ;;
                modify (set_config_changed true)
            | _ => out_of_bounds
            end
          else ret tt
      | UVC_STATUS_CLASS_CONTROL_PROCESSING =>
          if selector =? UVC_PU_WHITE_BALANCE_TEMPERATURE_CONTROL then
            match payload with
            | b0 :: b1 :: _ =>
                config <- gets config_ ;;
                modify (set_config
                          (with_white_balance_temperature
                             (white_balance_int b0 b1) config)) ;;
                modify (set_config_changed true)
            | _ => out_of_bounds
            end
          else ret tt
      | _ => ret tt
      end
  | _ => ret tt
  end.

End Driver.

(** ** What a rollback amounts to

    The member each setter belongs to, as the [PARAM_INT] lines pair
    them. *)
Definition field_of (f : fn.t) : Field :=
  match f with
  | fn.scanning_mode => name.scanning_mode
  | fn.ae_mode => name.auto_exposure
  | fn.ae_priority => name.auto_exposure_priority
  | fn.exposure_abs => name.exposure_absolute
  | fn.focus_auto => name.auto_focus
  | fn.focus_abs => name.focus_absolute
  | fn.gain => name.gain
  | fn.iris_abs => name.iris_absolute
  | fn.brightness => name.brightness
  end.

(** The device refused a write through setter [f] among [evs]. *)
Definition rejected (f : fn.t) (evs : list Event) : bool :=
  existsb (fun e =>
             match e with
             | Called (uvc_set g _) err => fn.eqb f g && negb (err =? 0)
             | _ => false
             end) evs.

(** The device refused a pan-and-tilt write among [evs]. *)
Definition pantilt_rejected (evs : list Event) : bool :=
  existsb (fun e =>
             match e with
             | Called (uvc_set_pantilt_abs _ _) err => negb (err =? 0)
             | _ => false
             end) evs.

(** [new_config] with every control the device refused among [evs] put
    back to its value in [config]. *)
Definition rolled_back (config new_config : UVCCameraConfig)
    (evs : list Event) : UVCCameraConfig :=
  let keep {A : Type} (refused : bool) (member : UVCCameraConfig -> A) : A :=
    if refused then member config else member new_config in
  {| vendor := vendor new_config;
     product := product new_config;
     serial := serial new_config;
     index := index new_config;
     width := width new_config;
     height := height new_config;
     video_mode := video_mode new_config;
     frame_rate := frame_rate new_config;
     frame_id := frame_id new_config;
     camera_info_url := camera_info_url new_config;
     scanning_mode := keep (rejected fn.scanning_mode evs) scanning_mode;
     auto_exposure := keep (rejected fn.ae_mode evs) auto_exposure;
     auto_exposure_priority :=
       keep (rejected fn.ae_priority evs) auto_exposure_priority;
     exposure_absolute := keep (rejected fn.exposure_abs evs) exposure_absolute;
     auto_focus := keep (rejected fn.focus_auto evs) auto_focus;
     focus_absolute := keep (rejected fn.focus_abs evs) focus_absolute;
     pan_absolute := keep (pantilt_rejected evs) pan_absolute;
     tilt_absolute := keep (pantilt_rejected evs) tilt_absolute;
     gain := keep (rejected fn.gain evs) gain;
     iris_absolute := keep (rejected fn.iris_abs evs) iris_absolute;
     brightness := keep (rejected fn.brightness evs) brightness;
     white_balance_temperature := white_balance_temperature new_config |}.

(** The same, one call at a time: what a single answer of the device
    does to the snapshot about to be committed. *)
Definition undo (config new_config : UVCCameraConfig) (e : Event)
  : UVCCameraConfig :=
  match e with
  | Called (uvc_set f _) err =>
      if err =? 0 then new_config else restore (field_of f) config new_config
  | Called (uvc_set_pantilt_abs _ _) err =>
      if err =? 0 then new_config
      else with_tilt_absolute (tilt_absolute config)
             (with_pan_absolute (pan_absolute config) new_config)
  | _ => new_config
  end.

(** A driver is consistent when the creation phase is over by the time
    it leaves [kInitial]. *)
Definition consistent (d : CameraDriver) : Prop :=
  creation_ d = true -> state_ d = kInitial.

(** What the frame converter leaves alone: everything but the scratch
    frame and the trace, to which it adds at most the conversion call. *)
Definition converter_frame (d d' : CameraDriver) : Prop :=
  state_ d' = state_ d /\ config_ d' = config_ d /\
  config_changed_ d' = config_changed_ d /\
  creation_ d' = creation_ d /\
  published (calls d') = published (calls d) /\
  allocated (calls d') = allocated (calls d).

(** The label the chain gives a frame it copies as it is. *)
Definition copied_label (format : uvc_frame_format) : option string :=
  match format with
  | UVC_FRAME_FORMAT_BGR => Some "bgr8"
  | UVC_FRAME_FORMAT_RGB => Some "rgb8"
  | UVC_FRAME_FORMAT_UYVY => Some "yuv422"
  | _ => None
  end.

(** The picture published for a frame that is copied as it is. *)
Definition copied_image (timestamp : Z) (config : UVCCameraConfig)
    (label : string) (payload : list byte) : sensor_msgs.Image :=
  {| sensor_msgs.frame_id := frame_id config;
     sensor_msgs.stamp := timestamp;
     sensor_msgs.height := image_height config;
     sensor_msgs.width := image_width config;
     sensor_msgs.encoding := label;
     sensor_msgs.step := image_step config;
     sensor_msgs.data :=
       payload
       ++ repeat Byte.x00
            (Z.to_nat (image_bytes config) - List.length payload) |}.

Definition quiet (evs : list Event) : Prop :=
  Forall (fun e => is_control_write e = false) evs.

(** What opening the camera leaves alone, and where it can end: the
    snapshot and the flags are untouched, no control is written, and the
    state either stays or becomes [kRunning]. *)
Definition untouched (d d' : CameraDriver) : Prop :=
  config_ d' = config_ d /\ creation_ d' = creation_ d /\
  config_changed_ d' = config_changed_ d /\
  exists evs : list Event, calls d' = calls d ++ evs /\ quiet evs.

Section Phases.

Context {P : Platform}.

(** A step of the control block: it returns, it adds control writes
    only, and its result is its argument with the refused ones undone. *)
Definition control_step (m : UVCCameraConfig -> M UVCCameraConfig) : Prop :=
  forall (new_config : UVCCameraConfig) (d : CameraDriver),
  exists evs : list Event,
    Forall (fun e => is_control_write e = true) evs /\
    m new_config d =
      Ret (fold_left (undo (config_ d)) evs new_config)
          (set_calls (calls d ++ evs) d).

(** The block of lines 136-153 as one function. *)
Definition push_controls (new_config : UVCCameraConfig)
  : M UVCCameraConfig :=
  new_config <- PARAM_INT name.scanning_mode fn.scanning_mode
                  scanning_mode new_config ;;
  new_config <- PARAM_INT name.auto_exposure fn.ae_mode
                  (fun c => shl_int 1 (auto_exposure c)) new_config ;;
  new_config <- PARAM_INT name.auto_exposure_priority fn.ae_priority
                  auto_exposure_priority new_config ;;
  new_config <- PARAM_INT name.exposure_absolute fn.exposure_abs
                  (fun c => exposure_value (exposure_absolute c))
                  new_config ;;
  new_config <- PARAM_INT name.auto_focus fn.focus_auto
                  (fun c => if auto_focus c then 1 else 0) new_config ;;
  new_config <- PARAM_INT name.focus_absolute fn.focus_abs
                  focus_absolute new_config ;;
  new_config <- PARAM_INT name.gain fn.gain gain new_config ;;
  new_config <- PARAM_INT name.iris_absolute fn.iris_abs
                  iris_absolute new_config ;;
  new_config <- PARAM_INT name.brightness fn.brightness
                  brightness new_config ;;
  pantilt new_config.

(** Lines 112-122: close when the mask asks for it, open when stopped,
    reload the calibration when its address changed. *)
Definition prepare (new_config : UVCCameraConfig) (level : Z) : M unit :=
  st <- gets state_ ;;
  (if Z.land level (to_uint32 kReconfigureClose)
      =? to_uint32 kReconfigureClose
   then if State_eqb st kRunning then CloseCamera else ret tt
   else ret tt) ;;
  st <- gets state_ ;;
  (if State_eqb st kStopped then OpenCamera new_config else ret tt) ;;
  config <- gets config_ ;;
  (if negb (String.eqb (camera_info_url new_config) (camera_info_url config))
   then emit (loadCameraInfo (camera_info_url new_config))
   else ret tt).

(** The second half of [prepare]: open when stopped, then reload. *)
Definition open_and_reload (new_config : UVCCameraConfig) : M unit :=
  st <- gets state_ ;;
  (if State_eqb st kStopped then OpenCamera new_config else ret tt) ;;
  config <- gets config_ ;;
  (if negb (String.eqb (camera_info_url new_config) (camera_info_url config))
   then emit (loadCameraInfo (camera_info_url new_config))
   else ret tt).

(** The drivers the program can get to: a fresh one, and what each
    entry point leaves behind. *)
Inductive reachable : CameraDriver -> Prop :=
| reach_new (config : UVCCameraConfig) :
    reachable (CameraDriver_new config)
| reach_Start (d : CameraDriver) :
    reachable d -> reachable (driver_of (Start d))
| reach_Stop (d : CameraDriver) :
    reachable d -> reachable (driver_of (Stop d))
| reach_Reconfigure (new_config : UVCCameraConfig) (level : Z)
    (d : CameraDriver) :
    reachable d ->
    reachable (driver_of (ReconfigureCallback new_config level d))
| reach_Image (timestamp : Z) (frame : uvc_frame) (d : CameraDriver) :
    reachable d -> reachable (driver_of (ImageCallback timestamp frame d))
| reach_AutoControls (status_class : uvc_status_class) (event selector : Z)
    (status_attribute : uvc_status_attribute) (payload : list byte)
    (d : CameraDriver) :
    reachable d ->
    reachable (driver_of (AutoControlsCallback status_class event selector
                            status_attribute payload d)).

End Phases.

(** * The rest of the driver

    The destructor, and the vocabulary for what the driver holds
    and calls over a whole run. *)

(** ** [CameraDriver::~CameraDriver] (lines 58-64)

    The scratch frame is freed when there is one, the context is
    released when there is one; the members are not written, the object
    is going away. *)
Definition CameraDriver_delete : M unit :=
  rgb <- gets rgb_frame_ ;;
  (if non_null rgb then emit uvc_free_frame else ret tt) ;;
  ctx <- gets ctx_ ;;
  match ctx with
  | NonNull => emit uvc_exit
  | NULL => ret tt
  end.

(** ** Counting what is acquired and what is released *)

Definition count (p : Event -> bool) (evs : list Event) : nat :=
  List.length (filter p evs).

(** A context obtained, a context released. *)
Definition context_obtained (e : Event) : bool :=
  match e with
  | Called uvc_init err => err =? UVC_SUCCESS
  | _ => false
  end.

Definition context_released (e : Event) : bool :=
  match e with
  | Called uvc_exit _ => true
  | _ => false
  end.

(** A device found (which takes a reference on it), a reference given
    back. *)
Definition device_found (e : Event) : bool :=
  match e with
  | Called (uvc_find_device _ _ _) err => err =? UVC_SUCCESS
  | _ => false
  end.

Definition device_released (e : Event) : bool :=
  match e with
  | Called uvc_unref_device _ => true
  | _ => false
  end.

(** A device handle opened, a device handle closed. *)
Definition handle_opened (e : Event) : bool :=
  match e with
  | Called uvc_open err => err =? UVC_SUCCESS
  | _ => false
  end.

Definition handle_closed (e : Event) : bool :=
  match e with
  | Called uvc_close _ => true
  | _ => false
  end.

(** A scratch frame allocated (a non-null pointer came back), a scratch
    frame freed. *)
Definition frame_allocated (e : Event) : bool :=
  match e with
  | Called (uvc_allocate_frame _) p => negb (p =? 0)
  | _ => false
  end.

Definition frame_freed (e : Event) : bool :=
  match e with
  | Called uvc_free_frame _ => true
  | _ => false
  end.

Definition one_if (b : bool) : nat := if b then 1%nat else 0%nat.

(** What the driver holds matches its state: a context exactly outside
    [kInitial], a device and an open handle exactly in [kRunning], a
    scratch frame exactly when [rgb_frame_] is set; and in [kRunning]
    the scratch frame and both device pointers are set. *)
Record balanced (d : CameraDriver) : Prop := {
  held_context :
    count context_obtained (calls d)
    = (count context_released (calls d)
       + one_if (negb (State_eqb (state_ d) kInitial)))%nat;
  held_device :
    count device_found (calls d)
    = (count device_released (calls d)
       + one_if (State_eqb (state_ d) kRunning))%nat;
  held_handle :
    count handle_opened (calls d)
    = (count handle_closed (calls d)
       + one_if (State_eqb (state_ d) kRunning))%nat;
  held_frame :
    count frame_allocated (calls d)
    = (count frame_freed (calls d) + one_if (non_null (rgb_frame_ d)))%nat;
  context_pointer : ctx_ d = NULL <-> state_ d = kInitial;
  running_pointers :
    state_ d = kRunning ->
    rgb_frame_ d <> None /\ dev_ d = NonNull /\ devh_ d = NonNull
}.

(** An event that neither acquires nor releases anything. *)
Definition neutral (e : Event) : bool :=
  negb (context_obtained e || context_released e || device_found e
        || device_released e || handle_opened e || handle_closed e
        || frame_allocated e || frame_freed e).

(** [d'] is [d] after calls that acquire and release nothing: same
    state, same pointers, a scratch frame if there was one. *)
Definition same_holdings (d d' : CameraDriver) : Prop :=
  state_ d' = state_ d /\ ctx_ d' = ctx_ d /\ dev_ d' = dev_ d /\
  devh_ d' = devh_ d /\
  non_null (rgb_frame_ d') = non_null (rgb_frame_ d) /\
  exists evs : list Event,
    calls d' = calls d ++ evs /\ forallb neutral evs = true.

(** The calls [OpenCamera] and [CloseCamera] make. *)
Definition opening (e : Event) : bool :=
  match e with
  | Called (uvc_find_device _ _ _) _ | Called uvc_open _
  | Called uvc_unref_device _ | Called uvc_set_status_callback _
  | Called (uvc_get_stream_ctrl_format_size _ _ _ _) _
  | Called uvc_start_iso_streaming _ | Called uvc_close _
  | Called uvc_print_diag _ | Called uvc_free_frame _
  | Called (uvc_allocate_frame _) _ => true
  | _ => false
  end.

(** A request to the calibration manager to load from an address. *)
Definition is_reload (e : Event) : bool :=
  match e with
  | Called (loadCameraInfo _) _ => true
  | _ => false
  end.

(** An exposure that is a number: it equals itself. *)
Definition is_number (x : double) : bool := PrimFloat.eqb x x.

(** The request to load the calibration that a new snapshot brings
    about: one when its address is not the stored one. *)
Definition reloads (config new_config : UVCCameraConfig) : list Event :=
  if negb (String.eqb (camera_info_url new_config) (camera_info_url config))
  then [Called (loadCameraInfo (camera_info_url new_config)) 0]
  else [].

Definition call_of (e : Event) : Call :=
  match e with Called c _ => c end.

(** The setters in the order of the [PARAM_INT] lines (136-145). *)
Definition setters : list fn.t :=
  [fn.scanning_mode; fn.ae_mode; fn.ae_priority; fn.exposure_abs;
   fn.focus_auto; fn.focus_abs; fn.gain; fn.iris_abs; fn.brightness].

(** The value each line hands to its setter. *)
Definition value_of (f : fn.t) (c : UVCCameraConfig) : Z :=
  match f with
  | fn.scanning_mode => scanning_mode c
  | fn.ae_mode => shl_int 1 (auto_exposure c)
  | fn.ae_priority => auto_exposure_priority c
  | fn.exposure_abs => exposure_value (exposure_absolute c)
  | fn.focus_auto => if auto_focus c then 1 else 0
  | fn.focus_abs => focus_absolute c
  | fn.gain => gain c
  | fn.iris_abs => iris_absolute c
  | fn.brightness => brightness c
  end.

(** The writes a new snapshot asks for: one for each control whose
    value is not the stored one, in the order of the lines, then pan and
    tilt together. *)
Definition wanted (config new_config : UVCCameraConfig) : list Call :=
  flat_map (fun f => if differs (field_of f) new_config config
                     then [uvc_set f (value_of f new_config)] else [])
           setters
  ++ (if int_differs (pan_absolute new_config) (pan_absolute config)
         || int_differs (tilt_absolute new_config) (tilt_absolute config)
      then [uvc_set_pantilt_abs (pan_absolute new_config)
                                (tilt_absolute new_config)]
      else []).

(** A report of the current snapshot to the configuration server. *)
Definition is_update (e : Event) : bool :=
  match e with
  | Called (updateConfig _) _ => true
  | _ => false
  end.

(** [c] is [new_config] as far as the lines of [fs] and the pan-and-tilt
    line look at it. *)
Definition agrees (fs : list fn.t) (c new_config : UVCCameraConfig) : Prop :=
  (forall f : fn.t, In f fs ->
     (forall config : UVCCameraConfig,
        differs (field_of f) c config
        = differs (field_of f) new_config config) /\
     value_of f c = value_of f new_config) /\
  pan_absolute c = pan_absolute new_config /\
  tilt_absolute c = tilt_absolute new_config.

(** A call to one of the library's frame conversions. *)
Definition conversion (e : Event) : bool :=
  match e with
  | Called (uvc_yuyv2bgr _) _ | Called (uvc_mjpeg2rgb _) _
  | Called (uvc_any2bgr _) _ => true
  | _ => false
  end.

(** A driver that has not got past the library's initialisation: it
    holds no context and has called nothing but [uvc_init], which
    refused each time. *)
Definition unopened (d : CameraDriver) : Prop :=
  state_ d = kInitial /\ ctx_ d = NULL /\ dev_ d = NULL /\ devh_ d = NULL /\
  rgb_frame_ d = None /\
  Forall (fun e => exists err : Z,
                     e = Called uvc_init err /\ err <> UVC_SUCCESS)
         (calls d).

(** A library without memory for the scratch frame. *)
Definition no_memory (c : Call) : Z := 0.

Section Runs.

Context {P : Platform}.

(** The drivers of a process that has not been stopped by a failure:
    a fresh one, and what an entry point that returned leaves behind. *)
Inductive live : CameraDriver -> Prop :=
| live_new (config : UVCCameraConfig) :
    live (CameraDriver_new config)
| live_Start (d d' : CameraDriver) (started : bool) :
    live d -> Start d = Ret started d' -> live d'
| live_Stop (d d' : CameraDriver) :
    live d -> Stop d = Ret tt d' -> live d'
| live_Reconfigure (new_config committed : UVCCameraConfig) (level : Z)
    (d d' : CameraDriver) :
    live d ->
    ReconfigureCallback new_config level d = Ret committed d' -> live d'
| live_Image (timestamp : Z) (frame : uvc_frame) (d d' : CameraDriver) :
    live d -> ImageCallback timestamp frame d = Ret tt d' -> live d'
| live_AutoControls (status_class : uvc_status_class) (event selector : Z)
    (status_attribute : uvc_status_attribute) (payload : list byte)
    (d d' : CameraDriver) :
    live d ->
    AutoControlsCallback status_class event selector status_attribute
      payload d = Ret tt d' ->
    live d'.

(** The [PARAM_INT] lines of [fs], one after the other, then [k]. *)
Fixpoint push_each (fs : list fn.t)
    (k : UVCCameraConfig -> M UVCCameraConfig) (c : UVCCameraConfig)
  : M UVCCameraConfig :=
  match fs with
  | [] => k c
  | f :: rest =>
      c' <- PARAM_INT (field_of f) f (value_of f) c ;; push_each rest k c'
  end.

End Runs.

(** ** Sample surroundings

    Concrete values to run the driver on: the constants as the headers
    have them, and a library whose answer to each call is given by
    [answers]; a conversion leaves the scratch frame as it was. *)
Definition sample_platform (answers : Call -> Z) : Platform :=
  {| kReconfigureClose := 3;
     UVC_CT_EXPOSURE_TIME_ABSOLUTE_CONTROL := 4;
     UVC_PU_WHITE_BALANCE_TEMPERATURE_CONTROL := 10;
     LIBUVC_HAS_JPEG := true;
     strtol := fun _ => 0;
     uvc := fun _ c => answers c;
     uvc_out := fun _ _ bytes => bytes |}.

(** A library that accepts everything. *)
Definition accepts_all (c : Call) : Z :=
  match c with
  | uvc_allocate_frame _ => 1
  | _ => 0
  end.

(** A library on which no device is found. *)
Definition no_device (c : Call) : Z :=
  match c with
  | uvc_find_device _ _ _ => -4
  | uvc_allocate_frame _ => 1
  | _ => 0
  end.

(** A device that refuses every control write. *)
Definition rejects_controls (c : Call) : Z :=
  match c with
  | uvc_set _ _ | uvc_set_pantilt_abs _ _ => -9
  | uvc_allocate_frame _ => 1
  | _ => 0
  end.

(** A snapshot asking for a picture [w] wide and [h] high, with an
    exposure of 0.01. *)
Definition sized_config (w h : Z) : UVCCameraConfig :=
  {| vendor := "0x046d"; product := "0x0825"; serial := ""; index := 0;
     width := w; height := h; video_mode := "bgr";
     frame_rate := 30%float; frame_id := "camera"; camera_info_url := "";
     scanning_mode := 0; auto_exposure := 3; auto_exposure_priority := 0;
     exposure_absolute := 0.01%float; auto_focus := true;
     focus_absolute := 0; pan_absolute := 0; tilt_absolute := 0;
     gain := 0; iris_absolute := 0; brightness := 0;
     white_balance_temperature := 4000 |}.

(** A two-pixel picture: one pixel wide, two high, six bytes. *)
Definition tiny_config : UVCCameraConfig := sized_config 1 2.

(** The same with another width, as a request to renegotiate. *)
Definition retuned_config : UVCCameraConfig := sized_config 2 2.

(** A picture above the ceiling: 4096 * 3 * 4096 bytes. *)
Definition huge_config : UVCCameraConfig := sized_config 4096 4096.

(** A snapshot whose width was never set. *)
Definition blank_config : UVCCameraConfig := sized_config 0 480.

(** A width whose step no longer fits 32 bits. *)
Definition wrapping_config : UVCCameraConfig := sized_config 1431655766 1.

(** A BGR frame of six bytes, and one cut short after three. *)
Definition full_bgr_frame : uvc_frame :=
  {| data := Some [Byte.x01; Byte.x02; Byte.x03; Byte.x04; Byte.x05; Byte.x06];
     frame_format := UVC_FRAME_FORMAT_BGR |}.

Definition short_bgr_frame : uvc_frame :=
  {| data := Some [Byte.x01; Byte.x02; Byte.x03];
     frame_format := UVC_FRAME_FORMAT_BGR |}.

(** A driver that is streaming with [config] as its snapshot. *)
Definition running (config : UVCCameraConfig) : CameraDriver :=
  {| state_ := kRunning; ctx_ := NonNull; dev_ := NonNull; devh_ := NonNull;
     rgb_frame_ := Some [];
     creation_ := false; config_changed_ := false;
     config_ := config; calls := [] |}.

(** A driver with a context and no device. *)
Definition stopped (config : UVCCameraConfig) : CameraDriver :=
  {| state_ := kStopped; ctx_ := NonNull; dev_ := NULL; devh_ := NULL;
     rgb_frame_ := None;
     creation_ := false; config_changed_ := false;
     config_ := config; calls := [] |}.

(** The reconfiguration that asks for [retuned_config] with the close
    bits set, on a streaming driver whose device is gone by the time it
    is reopened. *)
Definition failed_reopen : Result UVCCameraConfig :=
  @ReconfigureCallback (sample_platform no_device) retuned_config 3
    (running tiny_config).

(** The frame callback on the short BGR frame. *)
Definition short_frame_run : Result unit :=
  @ImageCallback (sample_platform accepts_all) 7 short_bgr_frame
    (running tiny_config).

(** ** More sample runs *)

(** The driver that [Start] leaves on a fresh one, with a library that
    accepts everything. *)
Definition started : CameraDriver :=
  driver_of (@Start (sample_platform accepts_all)
               (CameraDriver_new tiny_config)).

(** A library that cannot be initialised. *)
Definition no_library (c : Call) : Z :=
  match c with
  | uvc_init => -1
  | uvc_allocate_frame _ => 1
  | _ => 0
  end.

(** The driver that [Start] leaves when the library refuses. *)
Definition refused_init : CameraDriver :=
  driver_of (@Start (sample_platform no_library)
               (CameraDriver_new tiny_config)).

(** A BGR frame of seven bytes, one more than the two-pixel picture. *)
Definition long_bgr_frame : uvc_frame :=
  {| data := Some [Byte.x01; Byte.x02; Byte.x03; Byte.x04; Byte.x05;
                   Byte.x06; Byte.x07];
     frame_format := UVC_FRAME_FORMAT_BGR |}.

(** The two-pixel snapshot with another calibration, gain and exposure. *)
Definition relocated_config : UVCCameraConfig :=
  {| vendor := "0x046d"; product := "0x0825"; serial := ""; index := 0;
     width := 1; height := 2; video_mode := "bgr";
     frame_rate := 30%float; frame_id := "camera";
     camera_info_url := "file:///calibration.yaml";
     scanning_mode := 0; auto_exposure := 3; auto_exposure_priority := 0;
     exposure_absolute := 0.02%float; auto_focus := true;
     focus_absolute := 0; pan_absolute := 0; tilt_absolute := 0;
     gain := 4; iris_absolute := 0; brightness := 0;
     white_balance_temperature := 4000 |}.

(** The reconfiguration that asks for it of a streaming driver whose
    device refuses every control. *)
Definition relocation : Result UVCCameraConfig :=
  @ReconfigureCallback (sample_platform rejects_controls) relocated_config 0
    (running tiny_config).

(** A stopped driver reopened by a library that has no scratch frame. *)
Definition starved_reopen : Result UVCCameraConfig :=
  @ReconfigureCallback (sample_platform no_memory) retuned_config 0
    (stopped tiny_config).

(** A streaming driver with a report pending. *)
Definition pending (config : UVCCameraConfig) : CameraDriver :=
  set_config_changed true (running config).

(** * Properties *)

Ltac run :=
  cbv [bind ret gets modify assert emit call out_of_bounds]; cbn.
#[local] Arguments to_uint32 : simpl never.
#[local] Arguments to_int : simpl never.
#[local] Arguments image_width : simpl never.
#[local] Arguments image_height : simpl never.
#[local] Arguments image_step : simpl never.
#[local] Arguments image_bytes : simpl never.
#[local] Arguments exposure_value : simpl never.
#[local] Arguments shl_int : simpl never.
#[local] Arguments exposure_int : simpl never.
#[local] Arguments white_balance_int : simpl never.
#[local] Arguments uint32_to_double : simpl never.

(** ** The video-mode table *)

Lemma eqb_neq_false (a b : string) : a <> b -> String.eqb a b = false.
Proof. intro H. now apply String.eqb_neq. Qed.

(** C10.  [GetVideoMode] is a total function: each of the eight known
    strings gives its format, every other string gives the uncompressed
    format. *)
Theorem GetVideoMode_table :
  GetVideoMode "uncompressed" = UVC_COLOR_FORMAT_UNCOMPRESSED /\
  GetVideoMode "compressed" = UVC_COLOR_FORMAT_COMPRESSED /\
  GetVideoMode "yuyv" = UVC_COLOR_FORMAT_YUYV /\
  GetVideoMode "uyvy" = UVC_COLOR_FORMAT_UYVY /\
  GetVideoMode "rgb" = UVC_COLOR_FORMAT_RGB /\
  GetVideoMode "bgr" = UVC_COLOR_FORMAT_BGR /\
  GetVideoMode "mjpeg" = UVC_COLOR_FORMAT_MJPEG /\
  GetVideoMode "gray8" = UVC_COLOR_FORMAT_GRAY8 /\
  (forall vmode : string,
      ~ In vmode video_modes ->
      GetVideoMode vmode = UVC_COLOR_FORMAT_UNCOMPRESSED).
Proof.
  repeat (split; [reflexivity|]).
  intros vmode Hnot. unfold GetVideoMode.
  repeat match goal with
  | |- context [String.eqb vmode ?s] =>
      rewrite (eqb_neq_false vmode s)
        by (intro Heq; apply Hnot; rewrite Heq; cbn; tauto)
  end.
  reflexivity.
Qed.

Section Properties.

Context {P : Platform}.

(** ** [Stop] *)

(** C9.  [Stop] entered in [kInitial] fails its first assertion with
    nothing released (the driver and the trace are untouched).  Entered
    in any other state it returns: it closes the device first when
    Running, releases the context, clears [ctx_] and ends in [kInitial];
    a second [Stop] right after it fails the assertion. *)
Theorem Stop_contract (d : CameraDriver) :
  (state_ d = kInitial -> Stop d = Fail AssertionFailed d) /\
  (state_ d <> kInitial ->
   exists d' : CameraDriver,
     Stop d = Ret tt d' /\
     state_ d' = kInitial /\
     ctx_ d' = NULL /\
     calls d' =
       calls d
       ++ (if State_eqb (state_ d) kRunning
           then [Called uvc_close 0; Called uvc_unref_device 0] else [])
       ++ [Called uvc_exit 0] /\
     Stop d' = Fail AssertionFailed d').
Proof.
  destruct d as [st ctx dev devh rgb creation changed config trace].
  cbn [state_ calls]. split.
  - intros ->. reflexivity.
  - intro Hst. destruct st; [congruence| |].
    + eexists. split; [reflexivity|]. cbn. repeat split.
    + eexists. split; [reflexivity|]. cbn. repeat split.
      now rewrite <- !app_assoc.
Qed.

(** ** The control-change callback *)

(** C5.  A value-change event of the camera-control class for the
    absolute-exposure selector with payload [10 27 00 00] (hexadecimal)
    returns with [exposure_absolute] set to 1.0 -- the bytes read as the
    little-endian number 10000, times 0.0001 in [double] arithmetic --
    and the dirty flag set; every other member of the snapshot and of
    the driver is as before. *)
Theorem exposure_event_decoded (d : CameraDriver) (event : Z) :
  AutoControlsCallback UVC_STATUS_CLASS_CONTROL_CAMERA event
    UVC_CT_EXPOSURE_TIME_ABSOLUTE_CONTROL UVC_STATUS_ATTRIBUTE_VALUE_CHANGE
    [Byte.x10; Byte.x27; Byte.x00; Byte.x00] d
  = Ret tt
      (set_config_changed true
         (set_config (with_exposure_absolute 1%float (config_ d)) d)).
Proof.
  unfold AutoControlsCallback. rewrite Z.eqb_refl.
  assert (Hint : exposure_int Byte.x10 Byte.x27 Byte.x00 Byte.x00 = 10000)
    by reflexivity.
  assert (Hmul : PrimFloat.mul (uint32_to_double 10000) 0.0001%float
                 = 1%float) by reflexivity.
  run. rewrite Hint, Hmul. reflexivity.
Qed.

(** ** Arithmetic of the picture's size *)

Lemma to_int_small (z : Z) : - 2 ^ 31 <= z < 2 ^ 31 -> to_int z = z.
Proof. intro H. unfold to_int. rewrite Z.mod_small; lia. Qed.

Lemma to_uint32_small (z : Z) : 0 <= z < 2 ^ 32 -> to_uint32 z = z.
Proof. intro H. unfold to_uint32. now apply Z.mod_small. Qed.

(** As long as the product fits 32 bits the callback's size is the
    plain product, and so are the picture's width, height and step. *)
Lemma image_size_exact (config : UVCCameraConfig) :
  0 < width config -> 0 < height config ->
  width config * 3 * height config < 2 ^ 32 ->
  image_width config = width config /\
  image_height config = height config /\
  image_step config = width config * 3 /\
  image_bytes config = width config * 3 * height config.
Proof.
  intros Hw Hh Hb.
  assert (width config < 2 ^ 31) by nia.
  assert (height config < 2 ^ 31) by nia.
  unfold image_bytes, image_step, image_width, image_height.
  rewrite !to_int_small by lia.
  rewrite (to_uint32_small (width config)) by lia.
  rewrite (to_uint32_small (height config)) by lia.
  rewrite (to_uint32_small (width config * 3)) by nia.
  rewrite to_uint32_small by nia. auto.
Qed.

(** ** The trace's projections *)

Lemma published_app (a b : list Event) :
  published (a ++ b) = published a ++ published b.
Proof.
  induction a as [|[c r] a IH]; [reflexivity|].
  destruct c; cbn; rewrite IH; reflexivity.
Qed.

Lemma allocated_app (a b : list Event) :
  allocated (a ++ b) = allocated a ++ allocated b.
Proof.
  induction a as [|[c r] a IH]; [reflexivity|].
  destruct c; cbn; rewrite IH; reflexivity.
Qed.

(** ** Copies *)

Lemma memcpy_Ret (dst src bytes : list byte) (d d' : CameraDriver) :
  memcpy dst src d = Ret bytes d' ->
  d' = d /\
  bytes = src ++ skipn (List.length src) dst /\
  List.length bytes = List.length dst.
Proof.
  unfold memcpy, ret, out_of_bounds.
  destruct (List.length src <=? List.length dst)%nat eqn:Hle;
    cbn; [|discriminate].
  apply Nat.leb_le in Hle.
  intro H. inversion H; subst. repeat split.
  rewrite length_app, length_skipn. lia.
Qed.

Lemma memcpy_driver (dst src : list byte) (d : CameraDriver) :
  driver_of (memcpy dst src d) = d.
Proof. unfold memcpy. now destruct (_ <=? _)%nat. Qed.

Lemma memcpy_fits (dst src : list byte) (d : CameraDriver) :
  (List.length src <= List.length dst)%nat ->
  memcpy dst src d = Ret (src ++ skipn (List.length src) dst) d.
Proof.
  intro H. unfold memcpy.
  apply Nat.leb_le in H. now rewrite H.
Qed.

(** A copy of as many bytes as the buffer holds replaces it whole. *)
Lemma memcpy_whole (dst src : list byte) (d : CameraDriver) :
  List.length src = List.length dst -> memcpy dst src d = Ret src d.
Proof.
  intro H. rewrite memcpy_fits by lia.
  rewrite H, skipn_all, app_nil_r. reflexivity.
Qed.

(** ** The frame converter *)

Lemma converter_frame_refl (d : CameraDriver) : converter_frame d d.
Proof. repeat split. Qed.

Lemma via_scratch_outcome (c : Call) (label : string) (buffer : list byte)
    (d : CameraDriver) :
  published [Called c (uvc (calls d) c)] = [] ->
  allocated [Called c (uvc (calls d) c)] = [] ->
  converter_frame d (driver_of (via_scratch c label buffer d)) /\
  forall l bytes d',
    via_scratch c label buffer d = Ret (Some (l, bytes)) d' ->
    l = label /\ List.length bytes = List.length buffer.
Proof.
  intros Hp Ha. unfold via_scratch. run.
  destruct (negb _).
  - split; [|discriminate]. cbn.
    repeat split; cbn; rewrite ?published_app, ?allocated_app, ?Hp, ?Ha;
      now rewrite ?app_nil_r.
  - match goal with |- context [memcpy ?a ?b ?s] =>
      pose proof (memcpy_driver a b s) as Hd;
      destruct (memcpy a b s) as [copied d1|why d1] eqn:E end.
    + apply memcpy_Ret in E as (-> & -> & Hlen). cbn. split.
      * repeat split; cbn; rewrite ?published_app, ?allocated_app, ?Hp, ?Ha;
          now rewrite ?app_nil_r.
      * intros l bytes d' H. inversion H; subst. split; [reflexivity|].
        rewrite <- Hlen. reflexivity.
    + cbn in Hd. subst d1. cbn. split; [|discriminate].
      repeat split; cbn; rewrite ?published_app, ?allocated_app, ?Hp, ?Ha;
        now rewrite ?app_nil_r.
Qed.

Lemma convert_outcome (frame : uvc_frame) (payload buffer : list byte)
    (d : CameraDriver) :
  converter_frame d (driver_of (convert frame payload buffer d)) /\
  forall l bytes d',
    convert frame payload buffer d = Ret (Some (l, bytes)) d' ->
    List.length bytes = List.length buffer.
Proof.
  assert (Hcopy : forall label : string,
    converter_frame d
      (driver_of ((copied <- memcpy buffer payload ;;
                   ret (Some (label, copied))) d)) /\
    forall l bytes d',
      (copied <- memcpy buffer payload ;; ret (Some (label, copied))) d
        = Ret (Some (l, bytes)) d' ->
      List.length bytes = List.length buffer).
  { intro label. unfold bind.
    pose proof (memcpy_driver buffer payload d) as Hd.
    destruct (memcpy buffer payload d) as [copied d1|why d1] eqn:E;
      cbn in Hd; subst d1; cbn.
    - split; [apply converter_frame_refl|].
      intros l bytes d' H. inversion H; subst.
      now apply memcpy_Ret in E as (_ & _ & Hlen).
    - split; [apply converter_frame_refl|discriminate]. }
  assert (Hvia : forall (c : Call) (label : string),
    published [Called c (uvc (calls d) c)] = [] ->
    allocated [Called c (uvc (calls d) c)] = [] ->
    converter_frame d (driver_of (via_scratch c label buffer d)) /\
    forall l bytes d',
      via_scratch c label buffer d = Ret (Some (l, bytes)) d' ->
      List.length bytes = List.length buffer).
  { intros c label Hp Ha.
    destruct (via_scratch_outcome c label buffer d Hp Ha) as [Hf Hl].
    split; [exact Hf|]. intros l bytes d' H. now apply Hl in H. }
  unfold convert.
  destruct (frame_format frame); try apply Hcopy;
    try (apply Hvia; reflexivity).
  destruct LIBUVC_HAS_JPEG; apply Hvia; reflexivity.
Qed.

(** The early returns of the frame callback -- a zero width or height,
    a size above the ceiling -- leave the driver as it was. *)
Lemma ImageCallback_drops (timestamp : Z) (frame : uvc_frame)
    (d : CameraDriver) :
  (width (config_ d) =? 0) || (height (config_ d) =? 0)
  || (1920 * 1080 * 3 <? image_bytes (config_ d)) = true ->
  driver_of (ImageCallback timestamp frame d) = d /\
  (state_ d = kRunning -> rgb_frame_ d <> None ->
   ImageCallback timestamp frame d = Ret tt d).
Proof.
  intro Hdrop. unfold ImageCallback.
  destruct (data frame) as [payload|]; [|split; reflexivity].
  run.
  destruct (State_eqb (state_ d) kRunning) eqn:Est; cbn.
  - destruct (rgb_frame_ d) as [scratch|] eqn:Ergb; cbn.
    + destruct ((width (config_ d) =? 0) || (height (config_ d) =? 0)) eqn:E0;
        cbn in Hdrop |- *; [split; reflexivity|].
      rewrite Hdrop. split; reflexivity.
    + split; [reflexivity|]. intros _ H. congruence.
  - split; [reflexivity|]. intros H. rewrite H in Est. discriminate.
Qed.

Lemma skipn_repeat_zero (k n : nat) :
  skipn k (repeat Byte.x00 n) = repeat Byte.x00 (n - k).
Proof.
  revert n. induction k as [|k IH]; intro n.
  - now rewrite Nat.sub_0_r.
  - destruct n as [|n]; [reflexivity|]. cbn. apply IH.
Qed.

(** A frame in one of the three formats that need no conversion, no
    longer than the picture's buffer, is published: its bytes, then the
    zeros the buffer was created with. *)
Lemma ImageCallback_copies (timestamp : Z) (frame : uvc_frame)
    (payload : list byte) (label : string) (d : CameraDriver) :
  data frame = Some payload ->
  copied_label (frame_format frame) = Some label ->
  state_ d = kRunning -> rgb_frame_ d <> None ->
  width (config_ d) <> 0 -> height (config_ d) <> 0 ->
  image_bytes (config_ d) <= 1920 * 1080 * 3 ->
  Z.of_nat (List.length payload) <= image_bytes (config_ d) ->
  exists d' : CameraDriver,
    ImageCallback timestamp frame d = Ret tt d' /\
    published (calls d') =
      published (calls d)
      ++ [copied_image timestamp (config_ d) label payload] /\
    allocated (calls d') = allocated (calls d) ++ [image_bytes (config_ d)] /\
    state_ d' = kRunning /\ config_ d' = config_ d /\
    config_changed_ d' = false.
Proof.
  intros Hdata Hlabel Hst Hrgb Hw Hh Hceil Hfit.
  unfold ImageCallback. rewrite Hdata. run. rewrite Hst. cbn.
  destruct (rgb_frame_ d) as [scratch|] eqn:Ergb; [|congruence]. cbn.
  apply Z.eqb_neq in Hw, Hh. rewrite Hw, Hh. cbn.
  apply Z.ltb_ge in Hceil. cbn in Hceil. rewrite Hceil.
  set (n := image_bytes (config_ d)) in *.
  assert (Hlen : (List.length payload <= List.length (repeat Byte.x00 (Z.to_nat n)))%nat)
    by (rewrite repeat_length; lia).
  unfold convert.
  destruct (frame_format frame); try discriminate; inversion Hlabel; subst label;
    unfold bind; rewrite (memcpy_fits _ _ _ Hlen); cbn;
    rewrite skipn_repeat_zero;
    (destruct (config_changed_ d) eqn:Ech; cbn;
     eexists; (split; [reflexivity|]); cbn;
     rewrite ?published_app, ?allocated_app; cbn; rewrite ?app_nil_r;
     repeat split; auto).
Qed.

(** Whatever the frame, under the bounds of a picture that fits the
    ceiling: nothing is published, or one picture of the right size. *)
Lemma ImageCallback_sized (timestamp : Z) (frame : uvc_frame)
    (d : CameraDriver) :
  state_ d = kRunning ->
  0 < width (config_ d) -> 0 < height (config_ d) ->
  width (config_ d) * 3 * height (config_ d) <= 1920 * 1080 * 3 ->
  let d' := driver_of (ImageCallback timestamp frame d) in
  published (calls d') = published (calls d) \/
  exists image : sensor_msgs.Image,
    published (calls d') = published (calls d) ++ [image] /\
    Z.of_nat (List.length (sensor_msgs.data image))
      = width (config_ d) * height (config_ d) * 3 /\
    sensor_msgs.step image = width (config_ d) * 3 /\
    sensor_msgs.width image = width (config_ d) /\
    sensor_msgs.height image = height (config_ d).
Proof.
  intros Hst Hw Hh Hceil.
  destruct (image_size_exact (config_ d) Hw Hh) as (Ew & Eh & Es & Eb); [lia|].
  unfold ImageCallback.
  destruct (data frame) as [payload|]; [|left; reflexivity].
  run. rewrite Hst. cbn.
  destruct (rgb_frame_ d) as [scratch|] eqn:Ergb; [|left; reflexivity]. cbn.
  assert (Hw0 : (width (config_ d) =? 0) = false) by (apply Z.eqb_neq; lia).
  assert (Hh0 : (height (config_ d) =? 0) = false) by (apply Z.eqb_neq; lia).
  rewrite Hw0, Hh0. cbn.
  assert (Hc : (6220800 <? image_bytes (config_ d)) = false)
    by (apply Z.ltb_ge; lia).
  rewrite Hc.
  match goal with |- context [convert frame payload ?buffer ?d1] =>
    destruct (convert_outcome frame payload buffer d1)
      as [(_ & Hcfg & _ & _ & Hpub & _) Hlen];
    destruct (convert frame payload buffer d1) as [[[label bytes]|] d2|why d2]
      eqn:Econv
  end; cbn in Hcfg, Hpub |- *.
  - right. specialize (Hlen _ _ _ eq_refl).
    rewrite repeat_length in Hlen.
    rewrite published_app, app_nil_r in Hpub.
    eexists. split.
    + destruct (config_changed_ d2); cbn;
        rewrite ?published_app, Hpub; cbn; rewrite ?app_nil_r; reflexivity.
    + cbn. rewrite Hcfg, Hlen, Ew, Eh, Es. repeat split. lia.
  - left. rewrite Hpub, published_app. cbn. now rewrite app_nil_r.
  - left. rewrite Hpub, published_app. cbn. now rewrite app_nil_r.
Qed.

(** C1.  While the driver is Running, with a snapshot whose width [w]
    and height [h] are positive and [w * 3 * h <= 1920 * 1080 * 3], a
    frame handed to the frame callback is either not published at all
    (null payload, failed conversion, a payload longer than the buffer)
    or published once, and the published picture has exactly [w * h * 3]
    bytes, a step of [w * 3], width [w] and height [h].  A frame in one
    of the formats that are copied as they are, with a scratch frame
    allocated and a payload of at most [w * h * 3] bytes, is published. *)
Theorem published_image_size (timestamp : Z) (frame : uvc_frame)
    (d : CameraDriver) :
  state_ d = kRunning ->
  0 < width (config_ d) -> 0 < height (config_ d) ->
  width (config_ d) * 3 * height (config_ d) <= 1920 * 1080 * 3 ->
  let d' := driver_of (ImageCallback timestamp frame d) in
  let sized (image : sensor_msgs.Image) : Prop :=
    Z.of_nat (List.length (sensor_msgs.data image))
      = width (config_ d) * height (config_ d) * 3 /\
    sensor_msgs.step image = width (config_ d) * 3 /\
    sensor_msgs.width image = width (config_ d) /\
    sensor_msgs.height image = height (config_ d) in
  (published (calls d') = published (calls d) \/
   exists image : sensor_msgs.Image,
     published (calls d') = published (calls d) ++ [image] /\ sized image) /\
  (forall (payload : list byte) (label : string),
      data frame = Some payload ->
      copied_label (frame_format frame) = Some label ->
      rgb_frame_ d <> None ->
      Z.of_nat (List.length payload)
        <= width (config_ d) * height (config_ d) * 3 ->
      exists image : sensor_msgs.Image,
        published (calls d') = published (calls d) ++ [image] /\
        sized image).
Proof.
  intros Hst Hw Hh Hceil d' sized. split.
  - exact (ImageCallback_sized timestamp frame d Hst Hw Hh Hceil).
  - intros payload label Hdata Hlabel Hrgb Hfit.
    destruct (image_size_exact (config_ d) Hw Hh) as (Ew & Eh & Es & Eb);
      [lia|].
    destruct (ImageCallback_copies timestamp frame payload label d)
      as (d1 & Hrun & Hpub & _); auto; try lia.
    exists (copied_image timestamp (config_ d) label payload).
    subst d'. rewrite Hrun. split; [exact Hpub|].
    unfold sized. cbn. rewrite length_app, repeat_length, Ew, Eh, Es, Eb.
    repeat split. lia.
Qed.

(** C7.  When the size the frame callback computes for the picture
    ([image_bytes]: step times height, in 32-bit unsigned arithmetic)
    exceeds 1920 * 1080 * 3, the callback leaves the driver and the
    trace as they were: no buffer is asked of the allocator, nothing is
    published, and under its precondition the callback returns. *)
Theorem oversized_frame_dropped (timestamp : Z) (frame : uvc_frame)
    (d : CameraDriver) :
  1920 * 1080 * 3 < image_bytes (config_ d) ->
  let r := ImageCallback timestamp frame d in
  driver_of r = d /\
  allocated (calls (driver_of r)) = allocated (calls d) /\
  published (calls (driver_of r)) = published (calls d) /\
  (state_ d = kRunning -> rgb_frame_ d <> None -> r = Ret tt d).
Proof.
  intros Hbig r.
  destruct (ImageCallback_drops timestamp frame d) as [Hd Hret].
  { apply Z.ltb_lt in Hbig. rewrite Hbig. apply orb_true_r. }
  subst r. rewrite Hd. auto.
Qed.

(** The same in terms of the snapshot's own numbers, as long as the
    product fits the 32 bits it is computed in. *)
Lemma oversized_product_dropped (timestamp : Z) (frame : uvc_frame)
    (d : CameraDriver) :
  0 < width (config_ d) -> 0 < height (config_ d) ->
  width (config_ d) * 3 * height (config_ d) < 2 ^ 32 ->
  1920 * 1080 * 3 < width (config_ d) * 3 * height (config_ d) ->
  driver_of (ImageCallback timestamp frame d) = d.
Proof.
  intros Hw Hh Hfit Hbig.
  destruct (image_size_exact (config_ d) Hw Hh Hfit) as (_ & _ & _ & Eb).
  apply ImageCallback_drops.
  rewrite <- Eb in Hbig. apply Z.ltb_lt in Hbig. rewrite Hbig.
  apply orb_true_r.
Qed.

(** C8.  When the snapshot's width or height is zero the frame
    callback leaves the whole driver as it was -- state, snapshot, dirty
    flag, scratch frame and trace, so nothing is published -- and under
    its precondition it returns. *)
Theorem zero_size_frame_dropped (timestamp : Z) (frame : uvc_frame)
    (d : CameraDriver) :
  width (config_ d) = 0 \/ height (config_ d) = 0 ->
  let r := ImageCallback timestamp frame d in
  driver_of r = d /\
  published (calls (driver_of r)) = published (calls d) /\
  (state_ d = kRunning -> rgb_frame_ d <> None -> r = Ret tt d).
Proof.
  intros Hzero r.
  destruct (ImageCallback_drops timestamp frame d) as [Hd Hret].
  { destruct Hzero as [E|E]; rewrite E; cbn; [reflexivity|].
    now rewrite orb_true_r. }
  subst r. rewrite Hd. auto.
Qed.

(** C6, as the code has it.  For a BGR frame that passes the
    callback's checks and is no longer than the picture's buffer, the
    picture is published with the label "bgr8" and its bytes are the
    frame's bytes followed by zeros up to the size computed from the
    snapshot; it is the frame's payload byte for byte exactly when the
    payload has that size. *)
Theorem bgr_frame_copied (timestamp : Z) (frame : uvc_frame)
    (payload : list byte) (d : CameraDriver) :
  frame_format frame = UVC_FRAME_FORMAT_BGR ->
  data frame = Some payload ->
  state_ d = kRunning -> rgb_frame_ d <> None ->
  width (config_ d) <> 0 -> height (config_ d) <> 0 ->
  image_bytes (config_ d) <= 1920 * 1080 * 3 ->
  Z.of_nat (List.length payload) <= image_bytes (config_ d) ->
  exists (d' : CameraDriver) (image : sensor_msgs.Image),
    ImageCallback timestamp frame d = Ret tt d' /\
    published (calls d') = published (calls d) ++ [image] /\
    sensor_msgs.encoding image = "bgr8" /\
    sensor_msgs.data image =
      payload
      ++ repeat Byte.x00
           (Z.to_nat (image_bytes (config_ d)) - List.length payload) /\
    (Z.of_nat (List.length payload) = image_bytes (config_ d) ->
     sensor_msgs.data image = payload).
Proof.
  intros Hfmt Hdata Hst Hrgb Hw Hh Hceil Hfit.
  destruct (ImageCallback_copies timestamp frame payload "bgr8" d)
    as (d' & Hrun & Hpub & _); auto.
  { now rewrite Hfmt. }
  exists d', (copied_image timestamp (config_ d) "bgr8" payload).
  repeat split; auto. intro Hfull. cbn.
  replace (Z.to_nat (image_bytes (config_ d)) - List.length payload)%nat
    with 0%nat by lia.
  apply app_nil_r.
Qed.

(** ** The roll-back, one call at a time *)

Lemma rejected_cons (f : fn.t) (c : Call) (err : Z) (evs : list Event) :
  rejected f (Called c err :: evs) =
    match c with
    | uvc_set g _ => fn.eqb f g && negb (err =? 0)
    | _ => false
    end || rejected f evs.
Proof. reflexivity. Qed.

Lemma pantilt_rejected_cons (c : Call) (err : Z) (evs : list Event) :
  pantilt_rejected (Called c err :: evs) =
    match c with
    | uvc_set_pantilt_abs _ _ => negb (err =? 0)
    | _ => false
    end || pantilt_rejected evs.
Proof. reflexivity. Qed.

(** Undoing the refused writes one by one is the roll-back. *)
Lemma undo_rolled_back (config : UVCCameraConfig) (evs : list Event) :
  forall new_config,
    fold_left (undo config) evs new_config = rolled_back config new_config evs.
Proof.
  induction evs as [|[c err] evs IH]; intro new_config.
  - destruct new_config; reflexivity.
  - cbn [fold_left]. rewrite IH. unfold rolled_back.
    rewrite !rejected_cons, !pantilt_rejected_cons.
    repeat match goal with
    | |- context [rejected ?f evs] => generalize (rejected f evs); intro
    end.
    generalize (pantilt_rejected evs); intro.
    unfold undo.
    destruct c; cbv beta iota;
      lazymatch goal with
      | |- context [restore] =>
          destruct f;
          (destruct (err =? 0); cbn;
           [ reflexivity
           | f_equal;
             match goal with |- (if ?b then _ else _) = _ =>
               destruct b; reflexivity end ])
      | |- context [with_tilt_absolute] =>
          destruct (err =? 0); cbn;
          [ reflexivity
          | f_equal;
            match goal with |- (if ?b then _ else _) = _ =>
              destruct b; reflexivity end ]
      | |- _ => cbn; reflexivity
      end.
Qed.

(** ** Traces without a control write *)

Lemma quiet_app (a b : list Event) : quiet a -> quiet b -> quiet (a ++ b).
Proof. intros Ha Hb. apply Forall_app. now split. Qed.

Lemma quiet_control_writes (evs : list Event) :
  quiet evs -> control_writes evs = [].
Proof.
  induction 1 as [|e evs He _ IH]; [reflexivity|].
  unfold control_writes in *. cbn. now rewrite He.
Qed.

Lemma quiet_undo (config : UVCCameraConfig) (evs : list Event) :
  quiet evs ->
  forall new_config, fold_left (undo config) evs new_config = new_config.
Proof.
  induction 1 as [|[c err] evs He _ IH]; intro new_config; [reflexivity|].
  cbn [fold_left]. rewrite <- (IH new_config) at 2. f_equal.
  destruct c; try reflexivity; discriminate.
Qed.

Ltac quiet_tac :=
  repeat first [ apply Forall_nil | apply Forall_cons; [reflexivity|] ].

(** ** Closing and opening the camera *)

Lemma CloseCamera_running (d : CameraDriver) :
  state_ d = kRunning ->
  CloseCamera d =
    Ret tt
      (set_state kStopped
         (set_dev NULL
            (set_devh NULL
               (set_calls
                  (calls d ++ [Called uvc_close 0; Called uvc_unref_device 0])
                  d)))).
Proof.
  intro Hst. unfold CloseCamera. run. rewrite Hst. cbn.
  rewrite <- app_assoc. reflexivity.
Qed.

Lemma untouched_intro (d d' : CameraDriver) (evs : list Event) :
  config_ d' = config_ d -> creation_ d' = creation_ d ->
  config_changed_ d' = config_changed_ d ->
  calls d' = calls d ++ evs -> quiet evs -> untouched d d'.
Proof. intros. repeat split; auto. now exists evs. Qed.

Lemma untouched_refl (d : CameraDriver) : untouched d d.
Proof.
  repeat split. exists []. split; [now rewrite app_nil_r|constructor].
Qed.

Lemma untouched_trans (a b c : CameraDriver) :
  untouched a b -> untouched b c -> untouched a c.
Proof.
  intros (H1 & H2 & H3 & e1 & H4 & H5) (G1 & G2 & G3 & e2 & G4 & G5).
  repeat split; try congruence.
  exists (e1 ++ e2). split; [|now apply quiet_app].
  rewrite G4, H4. now rewrite app_assoc.
Qed.

Ltac untouched_tac :=
  repeat split;
  eexists; split;
  [ cbn; rewrite <- ?app_assoc; cbn; reflexivity | quiet_tac ].

Lemma OpenCamera_outcome (new_config : UVCCameraConfig) (d : CameraDriver) :
  let r := OpenCamera new_config d in
  untouched d (driver_of r) /\
  (state_ (driver_of r) = state_ d \/
   returned r = true /\ state_ d = kStopped /\
   state_ (driver_of r) = kRunning).
Proof.
  unfold OpenCamera. run.
  destruct (State_eqb (state_ d) kStopped) eqn:Est; cbn;
    [|split; [apply untouched_refl|now left]].
  assert (Hst : state_ d = kStopped) by (destruct (state_ d); easy).
  repeat match goal with
  | |- context [negb (?x =? ?y)] => destruct (negb (x =? y)); cbn
  | |- context [non_null (rgb_frame_ d)] => destruct (rgb_frame_ d); cbn
  | |- context [if (?x =? 0) then _ else _] => destruct (x =? 0); cbn
  end;
  (split; [untouched_tac | auto]).
Qed.

(** ** Pushing the controls *)

Lemma control_step_bind (m1 m2 : UVCCameraConfig -> M UVCCameraConfig) :
  control_step m1 -> control_step m2 ->
  control_step (fun new_config => new_config' <- m1 new_config ;; m2 new_config').
Proof.
  intros H1 H2 new_config d.
  destruct (H1 new_config d) as (evs1 & Hw1 & E1).
  destruct (H2 (fold_left (undo (config_ d)) evs1 new_config)
               (set_calls (calls d ++ evs1) d)) as (evs2 & Hw2 & E2).
  exists (evs1 ++ evs2). split; [apply Forall_app; now split|].
  unfold bind. rewrite E1, E2. cbn.
  now rewrite fold_left_app, <- app_assoc.
Qed.

Lemma PARAM_INT_step (f : fn.t) (value : UVCCameraConfig -> Z) :
  control_step (PARAM_INT (field_of f) f value).
Proof.
  intros new_config d. unfold PARAM_INT. run.
  destruct (differs (field_of f) new_config (config_ d)).
  - exists [Called (uvc_set f (value new_config))
                   (uvc (calls d) (uvc_set f (value new_config)))].
    split; [repeat constructor|]. cbn.
    destruct (_ =? 0); reflexivity.
  - exists []. split; [constructor|]. cbn. rewrite app_nil_r.
    now destruct d.
Qed.

Lemma pantilt_step : control_step pantilt.
Proof.
  intros new_config d. unfold pantilt. run.
  destruct (_ || _).
  - set (c := uvc_set_pantilt_abs (pan_absolute new_config)
                                   (tilt_absolute new_config)).
    exists [Called c (uvc (calls d) c)].
    split; [repeat constructor|]. cbn.
    destruct (_ =? 0); reflexivity.
  - exists []. split; [constructor|]. cbn. rewrite app_nil_r.
    now destruct d.
Qed.

Lemma push_controls_step : control_step push_controls.
Proof.
  unfold push_controls.
  repeat (apply control_step_bind;
          [match goal with |- control_step (PARAM_INT _ ?f _) =>
             exact (PARAM_INT_step f _) end|]).
  apply pantilt_step.
Qed.

(** ** The reconfiguration callback, phase by phase *)

#[local] Arguments CloseCamera : simpl never.
#[local] Arguments OpenCamera : simpl never.
#[local] Arguments PARAM_INT : simpl never.
#[local] Arguments pantilt : simpl never.
#[local] Arguments ReconfigureCallback : simpl never.

Lemma ReconfigureCallback_phases (new_config : UVCCameraConfig) (level : Z)
    (d : CameraDriver) :
  creation_ d = false ->
  ReconfigureCallback new_config level d =
    match prepare new_config level d with
    | Ret _ d1 =>
        if State_eqb (state_ d1) kRunning then
          match push_controls new_config d1 with
          | Ret committed d2 => Ret committed (set_config committed d2)
          | Fail why d2 => Fail why d2
          end
        else Ret new_config d1
    | Fail why d1 => Fail why d1
    end.
Proof.
  intro Hcr.
  unfold ReconfigureCallback, prepare, push_controls.
  cbv [bind gets modify ret]. rewrite Hcr.
  repeat match goal with
  | |- context [if ?b then _ else _] =>
      lazymatch type of b with bool => destruct b end; try reflexivity
  | |- context [match ?m ?x with Ret _ _ => _ | Fail _ _ => _ end] =>
      destruct (m x); try reflexivity
  end.
Qed.

Lemma open_and_reload_outcome (new_config : UVCCameraConfig)
    (d : CameraDriver) :
  let r := open_and_reload new_config d in
  untouched d (driver_of r) /\
  (returned r = false -> state_ (driver_of r) = kStopped) /\
  (state_ d = kStopped ->
   state_ (driver_of r) = state_ (driver_of (OpenCamera new_config d))) /\
  (state_ d <> kStopped -> returned r = true /\ state_ (driver_of r) = state_ d).
Proof.
  unfold open_and_reload. cbv [bind gets ret].
  destruct (State_eqb (state_ d) kStopped) eqn:Est.
  - assert (Hst : state_ d = kStopped) by (destruct (state_ d); easy).
    destruct (OpenCamera_outcome new_config d) as [Hun Hstate].
    destruct (OpenCamera new_config d) as [[] d1|why d1]; cbn in Hun, Hstate |- *.
    + destruct Hun as (Hcfg & Hcr & Hch & evs & Hcalls & Hq).
      destruct (negb _); cbn.
      * split; [|repeat split; congruence].
        apply (untouched_intro _ _
                 (evs ++ [Called (loadCameraInfo (camera_info_url new_config)) 0]));
          cbn; auto.
        -- rewrite Hcalls. now rewrite app_assoc.
        -- apply quiet_app; [exact Hq|quiet_tac].
      * split; [|repeat split; congruence].
        now apply (untouched_intro _ _ evs).
    + split; [exact Hun|]. repeat split; try congruence.
      intros _. destruct Hstate as [E|(E & _)]; [congruence|discriminate].
  - assert (Hst : state_ d <> kStopped)
      by (intro E; rewrite E in Est; discriminate).
    destruct (negb _); cbn.
    + split; [|repeat split; congruence].
      apply (untouched_intro _ _
               [Called (loadCameraInfo (camera_info_url new_config)) 0]);
        cbn; auto. quiet_tac.
    + split; [apply untouched_refl|]. repeat split; congruence.
Qed.

Lemma prepare_unfold (new_config : UVCCameraConfig) (level : Z)
    (d : CameraDriver) :
  prepare new_config level d =
    if (Z.land level (to_uint32 kReconfigureClose)
        =? to_uint32 kReconfigureClose)
       && State_eqb (state_ d) kRunning
    then open_and_reload new_config (driver_of (CloseCamera d))
    else open_and_reload new_config d.
Proof.
  unfold prepare, open_and_reload. cbv [bind gets ret].
  destruct (_ =? _); cbn [andb]; [|reflexivity].
  destruct (State_eqb (state_ d) kRunning) eqn:Est; [|reflexivity].
  rewrite CloseCamera_running by (destruct (state_ d); easy).
  reflexivity.
Qed.

Lemma CloseCamera_untouched (d : CameraDriver) :
  state_ d = kRunning ->
  untouched d (driver_of (CloseCamera d)) /\
  state_ (driver_of (CloseCamera d)) = kStopped.
Proof.
  intro Hst. rewrite CloseCamera_running by exact Hst. cbn.
  split; [|reflexivity].
  apply (untouched_intro _ _ [Called uvc_close 0; Called uvc_unref_device 0]);
    cbn; auto. quiet_tac.
Qed.

Lemma prepare_outcome (new_config : UVCCameraConfig) (level : Z)
    (d : CameraDriver) :
  let r := prepare new_config level d in
  untouched d (driver_of r) /\
  (returned r = false -> state_ (driver_of r) = kStopped) /\
  (state_ (driver_of r) = kRunning \/ state_ (driver_of r) = kStopped \/
   state_ (driver_of r) = state_ d).
Proof.
  cbn zeta. rewrite prepare_unfold.
  destruct (_ && _) eqn:Eclose.
  - apply andb_prop in Eclose as [_ Est].
    assert (Hst : state_ d = kRunning) by (destruct (state_ d); easy).
    destruct (CloseCamera_untouched d Hst) as [Hun Hstopped].
    destruct (open_and_reload_outcome new_config (driver_of (CloseCamera d)))
      as (Hun' & Hfail & Hopen & _).
    split; [eapply untouched_trans; eassumption|].
    split; [exact Hfail|].
    rewrite (Hopen Hstopped).
    destruct (OpenCamera_outcome new_config (driver_of (CloseCamera d)))
      as [_ [E|(_ & _ & E)]]; rewrite E; auto.
  - destruct (open_and_reload_outcome new_config d)
      as (Hun & Hfail & Hopen & Hskip).
    split; [exact Hun|]. split; [exact Hfail|].
    destruct (State_eqb (state_ d) kStopped) eqn:Est.
    + assert (Hst : state_ d = kStopped) by (destruct (state_ d); easy).
      rewrite (Hopen Hst).
      destruct (OpenCamera_outcome new_config d)
        as [_ [E|(_ & _ & E)]]; rewrite E; auto.
    + right; right. apply Hskip. intro E. rewrite E in Est. discriminate.
Qed.

(** ** The reconfiguration callback as a whole *)

Lemma ReconfigureCallback_creation (new_config : UVCCameraConfig)
    (level : Z) (d : CameraDriver) :
  creation_ d = true ->
  ReconfigureCallback new_config level d
    = Ret new_config (set_config new_config d).
Proof.
  intro Hcr. unfold ReconfigureCallback. cbv [bind gets modify ret].
  now rewrite Hcr.
Qed.

(** Past the creation phase: the calls made before the controls are
    pushed write no control; the callback ends [kRunning] exactly when
    the controls were pushed, and the snapshot is replaced exactly
    then. *)
Lemma ReconfigureCallback_outcome (new_config : UVCCameraConfig)
    (level : Z) (d : CameraDriver) :
  creation_ d = false ->
  let r := ReconfigureCallback new_config level d in
  let d1 := driver_of (prepare new_config level d) in
  creation_ (driver_of r) = false /\
  state_ (driver_of r) = state_ d1 /\
  config_ d1 = config_ d /\
  exists before : list Event,
    calls d1 = calls d ++ before /\ quiet before /\
    ((state_ d1 = kRunning /\
      exists pushed : list Event,
        Forall (fun e => is_control_write e = true) pushed /\
        push_controls new_config d1 =
          Ret (rolled_back (config_ d) new_config pushed)
              (set_calls (calls d1 ++ pushed) d1) /\
        r = Ret (rolled_back (config_ d) new_config pushed)
                (set_config (rolled_back (config_ d) new_config pushed)
                   (set_calls (calls d1 ++ pushed) d1)))
     \/
     (state_ d1 <> kRunning /\ driver_of r = d1 /\
      config_ d1 = config_ d)).
Proof.
  intros Hcr r d1. subst r d1.
  rewrite (ReconfigureCallback_phases _ _ _ Hcr).
  destruct (prepare_outcome new_config level d)
    as ((Hcfg & Hcr1 & _ & before & Hcalls & Hq) & Hfail & _).
  destruct (prepare new_config level d) as [[] d1|why d1];
    cbn in Hcfg, Hcr1, Hcalls, Hfail |- *.
  - destruct (State_eqb (state_ d1) kRunning) eqn:Est.
    + assert (Hst : state_ d1 = kRunning) by (destruct (state_ d1); easy).
      destruct (push_controls_step new_config d1) as (pushed & Hw & Epush).
      rewrite Hcfg, undo_rolled_back in Epush. rewrite Epush. cbn.
      split; [congruence|]. split; [reflexivity|]. split; [exact Hcfg|].
      exists before. split; [exact Hcalls|]. split; [exact Hq|].
      left. split; [exact Hst|]. exists pushed. auto.
    + cbn. split; [congruence|]. split; [reflexivity|]. split; [exact Hcfg|].
      exists before. split; [exact Hcalls|]. split; [exact Hq|].
      right. split; [|auto]. intro E. rewrite E in Est. discriminate.
  - specialize (Hfail eq_refl).
    cbn. split; [congruence|]. split; [reflexivity|]. split; [exact Hcfg|].
    exists before. split; [exact Hcalls|]. split; [exact Hq|].
    right. split; [congruence|auto].
Qed.

Lemma rolled_back_quiet (config new_config : UVCCameraConfig)
    (before pushed : list Event) :
  quiet before ->
  rolled_back config new_config (before ++ pushed)
    = rolled_back config new_config pushed.
Proof.
  intro Hq. rewrite <- !undo_rolled_back, fold_left_app.
  now rewrite (quiet_undo config before Hq).
Qed.

(** C2, as the code has it.  After the reconfiguration callback: in
    the creation phase the stored snapshot is [new_config]; past it, when
    the callback ends in [kRunning] the stored snapshot is [new_config]
    with every control the device refused during the call put back to
    its previous value, and when it ends in any other state (a failed
    reopen, say) the stored snapshot is the one it was before the call. *)
Theorem baseline_after_reconfigure (new_config : UVCCameraConfig)
    (level : Z) (d : CameraDriver) :
  let r := ReconfigureCallback new_config level d in
  exists evs : list Event,
    calls (driver_of r) = calls d ++ evs /\
    (creation_ d = true -> r = Ret new_config (set_config new_config d)) /\
    (creation_ d = false -> state_ (driver_of r) = kRunning ->
     returned r = true /\
     config_ (driver_of r) = rolled_back (config_ d) new_config evs) /\
    (creation_ d = false -> state_ (driver_of r) <> kRunning ->
     config_ (driver_of r) = config_ d).
Proof.
  cbn zeta. destruct (creation_ d) eqn:Hcr.
  - rewrite (ReconfigureCallback_creation _ _ _ Hcr). exists []. cbn.
    rewrite app_nil_r. repeat split; discriminate.
  - pose proof (ReconfigureCallback_outcome new_config level d Hcr) as H.
    cbn zeta in H.
    set (d1 := driver_of (prepare new_config level d)) in H. clearbody d1.
    destruct H as (_ & Hstate & _ & before & Hcalls & Hq & Hcases).
    destruct Hcases as [(Hrun & pushed & _ & _ & Er)|(Hnot & Ed & Hcfg)].
    + exists (before ++ pushed). rewrite Er. cbn.
      rewrite Hcalls, <- app_assoc. split; [reflexivity|].
      split; [discriminate|].
      rewrite (rolled_back_quiet _ _ _ _ Hq). split; [auto|].
      intros _ H. congruence.
    + exists before. rewrite Ed. split; [exact Hcalls|].
      split; [discriminate|]. split; [|auto].
      intros _ H. rewrite Ed in Hstate. congruence.
Qed.

(** ** One changed control *)

Lemma bind_Ret {A B : Type} (m : M A) (k : A -> M B) (d d1 : CameraDriver)
    (a : A) :
  m d = Ret a d1 -> (x <- m ;; k x) d = k a d1.
Proof. intro H. unfold bind. now rewrite H. Qed.

Lemma PARAM_INT_same (name : Field) (f : fn.t)
    (value : UVCCameraConfig -> Z) (new_config : UVCCameraConfig)
    (d : CameraDriver) :
  differs name new_config (config_ d) = false ->
  PARAM_INT name f value new_config d = Ret new_config d.
Proof. intro H. unfold PARAM_INT. run. now rewrite H. Qed.

Lemma PARAM_INT_changed (name : Field) (f : fn.t)
    (value : UVCCameraConfig -> Z) (new_config : UVCCameraConfig)
    (d : CameraDriver) :
  differs name new_config (config_ d) = true ->
  let err := uvc (calls d) (uvc_set f (value new_config)) in
  PARAM_INT name f value new_config d =
    Ret (if err =? 0 then new_config
         else restore name (config_ d) new_config)
        (set_calls (calls d ++ [Called (uvc_set f (value new_config)) err]) d).
Proof.
  intro H. unfold PARAM_INT. run. rewrite H.
  now destruct (_ =? 0).
Qed.

Lemma pantilt_same (new_config : UVCCameraConfig) (d : CameraDriver) :
  pan_absolute new_config = pan_absolute (config_ d) ->
  tilt_absolute new_config = tilt_absolute (config_ d) ->
  pantilt new_config d = Ret new_config d.
Proof.
  intros Hp Ht. unfold pantilt. run. rewrite Hp, Ht.
  unfold int_differs. now rewrite !Z.eqb_refl.
Qed.

Lemma int_differs_refl (a : Z) : int_differs a a = false.
Proof. unfold int_differs. now rewrite Z.eqb_refl. Qed.

Lemma bool_differs_refl (a : bool) : bool_differs a a = false.
Proof. now destruct a. Qed.

Lemma exposure_value_200 : exposure_value 0.02%float = 200.
Proof. reflexivity. Qed.

Lemma exposure_differs : double_differs 0.02%float 0.01%float = true.
Proof. reflexivity. Qed.

(** With only the exposure changed from 0.01 to 0.02 the block makes
    one call, the exposure write of 200, and commits what the device
    answered. *)
Lemma push_controls_exposure (d : CameraDriver) :
  exposure_absolute (config_ d) = 0.01%float ->
  let err := uvc (calls d) (uvc_set fn.exposure_abs 200) in
  push_controls (with_exposure_absolute 0.02%float (config_ d)) d =
    Ret (with_exposure_absolute
           (if err =? 0 then 0.02%float else 0.01%float) (config_ d))
        (set_calls (calls d ++ [Called (uvc_set fn.exposure_abs 200) err]) d).
Proof.
  intros Hexp err. unfold push_controls.
  do 3 (erewrite bind_Ret
          by (apply PARAM_INT_same; apply int_differs_refl)).
  erewrite bind_Ret; cycle 1.
  { apply PARAM_INT_changed. cbn. rewrite Hexp. exact exposure_differs. }
  cbn [exposure_absolute with_exposure_absolute restore name.exposure_absolute].
  rewrite exposure_value_200, Hexp. fold err.
  destruct (err =? 0).
  - erewrite bind_Ret
      by (apply PARAM_INT_same; apply bool_differs_refl).
    do 4 (erewrite bind_Ret
            by (apply PARAM_INT_same; apply int_differs_refl)).
    now apply pantilt_same.
  - erewrite bind_Ret
      by (apply PARAM_INT_same; apply bool_differs_refl).
    do 4 (erewrite bind_Ret
            by (apply PARAM_INT_same; apply int_differs_refl)).
    now apply pantilt_same.
Qed.

(** ** Consistency *)

Lemma consistent_running (d : CameraDriver) :
  consistent d -> state_ d = kRunning -> creation_ d = false.
Proof.
  intros Hc Hst. destruct (creation_ d) eqn:E; [|reflexivity].
  specialize (Hc E). congruence.
Qed.

Lemma Ret_inj {A : Type} (a a' : A) (d d' : CameraDriver) :
  Ret a d = Ret a' d' -> a = a' /\ d = d'.
Proof.
  intro H. split.
  - exact (f_equal (fun r => match r with Ret x _ => x | Fail _ _ => a end) H).
  - exact (f_equal driver_of H).
Qed.

(** C3.  When the reconfiguration callback is entered while Running
    with a mask that contains the close bits, the first calls it makes
    are the close of the device handle and the release of the device,
    which leave the driver Stopped, so they come before any control
    write; and when the reopen that follows does not reach Running, the
    callback ends Stopped and has written no control at all. *)
Theorem close_before_controls (new_config : UVCCameraConfig) (level : Z)
    (d : CameraDriver) :
  consistent d -> state_ d = kRunning ->
  Z.land level (to_uint32 kReconfigureClose) = to_uint32 kReconfigureClose ->
  let closed := driver_of (CloseCamera d) in
  let d' := driver_of (ReconfigureCallback new_config level d) in
  state_ closed = kStopped /\
  exists rest : list Event,
    calls d' =
      calls d ++ Called uvc_close 0 :: Called uvc_unref_device 0 :: rest /\
    (state_ (driver_of (OpenCamera new_config closed)) <> kRunning ->
     state_ d' = kStopped /\
     control_writes
       (Called uvc_close 0 :: Called uvc_unref_device 0 :: rest) = []).
Proof.
  intros Hc Hst Hlevel closed d'.
  pose proof (consistent_running d Hc Hst) as Hcr.
  destruct (CloseCamera_untouched d Hst) as [_ Hstopped].
  fold closed in Hstopped. split; [exact Hstopped|].
  assert (Hclosed : calls closed =
            calls d ++ [Called uvc_close 0; Called uvc_unref_device 0])
    by (subst closed; now rewrite CloseCamera_running).
  pose proof (ReconfigureCallback_outcome new_config level d Hcr) as H.
  cbn zeta in H. fold d' in H. rewrite prepare_unfold in H.
  apply Z.eqb_eq in Hlevel. rewrite Hlevel, Hst in H. cbn [andb State_eqb] in H.
  fold closed in H.
  destruct (open_and_reload_outcome new_config closed)
    as ((_ & _ & _ & evs & Hevs & Hq) & _ & Hopen & _).
  specialize (Hopen Hstopped).
  set (d1 := driver_of (open_and_reload new_config closed)) in *.
  clearbody d1.
  destruct H as (_ & Hstate & _ & before & Hcalls & _ & Hcases).
  assert (Hq2 : quiet (Called uvc_close 0 :: Called uvc_unref_device 0 :: evs))
    by (repeat (apply Forall_cons; [reflexivity|]); exact Hq).
  destruct Hcases as [(Hrun & pushed & _ & _ & Er)|(Hnot & Ed & _)].
  - exists (evs ++ pushed). split.
    + unfold d'. rewrite Er. cbn. rewrite Hevs, Hclosed.
      rewrite <- !app_assoc. reflexivity.
    + intro Hfail. congruence.
  - exists evs. split.
    + rewrite Ed, Hevs, Hclosed. now rewrite <- app_assoc.
    + intro Hfail. split; [|now apply quiet_control_writes].
      rewrite Hstate, Hopen.
      destruct (OpenCamera_outcome new_config closed)
        as [_ [E|(_ & _ & E)]]; congruence.
Qed.

(** C4.  Entered while Running with a snapshot that differs from the
    stored one only in [exposure_absolute], 0.01 before and 0.02 now,
    and ending Running, the reconfiguration callback writes exactly one
    control: the exposure, with the integer 200.  The stored snapshot
    afterwards is the old one with exposure 0.02 when the device took
    the value (code 0) and with exposure 0.01 when it refused it. *)
Theorem exposure_change_written (level : Z) (d : CameraDriver) :
  consistent d -> state_ d = kRunning ->
  exposure_absolute (config_ d) = 0.01%float ->
  let new_config := with_exposure_absolute 0.02%float (config_ d) in
  let d' := driver_of (ReconfigureCallback new_config level d) in
  state_ d' = kRunning ->
  exists (evs : list Event) (err : Z),
    calls d' = calls d ++ evs /\
    control_writes evs = [Called (uvc_set fn.exposure_abs 200) err] /\
    config_ d' =
      with_exposure_absolute
        (if err =? 0 then 0.02%float else 0.01%float) (config_ d).
Proof.
  intros Hc Hst Hexp new_config d' Hrun'.
  pose proof (consistent_running d Hc Hst) as Hcr.
  pose proof (ReconfigureCallback_outcome new_config level d Hcr) as H.
  cbn zeta in H. fold d' in H.
  set (d1 := driver_of (prepare new_config level d)) in *. clearbody d1.
  destruct H as (_ & Hstate & Hcfg & before & Hcalls & Hq & Hcases).
  destruct Hcases as [(Hrun & pushed & _ & Epush & Er)|(Hnot & _)];
    [|congruence].
  pose proof (push_controls_exposure d1) as Hone.
  rewrite Hcfg in Hone. specialize (Hone Hexp). cbn zeta in Hone.
  fold new_config in Hone. rewrite Epush in Hone.
  set (err := uvc (calls d1) (uvc_set fn.exposure_abs 200)) in *.
  apply Ret_inj in Hone as [Hcommitted Hpushed].
  apply (f_equal calls) in Hpushed. cbn in Hpushed.
  apply app_inv_head in Hpushed.
  exists (before ++ pushed), err. unfold d'. rewrite Er. cbn.
  split; [rewrite Hcalls; now rewrite app_assoc|]. split.
  - unfold control_writes. rewrite filter_app.
    fold (control_writes before). rewrite (quiet_control_writes _ Hq).
    rewrite Hpushed. reflexivity.
  - exact Hcommitted.
Qed.

(** A mask that does not ask for a close leaves a streaming driver
    streaming. *)
Lemma reconfigure_stays_running (new_config : UVCCameraConfig) (level : Z)
    (d : CameraDriver) :
  consistent d -> state_ d = kRunning ->
  Z.land level (to_uint32 kReconfigureClose) <> to_uint32 kReconfigureClose ->
  state_ (driver_of (ReconfigureCallback new_config level d)) = kRunning.
Proof.
  intros Hc Hst Hlevel.
  pose proof (consistent_running d Hc Hst) as Hcr.
  destruct (ReconfigureCallback_outcome new_config level d Hcr)
    as (_ & Hstate & _).
  rewrite Hstate, prepare_unfold.
  apply Z.eqb_neq in Hlevel. rewrite Hlevel. cbn [andb].
  destruct (open_and_reload_outcome new_config d) as (_ & _ & _ & Hskip).
  rewrite (proj2 (Hskip ltac:(congruence))). exact Hst.
Qed.

(** ** Consistency is kept *)

Lemma ImageCallback_members (timestamp : Z) (frame : uvc_frame)
    (d : CameraDriver) :
  let d' := driver_of (ImageCallback timestamp frame d) in
  state_ d' = state_ d /\ creation_ d' = creation_ d /\
  config_ d' = config_ d.
Proof.
  unfold ImageCallback.
  destruct (data frame) as [payload|]; [|repeat split].
  run.
  destruct (State_eqb (state_ d) kRunning); [|repeat split]. cbn.
  destruct (non_null (rgb_frame_ d)); [|repeat split]. cbn.
  destruct (_ || _); [repeat split|].
  destruct (_ <? _); [repeat split|].
  match goal with |- context [convert frame payload ?buffer ?d1] =>
    destruct (convert_outcome frame payload buffer d1)
      as [(Hst & Hcfg & _ & Hcr & _) _];
    destruct (convert frame payload buffer d1) as [[[label bytes]|] d2|why d2]
  end; cbn in Hst, Hcfg, Hcr |- *; try (repeat split; assumption).
  destruct (config_changed_ d2); cbn; repeat split; assumption.
Qed.

Lemma AutoControlsCallback_members (status_class : uvc_status_class)
    (event selector : Z) (status_attribute : uvc_status_attribute)
    (payload : list byte) (d : CameraDriver) :
  let d' := driver_of (AutoControlsCallback status_class event selector
                         status_attribute payload d) in
  state_ d' = state_ d /\ creation_ d' = creation_ d.
Proof.
  unfold AutoControlsCallback.
  destruct status_attribute; try (split; reflexivity).
  destruct status_class; try (split; reflexivity).
  - destruct (_ =? _); [|split; reflexivity].
    destruct payload as [|b0 [|b1 [|b2 [|b3 rest]]]]; split; reflexivity.
  - destruct (_ =? _); [|split; reflexivity].
    destruct payload as [|b0 [|b1 rest]]; split; reflexivity.
Qed.

Lemma ReconfigureCallback_consistent (new_config : UVCCameraConfig)
    (level : Z) (d : CameraDriver) :
  consistent d ->
  consistent (driver_of (ReconfigureCallback new_config level d)).
Proof.
  intro Hc. destruct (creation_ d) eqn:Hcr.
  - rewrite (ReconfigureCallback_creation _ _ _ Hcr). exact Hc.
  - destruct (ReconfigureCallback_outcome new_config level d Hcr) as (E & _).
    unfold consistent. congruence.
Qed.

Lemma Start_consistent (d : CameraDriver) :
  consistent d -> consistent (driver_of (Start d)).
Proof.
  intro Hc. unfold Start. run.
  destruct (State_eqb (state_ d) kInitial); [|exact Hc]. cbn.
  destruct (negb _); [exact Hc|]. cbn.
  match goal with |- context [ReconfigureCallback ?c ?l ?d2] =>
    destruct (ReconfigureCallback_outcome c l d2 eq_refl) as (E & _);
    destruct (ReconfigureCallback c l d2) as [committed d3|why d3]
  end; cbn in E |- *; unfold consistent; congruence.
Qed.

Lemma Stop_state (d : CameraDriver) :
  state_ (driver_of (Stop d)) = kInitial.
Proof.
  destruct d as [st ctx dev devh rgb creation changed config trace].
  destruct st; reflexivity.
Qed.

Lemma Stop_consistent (d : CameraDriver) :
  consistent (driver_of (Stop d)).
Proof. intros _. apply Stop_state. Qed.

Lemma reachable_consistent (d : CameraDriver) :
  reachable d -> consistent d.
Proof.
  induction 1 as [config|d _ IH|d _ IH|new_config level d _ IH
                  |timestamp frame d _ IH
                  |status_class event selector status_attribute payload d _ IH].
  - intros _. reflexivity.
  - now apply Start_consistent.
  - apply Stop_consistent.
  - now apply ReconfigureCallback_consistent.
  - destruct (ImageCallback_members timestamp frame d) as (Hst & Hcr & _).
    unfold consistent. rewrite Hst, Hcr. exact IH.
  - destruct (AutoControlsCallback_members status_class event selector
                status_attribute payload d) as (Hst & Hcr).
    unfold consistent. rewrite Hst, Hcr. exact IH.
Qed.

End Properties.

(** * Properties of whole runs and of the other paths *)

Section Runs_Properties.

Context {P : Platform}.

(** ** What is held matches the state *)

Lemma count_app (p : Event -> bool) (a b : list Event) :
  count p (a ++ b) = (count p a + count p b)%nat.
Proof. unfold count. now rewrite filter_app, length_app. Qed.

Ltac use_answers :=
  repeat match goal with
  | H : (_ =? _) = _ |- _ => rewrite H
  | H : state_ ?d = _ |- context [state_ ?d] => rewrite H
  | H : rgb_frame_ ?d = _ |- context [rgb_frame_ ?d] => rewrite H
  end.

Ltac balanced_tac :=
  constructor; cbn; unfold count in *;
  rewrite <- ?app_assoc, ?filter_app, ?length_app; cbn;
  unfold UVC_SUCCESS; use_answers; cbn;
  try lia; try tauto; try (intuition congruence).

Lemma balanced_new (config : UVCCameraConfig) :
  balanced (CameraDriver_new config).
Proof. constructor; cbn; try reflexivity; try tauto; discriminate. Qed.

(** Names for the library's answers, innermost first. *)
Ltac name_answers :=
  repeat match goal with
  | |- context [uvc ?l ?c] =>
      lazymatch l with
      | context [uvc _ _] => fail
      | _ => let r := fresh "r" in set (r := uvc l c) in *; clearbody r
      end
  end.

Lemma OpenCamera_balanced (new_config : UVCCameraConfig)
    (d d' : CameraDriver) :
  balanced d -> OpenCamera new_config d = Ret tt d' -> balanced d'.
Proof.
  intros [Hc Hd Hh Hf Hp Hr]. unfold OpenCamera, UVC_SUCCESS. run.
  destruct (state_ d) eqn:Est; cbn; try discriminate.
  cbn in Hc, Hd, Hh.
  assert (Hctx : ctx_ d <> NULL) by (intro E; apply Hp in E; discriminate).
  repeat first
    [ progress name_answers
    | match goal with
      | |- context [negb (?x =? 0)] => destruct (x =? 0) eqn:?; cbn
      | |- context [non_null (rgb_frame_ d)] =>
          destruct (rgb_frame_ d) eqn:?; cbn in Hf |- *
      | |- context [if (?x =? 0) then _ else _] =>
          destruct (x =? 0) eqn:?; cbn
      end ];
  try discriminate;
  (intro H; apply Ret_inj in H as [_ <-]; balanced_tac).
Qed.

Lemma count_neutral (p : Event -> bool) (evs : list Event) :
  (forall e, neutral e = true -> p e = false) ->
  forallb neutral evs = true -> count p evs = 0%nat.
Proof.
  intros Hp. induction evs as [|e evs IH]; [reflexivity|].
  cbn [forallb]. intro H. apply andb_prop in H as [He Hevs].
  unfold count in *. cbn [filter]. rewrite (Hp e He). now apply IH.
Qed.

Ltac neutral_off :=
  let e := fresh "e" in
  intros e; unfold neutral; destruct e as [[] ?]; cbn;
  rewrite ?orb_true_r; cbn; try reflexivity; try discriminate;
  intro; repeat match goal with
  | H : negb _ = true |- _ => apply negb_true_iff in H
  | H : _ || _ = false |- _ => apply orb_false_elim in H as [? ?]
  end; assumption.

Lemma balanced_same_holdings (d d' : CameraDriver) :
  same_holdings d d' -> balanced d -> balanced d'.
Proof.
  intros (Hst & Hctx & Hdev & Hdevh & Hrgb & evs & Hcalls & Hn)
         [Hc Hd Hh Hf Hp Hr].
  constructor; rewrite ?Hst, ?Hctx, ?Hdev, ?Hdevh, ?Hrgb, ?Hcalls, ?count_app.
  - rewrite !(count_neutral _ evs) by (try neutral_off; assumption). lia.
  - rewrite !(count_neutral _ evs) by (try neutral_off; assumption). lia.
  - rewrite !(count_neutral _ evs) by (try neutral_off; assumption). lia.
  - rewrite !(count_neutral _ evs) by (try neutral_off; assumption). lia.
  - exact Hp.
  - intro H. specialize (Hr H). split; [|tauto].
    destruct Hr as [Hr _]. destruct (rgb_frame_ d); [|congruence].
    destruct (rgb_frame_ d'); [discriminate|discriminate].
Qed.

Lemma same_holdings_refl (d : CameraDriver) : same_holdings d d.
Proof.
  repeat split. exists []. now rewrite app_nil_r.
Qed.

Lemma same_holdings_trans (a b c : CameraDriver) :
  same_holdings a b -> same_holdings b c -> same_holdings a c.
Proof.
  intros (H1 & H2 & H3 & H4 & H5 & e1 & H6 & H7)
         (G1 & G2 & G3 & G4 & G5 & e2 & G6 & G7).
  split; [congruence|]. split; [congruence|]. split; [congruence|].
  split; [congruence|]. split; [congruence|].
  exists (e1 ++ e2). split; [rewrite G6, H6; now rewrite app_assoc|].
  rewrite forallb_app, H7, G7. reflexivity.
Qed.

Ltac same_holdings_tac :=
  repeat (split; [reflexivity|]);
  eexists; (split; [cbn; rewrite <- ?app_assoc; cbn; reflexivity|reflexivity]).

Lemma via_scratch_holdings (c : Call) (label : string) (buffer : list byte)
    (d : CameraDriver) :
  neutral (Called c (uvc (calls d) c)) = true ->
  non_null (rgb_frame_ d) = true ->
  same_holdings d (driver_of (via_scratch c label buffer d)).
Proof.
  intros Hn Hrgb. unfold via_scratch. run.
  assert (Hev : forallb neutral [Called c (uvc (calls d) c)] = true)
    by (cbn; now rewrite Hn).
  destruct (negb _); cbn.
  - repeat (split; [cbn; auto|]). now exists [Called c (uvc (calls d) c)].
  - match goal with |- context [memcpy ?a ?b ?s] =>
      pose proof (memcpy_driver a b s) as Hd;
      destruct (memcpy a b s) as [copied d1|why d1] end;
      cbn in Hd; subst d1; cbn;
      (repeat (split; [cbn; auto|]); now exists [Called c (uvc (calls d) c)]).
Qed.

Lemma convert_holdings (frame : uvc_frame) (payload buffer : list byte)
    (d : CameraDriver) :
  non_null (rgb_frame_ d) = true ->
  same_holdings d (driver_of (convert frame payload buffer d)).
Proof.
  intro Hrgb.
  assert (Hcopy : forall label : string,
    same_holdings d
      (driver_of ((copied <- memcpy buffer payload ;;
                   ret (Some (label, copied))) d))).
  { intro label. unfold bind.
    pose proof (memcpy_driver buffer payload d) as Hd.
    destruct (memcpy buffer payload d) as [copied d1|why d1];
      cbn in Hd; subst d1; apply same_holdings_refl. }
  unfold convert.
  destruct (frame_format frame); try apply Hcopy;
    try (apply via_scratch_holdings; [reflexivity|exact Hrgb]).
  destruct LIBUVC_HAS_JPEG;
    (apply via_scratch_holdings; [reflexivity|exact Hrgb]).
Qed.

Lemma emit_holdings (c : Call) (d : CameraDriver) :
  neutral (Called c 0) = true ->
  same_holdings d (set_calls (calls d ++ [Called c 0]) d).
Proof.
  intro Hn. repeat (split; [reflexivity|]).
  exists [Called c 0]. split; [reflexivity|]. cbn. now rewrite Hn.
Qed.

(** The frame callback acquires and releases nothing, whatever its
    outcome. *)
Lemma ImageCallback_holdings (timestamp : Z) (frame : uvc_frame)
    (d : CameraDriver) :
  same_holdings d (driver_of (ImageCallback timestamp frame d)).
Proof.
  unfold ImageCallback.
  destruct (data frame) as [payload|]; [|apply same_holdings_refl].
  run.
  destruct (State_eqb (state_ d) kRunning); [|apply same_holdings_refl]. cbn.
  destruct (non_null (rgb_frame_ d)) eqn:Hrgb;
    [|apply same_holdings_refl]. cbn.
  destruct (_ || _); [apply same_holdings_refl|].
  destruct (_ <? _); [apply same_holdings_refl|].
  match goal with |- context [convert frame payload ?buffer ?d1] =>
    assert (H1 : same_holdings d d1)
      by (apply emit_holdings; reflexivity);
    pose proof (convert_holdings frame payload buffer d1 Hrgb) as H2;
    destruct (convert frame payload buffer d1) as [[[label bytes]|] d2|why d2]
  end; cbn in H2 |- *;
    try (eapply same_holdings_trans; eassumption).
  eapply same_holdings_trans; [eassumption|].
  eapply same_holdings_trans; [eassumption|].
  destruct (config_changed_ d2); cbn; same_holdings_tac.
Qed.

Lemma AutoControlsCallback_holdings (status_class : uvc_status_class)
    (event selector : Z) (status_attribute : uvc_status_attribute)
    (payload : list byte) (d : CameraDriver) :
  same_holdings d
    (driver_of (AutoControlsCallback status_class event selector
                  status_attribute payload d)).
Proof.
  unfold AutoControlsCallback.
  destruct status_attribute; try apply same_holdings_refl.
  destruct status_class; try apply same_holdings_refl.
  - destruct (_ =? _); [|apply same_holdings_refl].
    destruct payload as [|b0 [|b1 [|b2 [|b3 rest]]]];
      try apply same_holdings_refl.
    cbn. repeat (split; [reflexivity|]). exists []. now rewrite app_nil_r.
  - destruct (_ =? _); [|apply same_holdings_refl].
    destruct payload as [|b0 [|b1 rest]]; try apply same_holdings_refl.
    cbn. repeat (split; [reflexivity|]). exists []. now rewrite app_nil_r.
Qed.

Lemma control_writes_neutral (evs : list Event) :
  Forall (fun e => is_control_write e = true) evs ->
  forallb neutral evs = true.
Proof.
  induction 1 as [|e evs He _ IH]; [reflexivity|].
  cbn [forallb]. rewrite IH, andb_true_r.
  destruct e as [[] ?]; try discriminate He; reflexivity.
Qed.

Lemma push_controls_holdings (new_config : UVCCameraConfig)
    (d : CameraDriver) :
  exists (committed : UVCCameraConfig) (d' : CameraDriver),
    push_controls new_config d = Ret committed d' /\ same_holdings d d'.
Proof.
  destruct (push_controls_step new_config d) as (evs & Hw & E).
  eexists _, _. split; [exact E|].
  repeat (split; [reflexivity|]). exists evs. split; [reflexivity|].
  now apply control_writes_neutral.
Qed.

#[local] Arguments CloseCamera : simpl never.
#[local] Arguments OpenCamera : simpl never.
#[local] Arguments PARAM_INT : simpl never.
#[local] Arguments pantilt : simpl never.
#[local] Arguments ReconfigureCallback : simpl never.

Lemma CloseCamera_balanced (d : CameraDriver) :
  state_ d = kRunning -> balanced d -> balanced (driver_of (CloseCamera d)).
Proof.
  intros Hst [Hc Hd Hh Hf Hp Hr]. rewrite CloseCamera_running by exact Hst.
  rewrite Hst in *. cbn in Hc, Hd, Hh.
  assert (Hctx : ctx_ d <> NULL) by (intro E; apply Hp in E; discriminate).
  balanced_tac.
Qed.

Lemma open_and_reload_balanced (new_config : UVCCameraConfig)
    (d d' : CameraDriver) :
  balanced d -> open_and_reload new_config d = Ret tt d' -> balanced d'.
Proof.
  intros Hb. unfold open_and_reload. cbv [bind gets ret].
  assert (Hload : forall d1, balanced d1 ->
    (if negb (camera_info_url new_config =? camera_info_url (config_ d1))%string
     then emit (loadCameraInfo (camera_info_url new_config))
     else fun d0 => Ret tt d0) d1 = Ret tt d' -> balanced d').
  { intros d1 Hb1. destruct (negb _); cbn.
    - intro H. apply Ret_inj in H as [_ <-].
      eapply balanced_same_holdings; [|exact Hb1].
      apply emit_holdings. reflexivity.
    - intro H. apply Ret_inj in H as [_ <-]. exact Hb1. }
  destruct (State_eqb (state_ d) kStopped).
  - destruct (OpenCamera new_config d) as [[] d1|why d1] eqn:E;
      [|discriminate].
    apply Hload. eapply OpenCamera_balanced; eassumption.
  - now apply Hload.
Qed.

Lemma ReconfigureCallback_balanced (new_config committed : UVCCameraConfig)
    (level : Z) (d d' : CameraDriver) :
  balanced d ->
  ReconfigureCallback new_config level d = Ret committed d' -> balanced d'.
Proof.
  intros Hb. destruct (creation_ d) eqn:Hcr.
  - rewrite (ReconfigureCallback_creation _ _ _ Hcr).
    intro H. apply Ret_inj in H as [_ <-].
    destruct Hb. constructor; assumption.
  - rewrite (ReconfigureCallback_phases _ _ _ Hcr), prepare_unfold.
    assert (Hprep : forall d0, balanced d0 ->
      match open_and_reload new_config d0 with
      | Ret _ d1 =>
          if State_eqb (state_ d1) kRunning then
            match push_controls new_config d1 with
            | Ret committed0 d2 => Ret committed0 (set_config committed0 d2)
            | Fail why d2 => Fail why d2
            end
          else Ret new_config d1
      | Fail why d1 => Fail why d1
      end = Ret committed d' -> balanced d').
    { intros d0 Hb0.
      destruct (open_and_reload new_config d0) as [[] d1|why d1] eqn:E;
        [|discriminate].
      pose proof (open_and_reload_balanced _ _ _ Hb0 E) as Hb1.
      destruct (State_eqb (state_ d1) kRunning).
      - destruct (push_controls_holdings new_config d1)
          as (c & d2 & Epush & Hsame).
        rewrite Epush. intro H. apply Ret_inj in H as [_ <-].
        pose proof (balanced_same_holdings _ _ Hsame Hb1) as [].
        constructor; assumption.
      - intro H. apply Ret_inj in H as [_ <-]. exact Hb1. }
    destruct (_ && _) eqn:Eclose.
    + apply andb_prop in Eclose as [_ Est].
      apply Hprep. apply CloseCamera_balanced; [|exact Hb].
      destruct (state_ d); easy.
    + now apply Hprep.
Qed.

Lemma Start_balanced (d d' : CameraDriver) (started : bool) :
  balanced d -> Start d = Ret started d' -> balanced d'.
Proof.
  intros Hb. unfold Start, UVC_SUCCESS. run.
  destruct (state_ d) eqn:Est; cbn; try discriminate.
  name_answers. destruct (r =? 0) eqn:Er; cbn.
  - match goal with |- context [ReconfigureCallback ?c ?l ?d2] =>
      assert (Hb2 : balanced d2);
      [|destruct (ReconfigureCallback c l d2) as [committed d3|why d3] eqn:E;
        [|discriminate]]
    end.
    + destruct Hb as [Hc Hd Hh Hf Hp Hr]. rewrite Est in *.
      cbn in Hc, Hd, Hh. balanced_tac.
    + intro H. apply Ret_inj in H as [_ <-].
      eapply ReconfigureCallback_balanced; eassumption.
  - intro H. apply Ret_inj in H as [_ <-].
    destruct Hb as [Hc Hd Hh Hf Hp Hr]. rewrite Est in *.
    cbn in Hc, Hd, Hh. balanced_tac.
Qed.

Lemma Stop_balanced (d d' : CameraDriver) :
  balanced d -> Stop d = Ret tt d' -> balanced d'.
Proof.
  intros [Hc Hd Hh Hf Hp Hr].
  destruct d as [st ctx dev devh rgb creation changed config trace].
  cbn in *. destruct st; cbn in *; try discriminate;
    (intro H; apply Ret_inj in H as [_ <-]; balanced_tac).
Qed.

Lemma live_balanced (d : CameraDriver) : live d -> balanced d.
Proof.
  induction 1 as [config|d d' started _ IH E|d d' _ IH E
                  |new_config committed level d d' _ IH E
                  |timestamp frame d d' _ IH E
                  |status_class event selector status_attribute payload
                     d d' _ IH E].
  - apply balanced_new.
  - eapply Start_balanced; eassumption.
  - eapply Stop_balanced; eassumption.
  - eapply ReconfigureCallback_balanced; eassumption.
  - eapply balanced_same_holdings; [|exact IH].
    pose proof (ImageCallback_holdings timestamp frame d) as H.
    now rewrite E in H.
  - eapply balanced_same_holdings; [|exact IH].
    pose proof (AutoControlsCallback_holdings status_class event selector
                  status_attribute payload d) as H.
    now rewrite E in H.
Qed.

(** X1.  In a run that has not been stopped by a failure, what the
    trace says the driver holds is what its state says: one context
    exactly outside [kInitial], one device reference and one open handle
    exactly in [kRunning], one scratch frame exactly when [rgb_frame_]
    is set.  So nothing is released twice and nothing is acquired over
    something still held. *)
Theorem live_holdings (d : CameraDriver) :
  live d ->
  count context_obtained (calls d)
    = (count context_released (calls d)
       + one_if (negb (State_eqb (state_ d) kInitial)))%nat /\
  count device_found (calls d)
    = (count device_released (calls d)
       + one_if (State_eqb (state_ d) kRunning))%nat /\
  count handle_opened (calls d)
    = (count handle_closed (calls d)
       + one_if (State_eqb (state_ d) kRunning))%nat /\
  count frame_allocated (calls d)
    = (count frame_freed (calls d) + one_if (non_null (rgb_frame_ d)))%nat.
Proof.
  intro Hlive. destruct (live_balanced d Hlive) as [Hc Hd Hh Hf _ _].
  repeat split; assumption.
Qed.

(** X2.  In such a run a driver in [kRunning] has its context, its
    device, its handle and its scratch frame, so the frame callback's
    assertions hold there: on a frame with a payload it returns or
    stops on a copy past the buffer, never on an assertion. *)
Theorem running_assertions_hold (timestamp : Z) (frame : uvc_frame)
    (d : CameraDriver) :
  live d -> state_ d = kRunning ->
  (ctx_ d = NonNull /\ dev_ d = NonNull /\ devh_ d = NonNull /\
   rgb_frame_ d <> None) /\
  forall d' : CameraDriver,
    ImageCallback timestamp frame d <> Fail AssertionFailed d'.
Proof.
  intros Hlive Hst.
  destruct (live_balanced d Hlive) as [_ _ _ _ Hp Hr].
  destruct (Hr Hst) as (Hrgb & Hdev & Hdevh).
  split.
  - repeat split; try assumption.
    destruct (ctx_ d); [|reflexivity].
    assert (E : state_ d = kInitial) by now apply Hp. congruence.
  - intro d'. unfold ImageCallback.
    destruct (data frame) as [payload|]; [|discriminate].
    run. rewrite Hst. cbn.
    destruct (rgb_frame_ d) as [scratch|]; [|congruence]. cbn.
    destruct (_ || _); [discriminate|].
    destruct (_ <? _); [discriminate|].
    match goal with |- context [convert frame payload ?buffer ?d1] =>
      assert (Hconv : forall d2,
                convert frame payload buffer d1 <> Fail AssertionFailed d2);
      [|destruct (convert frame payload buffer d1)
          as [[[label bytes]|] d2|why d2] eqn:E]
    end.
    + intro d2. unfold convert, via_scratch, memcpy. run.
      destruct (frame_format frame); try destruct LIBUVC_HAS_JPEG;
        repeat match goal with
        | |- context [if ?b then _ else _] => destruct b; cbn
        end; discriminate.
    + destruct (config_changed_ d2); discriminate.
    + discriminate.
    + intro H. apply (Hconv d2). congruence.
Qed.

(** X3.  The destructor of a driver of such a run frees the scratch
    frame if there is one and releases the context if there is one,
    each once: afterwards as many contexts were released as obtained and
    as many scratch frames freed as allocated.  It does not close the
    device: a handle open in [kRunning] is left to [uvc_exit]. *)
Theorem delete_releases_once (d : CameraDriver) :
  live d ->
  exists d' : CameraDriver,
    CameraDriver_delete d = Ret tt d' /\
    count context_obtained (calls d') = count context_released (calls d') /\
    count frame_allocated (calls d') = count frame_freed (calls d') /\
    count handle_opened (calls d')
      = (count handle_closed (calls d')
         + one_if (State_eqb (state_ d) kRunning))%nat /\
    count device_found (calls d')
      = (count device_released (calls d')
         + one_if (State_eqb (state_ d) kRunning))%nat.
Proof.
  intro Hlive. destruct (live_balanced d Hlive) as [Hc Hd Hh Hf Hp _].
  unfold CameraDriver_delete. run.
  assert (Hctx : ctx_ d = NULL -> state_ d = kInitial) by apply Hp.
  assert (Hctx' : state_ d = kInitial -> ctx_ d = NULL) by apply Hp.
  destruct (rgb_frame_ d) as [scratch|]; cbn in Hf |- *;
    destruct (ctx_ d) eqn:Ectx; cbn;
    (eexists; split; [reflexivity|]); cbn;
    unfold count in *; rewrite <- ?app_assoc, ?filter_app, ?length_app; cbn;
    destruct (state_ d); cbn in *;
    try (specialize (Hctx eq_refl)); try (specialize (Hctx' eq_refl));
    try discriminate; repeat split; lia.
Qed.

(** ** What opening the camera calls *)

Lemma OpenCamera_calls (new_config : UVCCameraConfig) (d : CameraDriver) :
  exists evs : list Event,
    calls (driver_of (OpenCamera new_config d)) = calls d ++ evs /\
    forallb opening evs = true.
Proof.
  unfold OpenCamera, UVC_SUCCESS. run.
  destruct (State_eqb (state_ d) kStopped); cbn;
    [|exists []; now rewrite app_nil_r].
  repeat first
    [ progress name_answers
    | match goal with
      | |- context [negb (?x =? 0)] => destruct (x =? 0); cbn
      | |- context [non_null (rgb_frame_ d)] => destruct (rgb_frame_ d); cbn
      | |- context [if (?x =? 0) then _ else _] => destruct (x =? 0); cbn
      end ];
  (eexists; split; [rewrite <- ?app_assoc; cbn; reflexivity|reflexivity]).
Qed.

Lemma opening_quiet (evs : list Event) :
  forallb opening evs = true ->
  control_writes evs = [] /\ count is_reload evs = 0%nat /\
  published evs = [].
Proof.
  induction evs as [|e evs IH]; [repeat split|].
  cbn [forallb]. intro H. apply andb_prop in H as [He Hevs].
  destruct (IH Hevs) as (H1 & H2 & H3).
  unfold control_writes, count in *.
  destruct e as [[] ?]; try discriminate He; cbn; auto.
Qed.

(** Re-applying the stored snapshot pushes nothing, as long as the
    stored exposure is a number. *)
Lemma push_controls_same (d : CameraDriver) :
  is_number (exposure_absolute (config_ d)) = true ->
  push_controls (config_ d) d = Ret (config_ d) d.
Proof.
  intro Hnum. unfold push_controls.
  do 3 (erewrite bind_Ret
          by (apply PARAM_INT_same; apply int_differs_refl)).
  erewrite bind_Ret; cycle 1.
  { apply PARAM_INT_same. cbn. unfold double_differs.
    unfold is_number in Hnum. now rewrite Hnum. }
  erewrite bind_Ret by (apply PARAM_INT_same; apply bool_differs_refl).
  do 4 (erewrite bind_Ret
          by (apply PARAM_INT_same; apply int_differs_refl)).
  now apply pantilt_same.
Qed.

Lemma set_config_same (d : CameraDriver) : set_config (config_ d) d = d.
Proof. now destruct d. Qed.

(** ** The calls of a reconfiguration, in their order *)

Lemma open_and_reload_trace (new_config : UVCCameraConfig)
    (d d1 : CameraDriver) :
  open_and_reload new_config d = Ret tt d1 ->
  exists opened : list Event,
    forallb opening opened = true /\
    calls d1 = calls d ++ opened ++ reloads (config_ d) new_config /\
    config_ d1 = config_ d.
Proof.
  unfold open_and_reload, reloads. cbv [bind gets ret].
  assert (Hload : forall d0 opened,
    calls d0 = calls d ++ opened -> config_ d0 = config_ d ->
    forallb opening opened = true ->
    (if negb (camera_info_url new_config =? camera_info_url (config_ d0))%string
     then emit (loadCameraInfo (camera_info_url new_config))
     else fun d2 => Ret tt d2) d0 = Ret tt d1 ->
    exists opened0 : list Event,
      forallb opening opened0 = true /\
      calls d1 = calls d ++ opened0 ++
        (if negb (camera_info_url new_config =? camera_info_url (config_ d))%string
         then [Called (loadCameraInfo (camera_info_url new_config)) 0]
         else []) /\
      config_ d1 = config_ d).
  { intros d0 opened Hcalls Hcfg Hopen. rewrite Hcfg.
    destruct (negb _); cbn; intro H; apply Ret_inj in H as [_ <-];
      exists opened; cbn; rewrite Hcalls, ?app_nil_r, <- ?app_assoc; auto. }
  destruct (State_eqb (state_ d) kStopped).
  - destruct (OpenCamera_calls new_config d) as (opened & Hcalls & Hopen).
    destruct (OpenCamera_outcome new_config d) as [(Hcfg & _) _].
    destruct (OpenCamera new_config d) as [[] d0|why d0];
      cbn in Hcalls, Hcfg |- *; [|discriminate].
    now apply (Hload d0 opened).
  - apply (Hload d []); auto. now rewrite app_nil_r.
Qed.

Lemma prepare_trace (new_config : UVCCameraConfig) (level : Z)
    (d d1 : CameraDriver) :
  prepare new_config level d = Ret tt d1 ->
  exists opened : list Event,
    forallb opening opened = true /\
    calls d1 = calls d ++ opened ++ reloads (config_ d) new_config /\
    config_ d1 = config_ d /\
    (state_ d <> kStopped ->
     (state_ d = kRunning ->
      (Z.land level (to_uint32 kReconfigureClose)
       =? to_uint32 kReconfigureClose) = false) ->
     opened = [] /\ state_ d1 = state_ d).
Proof.
  rewrite prepare_unfold. destruct (_ && _) eqn:Eclose.
  - apply andb_prop in Eclose as [Ebit Est].
    assert (Hst : state_ d = kRunning) by (destruct (state_ d); easy).
    rewrite CloseCamera_running by exact Hst. cbn [driver_of].
    intro H. apply open_and_reload_trace in H
      as (opened & Hopen & Hcalls & Hcfg). cbn in Hcalls, Hcfg.
    exists ([Called uvc_close 0; Called uvc_unref_device 0] ++ opened).
    split; [cbn; exact Hopen|]. split.
    { rewrite Hcalls, <- !app_assoc. reflexivity. }
    split; [exact Hcfg|]. intros _ Hbit. specialize (Hbit Hst). congruence.
  - intro H. pose proof H as H'. apply open_and_reload_trace in H
      as (opened & Hopen & Hcalls & Hcfg).
    destruct (State_eqb (state_ d) kStopped) eqn:Est.
    + exists opened. do 3 (split; [assumption|]).
      intros Hne _. destruct (state_ d); easy.
    + revert H'. unfold open_and_reload. cbv [bind gets ret]. rewrite Est.
      destruct (negb _) eqn:Eurl; cbn; intro H'; apply Ret_inj in H' as [_ <-].
      * exists []. cbn. unfold reloads. rewrite Eurl. auto.
      * exists []. cbn. unfold reloads. rewrite Eurl.
        rewrite app_nil_r. auto.
Qed.

Lemma ReconfigureCallback_trace (new_config committed : UVCCameraConfig)
    (level : Z) (d d' : CameraDriver) :
  creation_ d = false ->
  ReconfigureCallback new_config level d = Ret committed d' ->
  exists (d1 : CameraDriver) (opened : list Event),
    prepare new_config level d = Ret tt d1 /\
    forallb opening opened = true /\
    calls d1 = calls d ++ opened ++ reloads (config_ d) new_config /\
    config_ d1 = config_ d /\
    if State_eqb (state_ d1) kRunning then
      exists d2 : CameraDriver,
        push_controls new_config d1 = Ret committed d2 /\
        d' = set_config committed d2
    else d' = d1 /\ committed = new_config.
Proof.
  intros Hcr. rewrite (ReconfigureCallback_phases _ _ _ Hcr).
  destruct (prepare new_config level d) as [[] d1|why d1] eqn:Eprep;
    [|discriminate].
  destruct (prepare_trace _ _ _ _ Eprep) as (opened & Hopen & Hcalls & Hcfg & _).
  intro H. exists d1, opened. repeat (split; [assumption || reflexivity|]).
  destruct (State_eqb (state_ d1) kRunning).
  - destruct (push_controls new_config d1) as [c d2|why d2]; [|discriminate].
    apply Ret_inj in H as [-> <-]. exists d2. auto.
  - apply Ret_inj in H as [-> <-]. auto.
Qed.

(** ** The stored snapshot applied again *)

Lemma ReconfigureCallback_same (level : Z) (committed : UVCCameraConfig)
    (d d' : CameraDriver) :
  creation_ d = false ->
  is_number (exposure_absolute (config_ d)) = true ->
  ReconfigureCallback (config_ d) level d = Ret committed d' ->
  committed = config_ d /\ config_ d' = config_ d /\
  exists opened : list Event,
    forallb opening opened = true /\ calls d' = calls d ++ opened /\
    (state_ d <> kStopped ->
     (state_ d = kRunning ->
      (Z.land level (to_uint32 kReconfigureClose)
       =? to_uint32 kReconfigureClose) = false) ->
     d' = d).
Proof.
  intros Hcr Hnum H.
  destruct (ReconfigureCallback_trace _ _ _ _ _ Hcr H)
    as (d1 & opened & Eprep & Hopen & Hcalls & Hcfg & Hrest).
  destruct (prepare_trace _ _ _ _ Eprep) as (opened' & _ & Hcalls' & _ & Hskip).
  unfold reloads in Hcalls, Hcalls'.
  rewrite String.eqb_refl in Hcalls, Hcalls'. cbn in Hcalls, Hcalls'.
  rewrite app_nil_r in Hcalls, Hcalls'.
  assert (Hd1 : state_ d <> kStopped ->
     (state_ d = kRunning ->
      (Z.land level (to_uint32 kReconfigureClose)
       =? to_uint32 kReconfigureClose) = false) -> d1 = d).
  { intros Hne Hbit. destruct (Hskip Hne Hbit) as [-> Hst].
    rewrite app_nil_r in Hcalls'.
    destruct (prepare_outcome (config_ d) level d) as ((_ & E1 & E2 & _) & _).
    rewrite Eprep in E1, E2. cbn in E1, E2.
    revert Eprep. rewrite prepare_unfold.
    assert (Eclose : (Z.land level (to_uint32 kReconfigureClose)
                      =? to_uint32 kReconfigureClose)
                     && State_eqb (state_ d) kRunning = false).
    { destruct (State_eqb (state_ d) kRunning) eqn:Est;
        [|apply andb_false_r].
      rewrite Hbit by (destruct (state_ d); easy). reflexivity. }
    rewrite Eclose. unfold open_and_reload. cbv [bind gets ret].
    assert (Est : State_eqb (state_ d) kStopped = false)
      by (destruct (state_ d); easy).
    rewrite Est, String.eqb_refl. cbn. intro E.
    now apply Ret_inj in E as [_ <-]. }
  destruct (State_eqb (state_ d1) kRunning).
  - destruct Hrest as (d2 & Epush & ->).
    rewrite <- Hcfg in Epush. rewrite push_controls_same in Epush
      by (rewrite Hcfg; exact Hnum).
    apply Ret_inj in Epush as [<- <-]. cbn.
    split; [exact Hcfg|]. split; [exact Hcfg|].
    exists opened. split; [exact Hopen|]. split; [exact Hcalls|].
    intros Hne Hbit. rewrite set_config_same. auto.
  - destruct Hrest as [-> ->].
    split; [reflexivity|]. split; [exact Hcfg|].
    exists opened. auto.
Qed.

(** X4.  What [Start] answers.  Entered outside [kInitial] it stops on
    its assertion with nothing done.  When it returns, its answer tells
    whether the driver is in [kRunning]; an answer of [false] covers two
    states: [kInitial] with the creation phase still open, exactly when
    the library refused to initialise, with that one call made and
    nothing else changed; and [kStopped], with the creation phase over,
    when the camera could not be opened. *)
Theorem Start_answer (d : CameraDriver) :
  (state_ d <> kInitial -> Start d = Fail AssertionFailed d) /\
  forall (started : bool) (d' : CameraDriver),
    Start d = Ret started d' ->
    started = State_eqb (state_ d') kRunning /\
    if uvc (calls d) uvc_init =? UVC_SUCCESS
    then creation_ d' = false /\ state_ d' <> kInitial
    else started = false /\
         d' = set_calls
                (calls d ++ [Called uvc_init (uvc (calls d) uvc_init)]) d.
Proof.
  unfold Start, UVC_SUCCESS. run. split.
  - destruct (state_ d); [congruence| |]; reflexivity.
  - intros started d'.
    destruct (state_ d) eqn:Est; cbn; try discriminate.
    name_answers. destruct (r =? 0) eqn:Er; cbn.
    + match goal with |- context [ReconfigureCallback ?c ?l ?d2] =>
        destruct (ReconfigureCallback_outcome c l d2 eq_refl)
          as (Hcr & Hstate & _);
        destruct (prepare_outcome c l d2) as (_ & _ & Hprep);
        destruct (ReconfigureCallback c l d2) as [committed d3|why d3];
          [|discriminate]
      end.
      cbn in Hcr, Hstate, Hprep.
      intro H. apply Ret_inj in H as [<- <-].
      split; [reflexivity|]. split; [exact Hcr|].
      rewrite Hstate. destruct Hprep as [->| [->| ->]]; discriminate.
    + intro H. apply Ret_inj in H as [<- <-]. cbn. rewrite Est.
      split; [reflexivity|]. split; [reflexivity|].
      destruct d; cbn in *. now subst.
Qed.

(** X5.  [Start] hands the stored snapshot to the reconfiguration
    callback, which therefore finds nothing changed: apart from the
    library's initialisation, [Start] makes only the calls that open the
    camera.  It writes no control to the device and asks for no
    calibration, whatever the snapshot holds, and the snapshot is as
    before.  (A stored exposure that is not a number is the exception:
    it differs from itself.) *)
Theorem Start_pushes_nothing (d d' : CameraDriver) (started : bool) :
  is_number (exposure_absolute (config_ d)) = true ->
  Start d = Ret started d' ->
  config_ d' = config_ d /\
  exists (err : Z) (opened : list Event),
    calls d' = calls d ++ Called uvc_init err :: opened /\
    forallb opening opened = true /\
    control_writes opened = [] /\ count is_reload opened = 0%nat.
Proof.
  intro Hnum. unfold Start, UVC_SUCCESS. run.
  destruct (state_ d) eqn:Est; cbn; try discriminate.
  name_answers. destruct (r =? 0) eqn:Er; cbn.
  - match goal with |- context [ReconfigureCallback ?c ?l ?d2] =>
      pose proof (fun committed d3 =>
                    ReconfigureCallback_same l committed d2 d3 eq_refl Hnum)
        as Hsame;
      cbn [config_ set_creation set_state set_ctx set_calls] in Hsame;
      destruct (ReconfigureCallback c l d2) as [committed d3|why d3];
        [|discriminate]
    end.
    destruct (Hsame _ _ eq_refl) as (_ & Hcfg & opened & Hopen & Hcalls & _).
    cbn in Hcalls.
    intro H. apply Ret_inj in H as [_ <-].
    split; [exact Hcfg|]. exists r, opened.
    rewrite Hcalls, <- app_assoc. split; [reflexivity|].
    split; [exact Hopen|]. destruct (opening_quiet _ Hopen) as (? & ? & _). auto.
  - intro H. apply Ret_inj in H as [_ <-]. cbn.
    split; [reflexivity|]. exists r, []. repeat split.
Qed.

(** X6.  Handing the callback the snapshot it already stores, past
    the creation phase and with a stored exposure that is a number,
    writes no control and asks for no calibration: the only calls are
    those that close and open the camera, and the snapshot comes back and
    stays as it was.  Outside [kStopped], and in [kRunning] without the
    close bits in the mask, the callback does nothing at all. *)
Theorem reapplying_snapshot (level : Z) (committed : UVCCameraConfig)
    (d d' : CameraDriver) :
  creation_ d = false ->
  is_number (exposure_absolute (config_ d)) = true ->
  ReconfigureCallback (config_ d) level d = Ret committed d' ->
  committed = config_ d /\ config_ d' = config_ d /\
  (exists opened : list Event,
     calls d' = calls d ++ opened /\ forallb opening opened = true /\
     control_writes opened = [] /\ count is_reload opened = 0%nat) /\
  (state_ d <> kStopped ->
   (state_ d = kRunning ->
    Z.land level (to_uint32 kReconfigureClose)
      <> to_uint32 kReconfigureClose) ->
   d' = d).
Proof.
  intros Hcr Hnum H.
  destruct (ReconfigureCallback_same _ _ _ _ Hcr Hnum H)
    as (Hc & Hcfg & opened & Hopen & Hcalls & Hnop).
  split; [exact Hc|]. split; [exact Hcfg|]. split.
  - exists opened. split; [exact Hcalls|]. split; [exact Hopen|].
    destruct (opening_quiet _ Hopen) as (? & ? & _). auto.
  - intros Hne Hbit. apply Hnop; [exact Hne|].
    intro Hst. apply Z.eqb_neq. auto.
Qed.

(** ** Which controls are written *)

Lemma restore_other (f g : fn.t) (config c : UVCCameraConfig) :
  f <> g ->
  (forall config' : UVCCameraConfig,
     differs (field_of g) (restore (field_of f) config c) config'
     = differs (field_of g) c config') /\
  value_of g (restore (field_of f) config c) = value_of g c.
Proof. destruct f, g; intro H; try congruence; split; reflexivity. Qed.

Lemma restore_pantilt (f : fn.t) (config c : UVCCameraConfig) :
  pan_absolute (restore (field_of f) config c) = pan_absolute c /\
  tilt_absolute (restore (field_of f) config c) = tilt_absolute c.
Proof. destruct f; split; reflexivity. Qed.

Lemma set_calls_same (d : CameraDriver) : set_calls (calls d) d = d.
Proof. now destruct d. Qed.

Lemma agrees_restore (f : fn.t) (rest : list fn.t)
    (config c new_config : UVCCameraConfig) :
  ~ In f rest -> agrees (f :: rest) c new_config ->
  agrees rest (restore (field_of f) config c) new_config.
Proof.
  intros Hnot (Hfs & Hpan & Htilt).
  destruct (restore_pantilt f config c) as [Ep Et].
  split; [|split; congruence].
  intros g Hg.
  assert (Hfg : f <> g) by (intros ->; contradiction).
  destruct (restore_other f g config c Hfg) as [Hd Hv].
  destruct (Hfs g (or_intror Hg)) as [Hd' Hv'].
  split; [|congruence]. intro config'. now rewrite Hd.
Qed.

Lemma agrees_tail (f : fn.t) (rest : list fn.t)
    (c new_config : UVCCameraConfig) :
  agrees (f :: rest) c new_config -> agrees rest c new_config.
Proof.
  intros (Hfs & Hpt). split; [|exact Hpt].
  intros g Hg. apply Hfs. now right.
Qed.

Lemma push_each_wanted (fs : list fn.t) :
  NoDup fs ->
  forall (c new_config : UVCCameraConfig) (d : CameraDriver),
  agrees fs c new_config ->
  exists (c' : UVCCameraConfig) (evs : list Event),
    push_each fs pantilt c d = Ret c' (set_calls (calls d ++ evs) d) /\
    Forall (fun e => is_control_write e = true) evs /\
    map call_of evs
    = flat_map (fun f => if differs (field_of f) new_config (config_ d)
                         then [uvc_set f (value_of f new_config)] else [])
               fs
      ++ (if int_differs (pan_absolute new_config) (pan_absolute (config_ d))
             || int_differs (tilt_absolute new_config)
                            (tilt_absolute (config_ d))
          then [uvc_set_pantilt_abs (pan_absolute new_config)
                                    (tilt_absolute new_config)]
          else []).
Proof.
  induction 1 as [|f rest Hnot Hnd IH]; intros c new_config d Hag.
  - destruct Hag as (_ & Hpan & Htilt). cbn [push_each flat_map app].
    unfold pantilt. run. rewrite Hpan, Htilt.
    destruct (_ || _).
    + name_answers. destruct (negb _); cbn;
        (eexists; eexists; split; [reflexivity|]);
        (split; [repeat constructor|reflexivity]).
    + exists c, []. rewrite app_nil_r, set_calls_same.
      split; [reflexivity|]. split; [constructor|reflexivity].
  - cbn [push_each flat_map]. unfold bind at 1.
    destruct (Hag) as (Hfs & _).
    destruct (Hfs f (or_introl eq_refl)) as [Hd Hv].
    unfold PARAM_INT at 1. run. rewrite Hd.
    destruct (differs (field_of f) new_config (config_ d)); cbn.
    + name_answers. rewrite Hv.
      set (d1 := set_calls (calls d ++ [Called (uvc_set f (value_of f new_config)) r]) d).
      assert (Hstep : forall c1 : UVCCameraConfig,
        agrees rest c1 new_config ->
        exists (c' : UVCCameraConfig) (evs : list Event),
          push_each rest pantilt c1 d1 = Ret c' (set_calls (calls d ++ evs) d) /\
          Forall (fun e => is_control_write e = true) evs /\
          map call_of evs
          = (uvc_set f (value_of f new_config)
             :: flat_map (fun f0 => if differs (field_of f0) new_config (config_ d)
                                    then [uvc_set f0 (value_of f0 new_config)]
                                    else [])
                         rest)
            ++ (if int_differs (pan_absolute new_config)
                               (pan_absolute (config_ d))
                   || int_differs (tilt_absolute new_config)
                                  (tilt_absolute (config_ d))
                then [uvc_set_pantilt_abs (pan_absolute new_config)
                                          (tilt_absolute new_config)]
                else [])).
      { intros c1 Hag1.
        destruct (IH c1 new_config d1 Hag1) as (c' & evs & Erun & Hw & Hcalls).
        exists c', (Called (uvc_set f (value_of f new_config)) r :: evs).
        split; [|split].
        - rewrite Erun. subst d1. cbn. now rewrite <- app_assoc.
        - constructor; [reflexivity|exact Hw].
        - cbn [map call_of]. rewrite Hcalls. reflexivity. }
      destruct (negb (r =? 0)); apply Hstep.
      * now apply agrees_restore.
      * now apply (agrees_tail f).
    + apply IH. now apply (agrees_tail f).
Qed.

Lemma agrees_refl (fs : list fn.t) (c : UVCCameraConfig) : agrees fs c c.
Proof. repeat split. Qed.

Lemma NoDup_setters : NoDup setters.
Proof.
  unfold setters.
  repeat (constructor; [cbn; intuition discriminate|]). constructor.
Qed.

Lemma push_controls_wanted (new_config : UVCCameraConfig)
    (d : CameraDriver) :
  exists (committed : UVCCameraConfig) (pushed : list Event),
    push_controls new_config d
      = Ret committed (set_calls (calls d ++ pushed) d) /\
    Forall (fun e => is_control_write e = true) pushed /\
    map call_of pushed = wanted (config_ d) new_config.
Proof.
  exact (push_each_wanted setters NoDup_setters new_config new_config d
           (agrees_refl _ _)).
Qed.

Lemma control_writes_all (evs : list Event) :
  Forall (fun e => is_control_write e = true) evs ->
  control_writes evs = evs.
Proof.
  induction 1 as [|e evs He _ IH]; [reflexivity|].
  unfold control_writes in *. cbn. now rewrite He, IH.
Qed.

Lemma control_writes_app (a b : list Event) :
  control_writes (a ++ b) = control_writes a ++ control_writes b.
Proof. apply filter_app. Qed.

Lemma reloads_quiet (config new_config : UVCCameraConfig) :
  control_writes (reloads config new_config) = [].
Proof. unfold reloads. now destruct (negb _). Qed.

(** X7.  Past the creation phase, a reconfiguration that ends in
    [kRunning] writes to the device exactly the controls whose new value
    is not the stored one, each once, with the new value, in the order
    of the source's lines and pan and tilt in one call at the end --
    whatever the device answers to any of them: a refused write changes
    neither which later controls are written nor with what.  That holds
    too when the camera was closed and opened again on the way, so an
    unchanged control is not written to the reopened device.  A
    reconfiguration that ends elsewhere writes no control. *)
Theorem changed_controls_written (new_config committed : UVCCameraConfig)
    (level : Z) (d d' : CameraDriver) :
  creation_ d = false ->
  ReconfigureCallback new_config level d = Ret committed d' ->
  exists evs : list Event,
    calls d' = calls d ++ evs /\
    map call_of (control_writes evs)
    = if State_eqb (state_ d') kRunning
      then wanted (config_ d) new_config else [].
Proof.
  intros Hcr H.
  destruct (ReconfigureCallback_trace _ _ _ _ _ Hcr H)
    as (d1 & opened & _ & Hopen & Hcalls & Hcfg & Hrest).
  destruct (opening_quiet _ Hopen) as (Hquiet & _).
  destruct (State_eqb (state_ d1) kRunning) eqn:Est.
  - destruct Hrest as (d2 & Epush & ->).
    destruct (push_controls_wanted new_config d1)
      as (c & pushed & Epush' & Hw & Hwanted).
    rewrite Epush' in Epush. apply Ret_inj in Epush as [-> <-].
    cbn [calls state_ set_config set_calls].
    rewrite Est, Hcalls, <- !app_assoc.
    eexists. split; [reflexivity|].
    rewrite !control_writes_app, Hquiet, reloads_quiet.
    cbn [app]. rewrite (control_writes_all _ Hw), Hwanted, Hcfg. reflexivity.
  - destruct Hrest as [-> _]. rewrite Est, Hcalls.
    eexists. split; [reflexivity|].
    now rewrite control_writes_app, Hquiet, reloads_quiet.
Qed.

(** X8.  The calls of a reconfiguration come in three groups, in this
    order: those that close and open the camera; the request to load the
    calibration, present exactly when the new snapshot's address is not
    the stored one, and for the new address; the writes of controls.  In
    the creation phase the callback calls nothing. *)
Theorem reconfigure_call_order (new_config committed : UVCCameraConfig)
    (level : Z) (d d' : CameraDriver) :
  ReconfigureCallback new_config level d = Ret committed d' ->
  if creation_ d then calls d' = calls d
  else
    exists opened pushed : list Event,
      calls d' = calls d ++ opened ++ reloads (config_ d) new_config ++ pushed /\
      forallb opening opened = true /\
      Forall (fun e => is_control_write e = true) pushed.
Proof.
  destruct (creation_ d) eqn:Hcr.
  - rewrite (ReconfigureCallback_creation _ _ _ Hcr).
    intro H. now apply Ret_inj in H as [_ <-].
  - intro H.
    destruct (ReconfigureCallback_trace _ _ _ _ _ Hcr H)
      as (d1 & opened & _ & Hopen & Hcalls & Hcfg & Hrest).
    exists opened.
    destruct (State_eqb (state_ d1) kRunning).
    + destruct Hrest as (d2 & Epush & ->).
      destruct (push_controls_wanted new_config d1)
        as (c & pushed & Epush' & Hw & _).
      rewrite Epush' in Epush. apply Ret_inj in Epush as [-> <-]. cbn.
      exists pushed. rewrite Hcalls, <- !app_assoc. auto.
    + destruct Hrest as [-> _]. exists [].
      rewrite Hcalls, app_nil_r. auto.
Qed.

(** ** What the caller gets back *)

Lemma push_controls_committed (new_config : UVCCameraConfig)
    (d : CameraDriver) :
  exists pushed : list Event,
    Forall (fun e => is_control_write e = true) pushed /\
    push_controls new_config d
      = Ret (rolled_back (config_ d) new_config pushed)
            (set_calls (calls d ++ pushed) d).
Proof.
  destruct (push_controls_step new_config d) as (pushed & Hw & E).
  rewrite undo_rolled_back in E. eauto.
Qed.

(** X9.  [new_config] is handed back through the reference.  In the
    creation phase, and whenever the callback ends in [kRunning], what
    the caller finds in it is what the driver stores.  Past the creation
    phase and ending elsewhere, the caller finds the snapshot it passed,
    untouched, while the driver still stores the one from before the
    call: the two then disagree wherever the new snapshot differed. *)
Theorem returned_snapshot (new_config committed : UVCCameraConfig)
    (level : Z) (d d' : CameraDriver) :
  ReconfigureCallback new_config level d = Ret committed d' ->
  if creation_ d || State_eqb (state_ d') kRunning
  then committed = config_ d'
  else committed = new_config /\ config_ d' = config_ d.
Proof.
  destruct (creation_ d) eqn:Hcr.
  - rewrite (ReconfigureCallback_creation _ _ _ Hcr).
    intro H. now apply Ret_inj in H as [<- <-].
  - intro H.
    destruct (ReconfigureCallback_trace _ _ _ _ _ Hcr H)
      as (d1 & opened & _ & _ & _ & Hcfg & Hrest).
    cbn [orb].
    destruct (State_eqb (state_ d1) kRunning) eqn:Est.
    + destruct Hrest as (d2 & Epush & ->).
      destruct (push_controls_committed new_config d1) as (pushed & _ & E).
      rewrite E in Epush. apply Ret_inj in Epush as [<- <-].
      cbn [state_ set_config set_calls]. rewrite Est. reflexivity.
    + destruct Hrest as [-> ->]. rewrite Est. auto.
Qed.

(** X10.  While streaming, a reconfiguration whose mask lacks the
    close bits returns and goes on streaming: the camera is neither
    closed nor opened and the stream is not negotiated again, the
    scratch frame is the one from before.  Yet the stored snapshot takes
    the new width, height, video mode and frame rate, and it is this
    snapshot that sizes the pictures of the frames to come. *)
Theorem size_committed_while_streaming (new_config : UVCCameraConfig)
    (level : Z) (d : CameraDriver) :
  creation_ d = false -> state_ d = kRunning ->
  Z.land level (to_uint32 kReconfigureClose) <> to_uint32 kReconfigureClose ->
  exists (committed : UVCCameraConfig) (d' : CameraDriver)
         (pushed : list Event),
    ReconfigureCallback new_config level d = Ret committed d' /\
    state_ d' = kRunning /\
    calls d' = calls d ++ reloads (config_ d) new_config ++ pushed /\
    Forall (fun e => is_control_write e = true) pushed /\
    rgb_frame_ d' = rgb_frame_ d /\
    width (config_ d') = width new_config /\
    height (config_ d') = height new_config /\
    video_mode (config_ d') = video_mode new_config /\
    frame_rate (config_ d') = frame_rate new_config.
Proof.
  intros Hcr Hst Hbit.
  rewrite (ReconfigureCallback_phases _ _ _ Hcr), prepare_unfold.
  apply Z.eqb_neq in Hbit. rewrite Hbit. cbn [andb].
  unfold open_and_reload. cbv [bind gets ret]. rewrite Hst. cbn [State_eqb].
  assert (Hd1 : exists d1 : CameraDriver,
    (if negb (camera_info_url new_config =? camera_info_url (config_ d))%string
     then emit (loadCameraInfo (camera_info_url new_config))
     else fun d0 => Ret tt d0) d = Ret tt d1 /\
    d1 = set_calls (calls d ++ reloads (config_ d) new_config) d).
  { unfold reloads. destruct (negb _); cbn; eexists; (split; [reflexivity|]).
    - reflexivity.
    - now rewrite app_nil_r, set_calls_same. }
  destruct Hd1 as (d1 & -> & ->).
  cbn [state_ set_calls]. rewrite Hst. cbn [State_eqb].
  match goal with |- context [push_controls new_config ?d1] =>
    destruct (push_controls_committed new_config d1) as (pushed & Hw & ->)
  end.
  do 3 eexists. split; [reflexivity|].
  cbn. rewrite <- app_assoc. repeat split; auto.
Qed.

(** ** The control-change callback, for every payload *)

Lemma lor_shiftl_add (a b n : Z) :
  0 <= n -> 0 <= a < 2 ^ n -> Z.lor a (Z.shiftl b n) = a + b * 2 ^ n.
Proof.
  intros Hn Ha.
  assert (Hland : Z.land a (Z.shiftl b n) = 0).
  { apply Z.bits_inj'. intros i Hi.
    rewrite Z.land_spec, Z.bits_0.
    destruct (Z.lt_ge_cases i n) as [Hlt|Hge].
    - rewrite (Z.shiftl_spec_low b n i Hlt). apply andb_false_r.
    - assert (Ea : Z.testbit a i = false).
      { destruct (Z.eq_dec a 0) as [->|Hnz]; [apply Z.bits_0|].
        apply Z.bits_above_log2; [lia|].
        assert (Z.log2 a < n) by (apply Z.log2_lt_pow2; lia). lia. }
      now rewrite Ea. }
  rewrite <- (Z.lxor_lor _ _ Hland), <- (Z.add_nocarry_lxor _ _ Hland).
  now rewrite Z.shiftl_mul_pow2.
Qed.

Lemma byte_to_Z_range (b : byte) : 0 <= byte_to_Z b < 2 ^ 8.
Proof. destruct b; cbv; split; congruence. Qed.

Lemma to_uint32_to_int (z : Z) : to_uint32 (to_int z) = z mod 2 ^ 32.
Proof.
  unfold to_uint32, to_int.
  change (2 ^ 32) with 4294967296. change (2 ^ 31) with 2147483648.
  Z.div_mod_to_equations. lia.
Qed.

Lemma exposure_int_value (b0 b1 b2 b3 : byte) :
  let n := byte_to_Z b0 + 2 ^ 8 * byte_to_Z b1 + 2 ^ 16 * byte_to_Z b2
           + 2 ^ 24 * byte_to_Z b3 in
  0 <= n < 2 ^ 32 /\ exposure_int b0 b1 b2 b3 = n.
Proof.
  pose proof (byte_to_Z_range b0) as H0.
  pose proof (byte_to_Z_range b1) as H1.
  pose proof (byte_to_Z_range b2) as H2.
  pose proof (byte_to_Z_range b3) as H3.
  cbn zeta. split; [lia|].
  unfold exposure_int. rewrite to_uint32_to_int.
  rewrite (lor_shiftl_add (byte_to_Z b0)) by lia.
  rewrite (lor_shiftl_add _ _ 16) by lia.
  rewrite (lor_shiftl_add _ _ 24) by lia.
  rewrite Z.mod_small by lia. lia.
Qed.

Lemma white_balance_int_value (b0 b1 : byte) :
  white_balance_int b0 b1 = byte_to_Z b0 + 2 ^ 8 * byte_to_Z b1 /\
  0 <= white_balance_int b0 b1 < 2 ^ 16.
Proof.
  pose proof (byte_to_Z_range b0) as H0.
  pose proof (byte_to_Z_range b1) as H1.
  unfold white_balance_int.
  rewrite (lor_shiftl_add (byte_to_Z b0)) by lia. lia.
Qed.

(** X11.  The control-change callback calls nothing and touches
    neither the state nor any handle, the scratch frame or the creation
    flag.  In the snapshot it can change the exposure and the white
    balance only.  It never clears the dirty flag, and it sets it
    whenever it stores a value, also when the value is the one already
    there.  When it stops, it stops on a read past the payload, with
    nothing changed. *)
Theorem AutoControlsCallback_frame (status_class : uvc_status_class)
    (event selector : Z) (status_attribute : uvc_status_attribute)
    (payload : list byte) (d : CameraDriver) :
  let r := AutoControlsCallback status_class event selector
             status_attribute payload d in
  let d' := driver_of r in
  calls d' = calls d /\ state_ d' = state_ d /\ ctx_ d' = ctx_ d /\
  dev_ d' = dev_ d /\ devh_ d' = devh_ d /\
  rgb_frame_ d' = rgb_frame_ d /\ creation_ d' = creation_ d /\
  with_white_balance_temperature (white_balance_temperature (config_ d))
    (with_exposure_absolute (exposure_absolute (config_ d)) (config_ d'))
  = config_ d /\
  (d' = d \/ config_changed_ d' = true) /\
  (returned r = false -> r = Fail OutOfBounds d).
Proof.
  assert (Hsame : with_white_balance_temperature
                    (white_balance_temperature (config_ d))
                    (with_exposure_absolute (exposure_absolute (config_ d))
                       (config_ d)) = config_ d)
    by (now destruct (config_ d)).
  unfold AutoControlsCallback.
  destruct status_attribute;
    try (cbn; repeat split; auto; discriminate).
  destruct status_class;
    try (cbn; repeat split; auto; discriminate).
  - destruct (_ =? _); [|cbn; repeat split; auto; discriminate].
    destruct payload as [|b0 [|b1 [|b2 [|b3 rest]]]];
      cbn; repeat split; auto; discriminate.
  - destruct (_ =? _); [|cbn; repeat split; auto; discriminate].
    destruct payload as [|b0 [|b1 rest]];
      cbn; repeat split; auto; discriminate.
Qed.

(** X12.  A value-change event for the absolute exposure stores, for
    any payload of four bytes or more, the first four read as an
    unsigned little-endian number, times 0.0001 in [double] arithmetic:
    the promotion of the bytes to [int] and the shift of the fourth into
    the sign bit do not change the number once it is stored in the
    [uint32_t].  Bytes past the fourth are not looked at. *)
Theorem exposure_event_value (event : Z) (b0 b1 b2 b3 : byte)
    (rest : list byte) (d : CameraDriver) :
  let n := byte_to_Z b0 + 2 ^ 8 * byte_to_Z b1 + 2 ^ 16 * byte_to_Z b2
           + 2 ^ 24 * byte_to_Z b3 in
  0 <= n < 2 ^ 32 /\
  AutoControlsCallback UVC_STATUS_CLASS_CONTROL_CAMERA event
    UVC_CT_EXPOSURE_TIME_ABSOLUTE_CONTROL UVC_STATUS_ATTRIBUTE_VALUE_CHANGE
    (b0 :: b1 :: b2 :: b3 :: rest) d
  = Ret tt
      (set_config_changed true
         (set_config
            (with_exposure_absolute
               (PrimFloat.mul (uint32_to_double n) 0.0001%float)
               (config_ d)) d)).
Proof.
  destruct (exposure_int_value b0 b1 b2 b3) as [Hrange Hval].
  cbn zeta in *. split; [exact Hrange|].
  unfold AutoControlsCallback. rewrite Z.eqb_refl. run.
  now rewrite Hval.
Qed.

(** X13.  A value-change event for the white-balance temperature
    stores, for any payload of two bytes or more, the first two read as
    an unsigned little-endian number, between 0 and 65535, and sets the
    dirty flag; the rest of the driver is as before. *)
Theorem white_balance_event_value (event : Z) (b0 b1 : byte)
    (rest : list byte) (d : CameraDriver) :
  let n := byte_to_Z b0 + 2 ^ 8 * byte_to_Z b1 in
  0 <= n < 2 ^ 16 /\
  AutoControlsCallback UVC_STATUS_CLASS_CONTROL_PROCESSING event
    UVC_PU_WHITE_BALANCE_TEMPERATURE_CONTROL
    UVC_STATUS_ATTRIBUTE_VALUE_CHANGE (b0 :: b1 :: rest) d
  = Ret tt
      (set_config_changed true
         (set_config (with_white_balance_temperature n (config_ d)) d)).
Proof.
  destruct (white_balance_int_value b0 b1) as [Hval Hrange].
  cbn zeta. rewrite <- Hval. split; [exact Hrange|].
  unfold AutoControlsCallback. rewrite Z.eqb_refl. run. reflexivity.
Qed.

(** X14.  The callback never looks at the payload's length.  An
    exposure event with fewer than four bytes, or a white-balance event
    with fewer than two, is a read past the end of the payload; nothing
    is stored. *)
Theorem short_payload_overread (event : Z) (payload : list byte)
    (d : CameraDriver) :
  ((List.length payload < 4)%nat ->
   AutoControlsCallback UVC_STATUS_CLASS_CONTROL_CAMERA event
     UVC_CT_EXPOSURE_TIME_ABSOLUTE_CONTROL UVC_STATUS_ATTRIBUTE_VALUE_CHANGE
     payload d = Fail OutOfBounds d) /\
  ((List.length payload < 2)%nat ->
   AutoControlsCallback UVC_STATUS_CLASS_CONTROL_PROCESSING event
     UVC_PU_WHITE_BALANCE_TEMPERATURE_CONTROL
     UVC_STATUS_ATTRIBUTE_VALUE_CHANGE payload d = Fail OutOfBounds d).
Proof.
  unfold AutoControlsCallback. rewrite !Z.eqb_refl. split; intro Hlen.
  - destruct payload as [|b0 [|b1 [|b2 [|b3 rest]]]];
      try reflexivity. cbn in Hlen. lia.
  - destruct payload as [|b0 [|b1 rest]]; try reflexivity. cbn in Hlen. lia.
Qed.

(** ** What the frame callback calls *)

Lemma convert_trace (frame : uvc_frame) (payload buffer : list byte)
    (d : CameraDriver) :
  exists evs : list Event,
    calls (driver_of (convert frame payload buffer d)) = calls d ++ evs /\
    forallb conversion evs = true.
Proof.
  assert (Hcopy : forall label : string,
    exists evs : list Event,
      calls (driver_of ((copied <- memcpy buffer payload ;;
                         ret (Some (label, copied))) d)) = calls d ++ evs /\
      forallb conversion evs = true).
  { intro label. unfold bind.
    pose proof (memcpy_driver buffer payload d) as Hd.
    destruct (memcpy buffer payload d) as [copied d1|why d1];
      cbn in Hd; subst d1; exists []; now rewrite app_nil_r. }
  assert (Hvia : forall (c : Call) (label : string),
    conversion (Called c (uvc (calls d) c)) = true ->
    exists evs : list Event,
      calls (driver_of (via_scratch c label buffer d)) = calls d ++ evs /\
      forallb conversion evs = true).
  { intros c label Hc. unfold via_scratch. run.
    exists [Called c (uvc (calls d) c)].
    split; [|cbn [forallb]; now rewrite Hc].
    destruct (negb _); [reflexivity|].
    match goal with |- context [memcpy ?a ?b ?s] =>
      pose proof (memcpy_driver a b s) as Hd;
      destruct (memcpy a b s) as [copied d1|why d1] end;
      cbn in Hd; subst d1; reflexivity. }
  unfold convert.
  destruct (frame_format frame); try apply Hcopy;
    try (apply Hvia; reflexivity).
  destruct LIBUVC_HAS_JPEG; apply Hvia; reflexivity.
Qed.

Lemma conversion_silent (evs : list Event) :
  forallb conversion evs = true ->
  published evs = [] /\ count is_update evs = 0%nat.
Proof.
  induction evs as [|e evs IH]; [split; reflexivity|].
  cbn [forallb]. intro H. apply andb_prop in H as [He Hevs].
  destruct (IH Hevs) as [H1 H2]. unfold count in *.
  destruct e as [[] ?]; try discriminate He; cbn; auto.
Qed.

(** X15.  A frame callback that returns has left the snapshot alone
    and has either published nothing, reported nothing and left the
    dirty flag as it was, or published one picture.  In that case its
    last calls are the request for the calibration, the publication
    and, exactly when the dirty flag was set, one report of the snapshot
    to the configuration server; the flag is clear afterwards.  So a
    pending report is not lost by a dropped frame or a failed
    conversion, and it is sent after the picture.  The picture and the
    calibration published with it carry the same time and the
    snapshot's frame name. *)
Theorem publish_then_report (timestamp : Z) (frame : uvc_frame)
    (d d' : CameraDriver) :
  ImageCallback timestamp frame d = Ret tt d' ->
  config_ d' = config_ d /\
  exists evs : list Event,
    calls d' = calls d ++ evs /\
    ((published evs = [] /\ count is_update evs = 0%nat /\
      config_changed_ d' = config_changed_ d)
     \/
     exists (before : list Event) (image : sensor_msgs.Image)
            (cinfo : sensor_msgs.CameraInfo),
       evs = before
             ++ [Called getCameraInfo 0; Called (publish image cinfo) 0]
             ++ (if config_changed_ d
                 then [Called (updateConfig (config_ d)) 0] else []) /\
       published before = [] /\ count is_update before = 0%nat /\
       config_changed_ d' = false /\
       sensor_msgs.frame_id image = frame_id (config_ d) /\
       sensor_msgs.stamp image = timestamp /\
       sensor_msgs.info_frame_id cinfo = frame_id (config_ d) /\
       sensor_msgs.info_stamp cinfo = timestamp).
Proof.
  assert (Hnothing : forall d0, d0 = d ->
    config_ d0 = config_ d /\
    exists evs : list Event,
      calls d0 = calls d ++ evs /\
      ((published evs = [] /\ count is_update evs = 0%nat /\
        config_changed_ d0 = config_changed_ d)
       \/
       exists (before : list Event) (image : sensor_msgs.Image)
              (cinfo : sensor_msgs.CameraInfo),
         evs = before
               ++ [Called getCameraInfo 0; Called (publish image cinfo) 0]
               ++ (if config_changed_ d
                   then [Called (updateConfig (config_ d)) 0] else []) /\
         published before = [] /\ count is_update before = 0%nat /\
         config_changed_ d0 = false /\
         sensor_msgs.frame_id image = frame_id (config_ d) /\
         sensor_msgs.stamp image = timestamp /\
         sensor_msgs.info_frame_id cinfo = frame_id (config_ d) /\
         sensor_msgs.info_stamp cinfo = timestamp)).
  { intros d0 ->. split; [reflexivity|]. exists [].
    rewrite app_nil_r. split; [reflexivity|]. left. auto. }
  unfold ImageCallback.
  destruct (data frame) as [payload|];
    [|intro H; apply Ret_inj in H as [_ <-]; now apply Hnothing].
  run.
  destruct (State_eqb (state_ d) kRunning); [|discriminate]. cbn.
  destruct (non_null (rgb_frame_ d)); [|discriminate]. cbn.
  destruct (_ || _);
    [intro H; apply Ret_inj in H as [_ <-]; now apply Hnothing|].
  destruct (_ <? _);
    [intro H; apply Ret_inj in H as [_ <-]; now apply Hnothing|].
  clear Hnothing.
  match goal with |- context [convert frame payload ?buffer ?d1] =>
    destruct (convert_outcome frame payload buffer d1)
      as [(_ & Hcfg & Hch & _) _];
    destruct (convert_trace frame payload buffer d1) as (conv & Hcalls & Hconv);
    destruct (convert frame payload buffer d1) as [[[label bytes]|] d2|why d2]
  end; cbn in Hcfg, Hch, Hcalls |- *; [| |discriminate].
  - destruct (conversion_silent _ Hconv) as [Hpub Hupd].
    rewrite Hch.
    destruct (config_changed_ d) eqn:Echanged; cbn;
      intro H; apply Ret_inj in H as [_ <-]; cbn; rewrite ?Hcfg;
      (split; [reflexivity|]);
      eexists; (split; [rewrite Hcalls, <- !app_assoc; reflexivity|]);
      right;
      exists (Called (resize (image_bytes (config_ d))) 0 :: conv);
      do 2 eexists;
      (split; [cbn; rewrite <- ?app_assoc; reflexivity|]);
      cbn; unfold count in *; cbn; auto 10.
  - destruct (conversion_silent _ Hconv) as [Hpub Hupd].
    intro H. apply Ret_inj in H as [_ <-].
    split; [exact Hcfg|].
    exists (Called (resize (image_bytes (config_ d))) 0 :: conv).
    split; [rewrite Hcalls, <- app_assoc; reflexivity|].
    left. unfold count in *. cbn. auto.
Qed.

(** An exact account of the frames that need no conversion. *)
Lemma ImageCallback_copied (timestamp : Z) (frame : uvc_frame)
    (payload : list byte) (label : string) (d : CameraDriver) :
  data frame = Some payload ->
  copied_label (frame_format frame) = Some label ->
  state_ d = kRunning -> rgb_frame_ d <> None ->
  width (config_ d) <> 0 -> height (config_ d) <> 0 ->
  image_bytes (config_ d) <= 1920 * 1080 * 3 ->
  ImageCallback timestamp frame d =
    if (List.length payload <=? Z.to_nat (image_bytes (config_ d)))%nat
    then
      Ret tt
        (set_config_changed false
           (set_calls
              (calls d
               ++ [Called (resize (image_bytes (config_ d))) 0;
                   Called getCameraInfo 0;
                   Called (publish
                             (copied_image timestamp (config_ d) label payload)
                             {| sensor_msgs.info_frame_id := frame_id (config_ d);
                                sensor_msgs.info_stamp := timestamp |}) 0]
               ++ (if config_changed_ d
                   then [Called (updateConfig (config_ d)) 0] else []))
              d))
    else
      Fail OutOfBounds
        (set_calls
           (calls d ++ [Called (resize (image_bytes (config_ d))) 0]) d).
Proof.
  intros Hdata Hlabel Hst Hrgb Hw Hh Hceil.
  unfold ImageCallback. rewrite Hdata. run. rewrite Hst. cbn.
  destruct (rgb_frame_ d) as [scratch|] eqn:Ergb; [|congruence]. cbn.
  apply Z.eqb_neq in Hw, Hh. rewrite Hw, Hh. cbn.
  apply Z.ltb_ge in Hceil. cbn in Hceil. rewrite Hceil.
  set (n := image_bytes (config_ d)) in *.
  unfold convert, memcpy.
  rewrite repeat_length.
  destruct (frame_format frame); try discriminate;
    inversion Hlabel; subst label;
    (destruct (_ <=? _)%nat; cbn; [|reflexivity]);
    rewrite skipn_repeat_zero;
    destruct d as [st ctx dev devh rgb creation changed config trace];
    cbn in *; destruct changed; cbn; rewrite <- ?app_assoc; reflexivity.
Qed.

(** X16.  A frame in a format that is copied as it is, longer than
    the buffer the snapshot sizes, is copied past the end of that
    buffer: the callback asks for the buffer and stops there; nothing is
    published and no comparison of the two lengths comes before the
    copy. *)
Theorem long_frame_overruns (timestamp : Z) (frame : uvc_frame)
    (payload : list byte) (label : string) (d : CameraDriver) :
  data frame = Some payload ->
  copied_label (frame_format frame) = Some label ->
  state_ d = kRunning -> rgb_frame_ d <> None ->
  width (config_ d) <> 0 -> height (config_ d) <> 0 ->
  image_bytes (config_ d) <= 1920 * 1080 * 3 ->
  image_bytes (config_ d) < Z.of_nat (List.length payload) ->
  ImageCallback timestamp frame d =
    Fail OutOfBounds
      (set_calls (calls d ++ [Called (resize (image_bytes (config_ d))) 0]) d).
Proof.
  intros Hdata Hlabel Hst Hrgb Hw Hh Hceil Hlong.
  rewrite (ImageCallback_copied _ _ _ _ _ Hdata Hlabel Hst Hrgb Hw Hh Hceil).
  assert (E : (List.length payload <=? Z.to_nat (image_bytes (config_ d)))%nat
              = false).
  { apply Nat.leb_gt.
    assert (0 <= image_bytes (config_ d))
      by (unfold image_bytes, to_uint32; now apply Z.mod_pos_bound).
    lia. }
  now rewrite E.
Qed.

(** X17.  A change of exposure that the device reports reaches the
    configuration server with the next published picture, and once: the
    control-change callback stores the value and sets the flag; the next
    frame that is published is followed by one report of the snapshot
    with that value; the frame after it is published with no report. *)
Theorem reported_change_sent_once (event : Z) (b0 b1 b2 b3 : byte)
    (rest : list byte) (timestamp timestamp' : Z) (frame : uvc_frame)
    (payload : list byte) (label : string) (d : CameraDriver) :
  data frame = Some payload ->
  copied_label (frame_format frame) = Some label ->
  state_ d = kRunning -> rgb_frame_ d <> None ->
  width (config_ d) <> 0 -> height (config_ d) <> 0 ->
  image_bytes (config_ d) <= 1920 * 1080 * 3 ->
  Z.of_nat (List.length payload) <= image_bytes (config_ d) ->
  exists (d1 d2 d3 : CameraDriver) (first second : list Event),
    AutoControlsCallback UVC_STATUS_CLASS_CONTROL_CAMERA event
      UVC_CT_EXPOSURE_TIME_ABSOLUTE_CONTROL
      UVC_STATUS_ATTRIBUTE_VALUE_CHANGE (b0 :: b1 :: b2 :: b3 :: rest) d
      = Ret tt d1 /\
    ImageCallback timestamp frame d1 = Ret tt d2 /\
    ImageCallback timestamp' frame d2 = Ret tt d3 /\
    calls d1 = calls d /\
    calls d2 = calls d1 ++ first ++ [Called (updateConfig (config_ d1)) 0] /\
    calls d3 = calls d2 ++ second /\
    List.length (published first) = 1%nat /\
    List.length (published second) = 1%nat /\
    count is_update first = 0%nat /\ count is_update second = 0%nat /\
    exposure_absolute (config_ d1)
    = PrimFloat.mul (uint32_to_double (exposure_int b0 b1 b2 b3))
                    0.0001%float /\
    config_changed_ d3 = false.
Proof.
  intros Hdata Hlabel Hst Hrgb Hw Hh Hceil Hfit.
  assert (Hle : (List.length payload <=? Z.to_nat (image_bytes (config_ d)))%nat
                = true) by (apply Nat.leb_le; lia).
  set (d1 := set_config_changed true
               (set_config
                  (with_exposure_absolute
                     (PrimFloat.mul
                        (uint32_to_double (exposure_int b0 b1 b2 b3))
                        0.0001%float) (config_ d)) d)).
  assert (Hbytes : image_bytes (config_ d1) = image_bytes (config_ d))
    by reflexivity.
  assert (H1 : ImageCallback timestamp frame d1 = _)
    by (apply (ImageCallback_copied _ _ payload label); assumption).
  rewrite Hbytes, Hle in H1.
  match type of H1 with _ = Ret tt ?x => set (d2 := x) in * end.
  assert (H2 : ImageCallback timestamp' frame d2 = _)
    by (apply (ImageCallback_copied _ _ payload label); assumption).
  change (image_bytes (config_ d2)) with (image_bytes (config_ d)) in H2.
  rewrite Hle in H2.
  match type of H2 with _ = Ret tt ?x => set (d3 := x) in * end.
  exists d1, d2, d3. do 2 eexists.
  split.
  { unfold AutoControlsCallback. rewrite Z.eqb_refl. run. reflexivity. }
  split; [exact H1|]. split; [exact H2|].
  split; [reflexivity|]. split.
  { subst d2. cbn [calls set_calls set_config_changed]. reflexivity. }
  split.
  { subst d3. cbn [calls set_calls set_config_changed]. reflexivity. }
  unfold count. cbn. repeat split.
Qed.

(** ** Where a reconfiguration can stop *)

Lemma Fail_inj {A : Type} (why why' : Failure) (d d' : CameraDriver) :
  @Fail A why d = Fail why' d' -> why = why' /\ d = d'.
Proof.
  intro H. split.
  - exact (f_equal (fun r => match r with
                             | Ret _ _ => why
                             | Fail w _ => w
                             end) H).
  - exact (f_equal driver_of H).
Qed.

Lemma OpenCamera_fails (new_config : UVCCameraConfig) (why : Failure)
    (d d' : CameraDriver) :
  state_ d = kStopped ->
  OpenCamera new_config d = Fail why d' ->
  why = AssertionFailed /\ state_ d' = kStopped /\ rgb_frame_ d' = None /\
  config_ d' = config_ d /\
  exists evs : list Event,
    calls d' =
      calls d ++ evs
      ++ [Called (uvc_allocate_frame
                    (to_int (to_int (width new_config * height new_config)
                             * 3))) 0] /\
    forallb opening evs = true /\
    In (Called uvc_start_iso_streaming 0) evs.
Proof.
  intro Hst. unfold OpenCamera, UVC_SUCCESS. run. rewrite Hst. cbn.
  repeat first
    [ progress name_answers
    | match goal with
      | |- context [negb (?x =? 0)] => destruct (x =? 0) eqn:?; cbn
      | |- context [non_null (rgb_frame_ d)] => destruct (rgb_frame_ d); cbn
      | |- context [if (?x =? 0) then _ else _] =>
          destruct (x =? 0) eqn:?; cbn
      end ];
  try discriminate;
  (intro H; apply Fail_inj in H as [<- <-]; cbn;
   repeat (split; [first [reflexivity|exact Hst]|]);
   repeat match goal with E : (?p =? 0) = true |- _ =>
     apply Z.eqb_eq in E; subst p end;
   eexists;
   split; [rewrite (app_assoc (calls d)); f_equal;
           rewrite <- !app_assoc; reflexivity|];
   split; [reflexivity|cbn; auto 10]).
Qed.

Lemma open_and_reload_fails (new_config : UVCCameraConfig) (why : Failure)
    (d d' : CameraDriver) :
  open_and_reload new_config d = Fail why d' ->
  state_ d = kStopped /\ OpenCamera new_config d = Fail why d'.
Proof.
  unfold open_and_reload. cbv [bind gets ret].
  destruct (State_eqb (state_ d) kStopped) eqn:Est.
  - destruct (OpenCamera new_config d) as [[] d1|why1 d1].
    + destruct (negb _); discriminate.
    + intro H. split; [destruct (state_ d); easy|exact H].
  - destruct (negb _); discriminate.
Qed.

(** X18.  The reconfiguration callback returns in every case but
    one: the camera was opened and is streaming, and the library has no
    scratch frame to give.  It then stops on the assertion that follows
    the allocation, which is its last call, in [kStopped] although the
    stream runs, without a scratch frame, with the stored snapshot
    untouched and no control written.  In the creation phase it always
    returns. *)
Theorem reconfigure_stops_on_allocation (new_config : UVCCameraConfig)
    (level : Z) (why : Failure) (d d' : CameraDriver) :
  ReconfigureCallback new_config level d = Fail why d' ->
  why = AssertionFailed /\ creation_ d = false /\
  state_ d' = kStopped /\ rgb_frame_ d' = None /\ config_ d' = config_ d /\
  exists evs : list Event,
    calls d' =
      calls d ++ evs
      ++ [Called (uvc_allocate_frame
                    (to_int (to_int (width new_config * height new_config)
                             * 3))) 0] /\
    control_writes evs = [] /\
    In (Called uvc_start_iso_streaming 0) evs.
Proof.
  destruct (creation_ d) eqn:Hcr.
  { rewrite (ReconfigureCallback_creation _ _ _ Hcr). discriminate. }
  rewrite (ReconfigureCallback_phases _ _ _ Hcr).
  destruct (prepare new_config level d) as [[] d1|why1 d1] eqn:Eprep.
  { destruct (State_eqb (state_ d1) kRunning); [|discriminate].
    destruct (push_controls_committed new_config d1) as (pushed & _ & ->).
    discriminate. }
  intro H. apply Fail_inj in H as [<- <-].
  revert Eprep. rewrite prepare_unfold.
  destruct (_ && _) eqn:Eclose.
  - apply andb_prop in Eclose as [_ Est].
    assert (Hst : state_ d = kRunning) by (destruct (state_ d); easy).
    rewrite CloseCamera_running by exact Hst. cbn [driver_of].
    intro E. apply open_and_reload_fails in E as [Hst1 E].
    destruct (OpenCamera_fails _ _ _ _ Hst1 E)
      as (-> & Hst' & Hrgb & Hcfg & evs & Hcalls & Hopen & Hin).
    cbn in Hcfg, Hcalls.
    do 5 (split; [assumption || reflexivity|]).
    exists ([Called uvc_close 0; Called uvc_unref_device 0] ++ evs).
    split; [rewrite Hcalls, <- !app_assoc; reflexivity|].
    destruct (opening_quiet evs Hopen) as (Hq & _).
    split; [rewrite control_writes_app, Hq; reflexivity|].
    apply in_or_app. now right.
  - intro E. apply open_and_reload_fails in E as [Hst1 E].
    destruct (OpenCamera_fails _ _ _ _ Hst1 E)
      as (-> & Hst' & Hrgb & Hcfg & evs & Hcalls & Hopen & Hin).
    do 5 (split; [assumption || reflexivity|]).
    exists evs. split; [exact Hcalls|].
    destruct (opening_quiet evs Hopen) as (Hq & _).
    split; [exact Hq|exact Hin].
Qed.

(** ** The creation phase *)

Lemma AutoControlsCallback_quiet (status_class : uvc_status_class)
    (event selector : Z) (status_attribute : uvc_status_attribute)
    (payload : list byte) (d : CameraDriver) :
  let d' := driver_of (AutoControlsCallback status_class event selector
                         status_attribute payload d) in
  calls d' = calls d /\ state_ d' = state_ d /\ ctx_ d' = ctx_ d /\
  dev_ d' = dev_ d /\ devh_ d' = devh_ d /\ rgb_frame_ d' = rgb_frame_ d /\
  creation_ d' = creation_ d.
Proof.
  unfold AutoControlsCallback.
  destruct status_attribute; try (cbn; now repeat split).
  destruct status_class; try (cbn; now repeat split).
  - destruct (_ =? _); [|cbn; now repeat split].
    destruct payload as [|b0 [|b1 [|b2 [|b3 rest]]]]; cbn; now repeat split.
  - destruct (_ =? _); [|cbn; now repeat split].
    destruct payload as [|b0 [|b1 rest]]; cbn; now repeat split.
Qed.

Lemma ImageCallback_idle (timestamp : Z) (frame : uvc_frame)
    (d d' : CameraDriver) :
  state_ d <> kRunning ->
  ImageCallback timestamp frame d = Ret tt d' -> d' = d.
Proof.
  intro Hst. unfold ImageCallback.
  destruct (data frame) as [payload|].
  - run. destruct (state_ d); try congruence; discriminate.
  - intro H. now apply Ret_inj in H as [_ <-].
Qed.

Lemma Start_creation (d d' : CameraDriver) (started : bool) :
  Start d = Ret started d' -> creation_ d' = true ->
  exists err : Z,
    err <> UVC_SUCCESS /\
    d' = set_calls (calls d ++ [Called uvc_init err]) d.
Proof.
  unfold Start, UVC_SUCCESS. run.
  destruct (state_ d) eqn:Est; cbn; try discriminate.
  name_answers. destruct (r =? 0) eqn:Er; cbn.
  - match goal with |- context [ReconfigureCallback ?c ?l ?d2] =>
      destruct (ReconfigureCallback_outcome c l d2 eq_refl) as (Hcr & _);
      destruct (ReconfigureCallback c l d2) as [committed d3|why d3];
        [|discriminate]
    end.
    cbn in Hcr. intro H. apply Ret_inj in H as [_ <-]. congruence.
  - intro H. apply Ret_inj in H as [_ <-]. intros _.
    exists r. split; [now apply Z.eqb_neq|reflexivity].
Qed.

Lemma Stop_creation (d d' : CameraDriver) :
  Stop d = Ret tt d' -> state_ d <> kInitial /\ creation_ d' = creation_ d.
Proof.
  destruct d as [st ctx dev devh rgb creation changed config trace].
  destruct st; cbn; try discriminate;
    (intro H; apply Ret_inj in H as [_ <-]; split; [discriminate|reflexivity]).
Qed.

(** X19.  In a run that has not been stopped by a failure, as long
    as the creation phase lasts the driver is in [kInitial] and holds
    nothing: no context, no device, no handle, no scratch frame, and the
    only calls it has made are initialisations that the library
    refused.  The phase ends with the first initialisation that
    succeeds, and a snapshot handed over before that is stored without a
    single call. *)
Theorem creation_phase_calls_nothing (d : CameraDriver) :
  live d -> creation_ d = true -> unopened d.
Proof.
  induction 1 as [config|d d' started _ IH E|d d' _ IH E
                  |new_config committed level d d' _ IH E
                  |timestamp frame d d' _ IH E
                  |status_class event selector status_attribute payload
                     d d' _ IH E]; intro Hcr.
  - repeat split. constructor.
  - destruct (Start_creation _ _ _ E Hcr) as (err & Herr & ->).
    cbn in Hcr. destruct (IH Hcr) as (Hst & Hctx & Hdev & Hdevh & Hrgb & Hcalls).
    repeat split; try assumption. cbn.
    apply Forall_app. split; [exact Hcalls|].
    constructor; [|constructor]. now exists err.
  - destruct (Stop_creation _ _ E) as [Hne Hsame].
    rewrite Hsame in Hcr. destruct (IH Hcr) as (Hst & _). contradiction.
  - destruct (creation_ d) eqn:Hcr0.
    + rewrite (ReconfigureCallback_creation _ _ _ Hcr0) in E.
      apply Ret_inj in E as [_ <-]. exact (IH eq_refl).
    + destruct (ReconfigureCallback_outcome new_config level d Hcr0)
        as (Hcr' & _).
      rewrite E in Hcr'. cbn in Hcr'. congruence.
  - destruct (ImageCallback_members timestamp frame d) as (_ & Hsame & _).
    rewrite E in Hsame. cbn in Hsame. rewrite Hsame in Hcr.
    pose proof (IH Hcr) as Hun. destruct Hun as (Hst & _).
    assert (d' = d) as ->
      by (eapply ImageCallback_idle; [|exact E]; congruence).
    exact (IH Hcr).
  - pose proof (AutoControlsCallback_quiet status_class event selector
                  status_attribute payload d) as Hq.
    rewrite E in Hq. cbn in Hq.
    destruct Hq as (Hc & Hs & Hx & Hd & Hh & Hr & Hcr').
    rewrite Hcr' in Hcr.
    destruct (IH Hcr) as (Hst & Hctx & Hdev & Hdevh & Hrgb & Hcalls).
    unfold unopened. rewrite Hc, Hs, Hx, Hd, Hh, Hr. auto 10.
Qed.

End Runs_Properties.

(** * The theorems on concrete runs *)

(** [Start] on a fresh driver, with a device that answers: the calls of
    [OpenCamera] in order, the scratch frame of six bytes, Running. *)
Example Start_reaches_running :
  @Start (sample_platform accepts_all) (CameraDriver_new tiny_config)
  = Ret true
      {| state_ := kRunning; ctx_ := NonNull; dev_ := NonNull;
         devh_ := NonNull; rgb_frame_ := Some (repeat Byte.x00 6);
         creation_ := false; config_changed_ := false;
         config_ := tiny_config;
         calls :=
           [Called uvc_init 0;
            Called (uvc_find_device 0 0 None) 0;
            Called uvc_open 0;
            Called uvc_set_status_callback 0;
            Called (uvc_get_stream_ctrl_format_size UVC_FRAME_FORMAT_BGR 1 2
                      30%float) 0;
            Called uvc_start_iso_streaming 0;
            Called (uvc_allocate_frame 6) 1] |}.
Proof. reflexivity. Qed.

(** [Start] without a device: the context is there, the driver is
    Stopped, and [Start] answers false. *)
Example Start_without_device :
  @Start (sample_platform no_device) (CameraDriver_new tiny_config)
  = Ret false
      {| state_ := kStopped; ctx_ := NonNull; dev_ := NULL; devh_ := NULL;
         rgb_frame_ := None; creation_ := false; config_changed_ := false;
         config_ := tiny_config;
         calls := [Called uvc_init 0;
                   Called (uvc_find_device 0 0 None) (-4)] |}.
Proof. reflexivity. Qed.

(** A stopped driver is opened by the next reconfiguration, whatever
    the mask, and then takes the new snapshot. *)
Example reconfigure_opens_stopped :
  let r := @ReconfigureCallback (sample_platform accepts_all)
             retuned_config 0 (stopped tiny_config) in
  returned r = true /\ state_ (driver_of r) = kRunning /\
  config_ (driver_of r) = retuned_config.
Proof. repeat split. Qed.

(** Two controls changed and both refused: both are written, and the
    stored snapshot keeps the old gain and the old exposure. *)
Example refused_controls_rolled_back :
  let new_config :=
    with_gain 4 (with_exposure_absolute 0.02%float tiny_config) in
  let r := @ReconfigureCallback (sample_platform rejects_controls)
             new_config 0 (running tiny_config) in
  calls (driver_of r) =
    [Called (uvc_set fn.exposure_abs 200) (-9);
     Called (uvc_set fn.gain 4) (-9)] /\
  config_ (driver_of r) = tiny_config /\
  rolled_back tiny_config new_config (calls (driver_of r)) = tiny_config.
Proof. repeat split. Qed.

(** A payload shorter than what the control callback reads. *)
Example short_control_payload :
  @AutoControlsCallback (sample_platform accepts_all)
    UVC_STATUS_CLASS_CONTROL_CAMERA 0 4 UVC_STATUS_ATTRIBUTE_VALUE_CHANGE
    [Byte.x10; Byte.x27] (running tiny_config)
  = Fail OutOfBounds (running tiny_config).
Proof. reflexivity. Qed.

(** The wrap-around that [image_bytes] inherits from the 32-bit fields
    of the picture: a width of 1431655766 gives a step of 2, and the
    frame passes the ceiling. *)
Lemma image_bytes_wraps :
  width wrapping_config * 3 * height wrapping_config = 4294967298 /\
  image_step wrapping_config = 2 /\
  image_bytes wrapping_config = 2.
Proof. repeat split. Qed.

(** C1 on the six-byte BGR frame and the two-pixel snapshot. *)
Lemma published_image_size_witness :
  let d := running tiny_config in
  let d' := driver_of (@ImageCallback (sample_platform accepts_all) 7
                         full_bgr_frame d) in
  let sized (image : sensor_msgs.Image) : Prop :=
    Z.of_nat (List.length (sensor_msgs.data image))
      = width (config_ d) * height (config_ d) * 3 /\
    sensor_msgs.step image = width (config_ d) * 3 /\
    sensor_msgs.width image = width (config_ d) /\
    sensor_msgs.height image = height (config_ d) in
  (published (calls d') = published (calls d) \/
   exists image : sensor_msgs.Image,
     published (calls d') = published (calls d) ++ [image] /\ sized image) /\
  (forall (payload : list byte) (label : string),
      data full_bgr_frame = Some payload ->
      copied_label (frame_format full_bgr_frame) = Some label ->
      rgb_frame_ d <> None ->
      Z.of_nat (List.length payload)
        <= width (config_ d) * height (config_ d) * 3 ->
      exists image : sensor_msgs.Image,
        published (calls d') = published (calls d) ++ [image] /\
        sized image).
Proof.
  apply (@published_image_size (sample_platform accepts_all) 7
           full_bgr_frame (running tiny_config));
    [reflexivity | reflexivity | reflexivity | discriminate].
Defined.

(** C2 fails as stated: the reopen fails, the callback returns
    Stopped without a single control write, and the stored snapshot is
    still the old one, not the new one. *)
Lemma baseline_kept_after_failed_reopen :
  returned failed_reopen = true /\
  state_ (driver_of failed_reopen) = kStopped /\
  control_writes (calls (driver_of failed_reopen)) = [] /\
  config_ (driver_of failed_reopen) = tiny_config /\
  config_ (driver_of failed_reopen)
    <> rolled_back tiny_config retuned_config (calls (driver_of failed_reopen)).
Proof.
  repeat (split; [reflexivity|]).
  intro H. apply (f_equal width) in H. discriminate H.
Qed.

(** C3 on a streaming driver whose device is gone at the reopen. *)
Lemma close_before_controls_witness :
  let d := running tiny_config in
  let closed := driver_of (CloseCamera d) in
  let d' := driver_of failed_reopen in
  state_ closed = kStopped /\
  exists rest : list Event,
    calls d' =
      calls d ++ Called uvc_close 0 :: Called uvc_unref_device 0 :: rest /\
    (state_ (driver_of (@OpenCamera (sample_platform no_device)
                          retuned_config closed)) <> kRunning ->
     state_ d' = kStopped /\
     control_writes
       (Called uvc_close 0 :: Called uvc_unref_device 0 :: rest) = []).
Proof.
  apply (@close_before_controls (sample_platform no_device) retuned_config 3
           (running tiny_config));
    [intro H; discriminate H | reflexivity | reflexivity].
Defined.

(** C4 on a device that takes the new exposure. *)
Lemma exposure_change_written_witness :
  let d := running tiny_config in
  let d' := driver_of (@ReconfigureCallback (sample_platform accepts_all)
                         (with_exposure_absolute 0.02%float (config_ d)) 0 d) in
  exists (evs : list Event) (err : Z),
    calls d' = calls d ++ evs /\
    control_writes evs = [Called (uvc_set fn.exposure_abs 200) err] /\
    config_ d' =
      with_exposure_absolute
        (if err =? 0 then 0.02%float else 0.01%float) (config_ d).
Proof.
  apply (@exposure_change_written (sample_platform accepts_all) 0
           (running tiny_config));
    [intro H; discriminate H | reflexivity | reflexivity | reflexivity].
Defined.

(** C6 fails as stated: a BGR frame of three bytes is published as six,
    its own three and three zeros. *)
Lemma bgr_short_frame_padded :
  frame_format short_bgr_frame = UVC_FRAME_FORMAT_BGR /\
  data short_bgr_frame = Some [Byte.x01; Byte.x02; Byte.x03] /\
  exists image : sensor_msgs.Image,
    published (calls (driver_of short_frame_run)) = [image] /\
    sensor_msgs.encoding image = "bgr8" /\
    sensor_msgs.data image =
      [Byte.x01; Byte.x02; Byte.x03; Byte.x00; Byte.x00; Byte.x00] /\
    Some (sensor_msgs.data image) <> data short_bgr_frame.
Proof.
  split; [reflexivity|]. split; [reflexivity|].
  eexists. split; [reflexivity|]. split; [reflexivity|].
  split; [reflexivity|]. cbn. discriminate.
Qed.

(** C6 as amended, on the six-byte frame. *)
Lemma bgr_frame_copied_witness :
  let d := running tiny_config in
  exists (d' : CameraDriver) (image : sensor_msgs.Image),
    @ImageCallback (sample_platform accepts_all) 7 full_bgr_frame d
      = Ret tt d' /\
    published (calls d') = published (calls d) ++ [image] /\
    sensor_msgs.encoding image = "bgr8" /\
    sensor_msgs.data image =
      [Byte.x01; Byte.x02; Byte.x03; Byte.x04; Byte.x05; Byte.x06]
      ++ repeat Byte.x00
           (Z.to_nat (image_bytes (config_ d))
            - List.length
                [Byte.x01; Byte.x02; Byte.x03; Byte.x04; Byte.x05; Byte.x06]) /\
    (Z.of_nat
       (List.length
          [Byte.x01; Byte.x02; Byte.x03; Byte.x04; Byte.x05; Byte.x06])
     = image_bytes (config_ d) ->
     sensor_msgs.data image =
       [Byte.x01; Byte.x02; Byte.x03; Byte.x04; Byte.x05; Byte.x06]).
Proof.
  apply (@bgr_frame_copied (sample_platform accepts_all) 7 full_bgr_frame
           [Byte.x01; Byte.x02; Byte.x03; Byte.x04; Byte.x05; Byte.x06]
           (running tiny_config));
    [ reflexivity | reflexivity | reflexivity | discriminate
    | discriminate | discriminate | discriminate | discriminate ].
Defined.

(** C7 on a snapshot of 4096 by 4096. *)
Lemma oversized_frame_dropped_witness :
  let d := running huge_config in
  let r := @ImageCallback (sample_platform accepts_all) 7 full_bgr_frame d in
  driver_of r = d /\
  allocated (calls (driver_of r)) = allocated (calls d) /\
  published (calls (driver_of r)) = published (calls d) /\
  (state_ d = kRunning -> rgb_frame_ d <> None -> r = Ret tt d).
Proof.
  apply (@oversized_frame_dropped (sample_platform accepts_all) 7
           full_bgr_frame (running huge_config)).
  reflexivity.
Defined.

(** C8 on a snapshot whose width is zero. *)
Lemma zero_size_frame_dropped_witness :
  let d := running blank_config in
  let r := @ImageCallback (sample_platform accepts_all) 7 full_bgr_frame d in
  driver_of r = d /\
  published (calls (driver_of r)) = published (calls d) /\
  (state_ d = kRunning -> rgb_frame_ d <> None -> r = Ret tt d).
Proof.
  apply (@zero_size_frame_dropped (sample_platform accepts_all) 7
           full_bgr_frame (running blank_config)).
  left. reflexivity.
Defined.

(** * The further properties on concrete runs *)

Lemma started_live : @live (sample_platform accepts_all) started.
Proof.
  apply (@live_Start (sample_platform accepts_all)
           (CameraDriver_new tiny_config) started true (live_new _)).
  vm_compute. reflexivity.
Qed.

Lemma refused_init_live : @live (sample_platform no_library) refused_init.
Proof.
  apply (@live_Start (sample_platform no_library)
           (CameraDriver_new tiny_config) refused_init false (live_new _)).
  vm_compute. reflexivity.
Qed.

(** X1 on the driver that [Start] leaves. *)
Lemma live_holdings_witness :
  @live (sample_platform accepts_all) started /\
  count context_obtained (calls started) = 1%nat /\
  count context_released (calls started) = 0%nat /\
  count device_found (calls started)
    = (count device_released (calls started)
       + one_if (State_eqb (state_ started) kRunning))%nat.
Proof.
  split; [exact started_live|].
  split; [vm_compute; reflexivity|]. split; [vm_compute; reflexivity|].
  exact (proj1 (proj2 (@live_holdings (sample_platform accepts_all) started
                         started_live))).
Defined.

(** X2 on the same driver and the six-byte frame. *)
Lemma running_assertions_hold_witness :
  @live (sample_platform accepts_all) started /\
  state_ started = kRunning /\
  (ctx_ started = NonNull /\ dev_ started = NonNull /\
   devh_ started = NonNull /\ rgb_frame_ started <> None) /\
  forall d' : CameraDriver,
    @ImageCallback (sample_platform accepts_all) 7 full_bgr_frame started
    <> Fail AssertionFailed d'.
Proof.
  split; [exact started_live|]. split; [vm_compute; reflexivity|].
  exact (@running_assertions_hold (sample_platform accepts_all) 7
           full_bgr_frame started started_live ltac:(vm_compute; reflexivity)).
Defined.

(** X3 on the same driver. *)
Lemma delete_releases_once_witness :
  @live (sample_platform accepts_all) started /\
  exists d' : CameraDriver,
    CameraDriver_delete started = Ret tt d' /\
    count context_obtained (calls d') = count context_released (calls d') /\
    count frame_allocated (calls d') = count frame_freed (calls d') /\
    count handle_opened (calls d')
      = (count handle_closed (calls d')
         + one_if (State_eqb (state_ started) kRunning))%nat /\
    count device_found (calls d')
      = (count device_released (calls d')
         + one_if (State_eqb (state_ started) kRunning))%nat.
Proof.
  split; [exact started_live|].
  exact (@delete_releases_once (sample_platform accepts_all) started
           started_live).
Defined.

(** X5 on a fresh driver. *)
Lemma Start_pushes_nothing_witness :
  let d := CameraDriver_new tiny_config in
  is_number (exposure_absolute (config_ d)) = true /\
  @Start (sample_platform accepts_all) d = Ret true started /\
  config_ started = config_ d /\
  exists (err : Z) (opened : list Event),
    calls started = calls d ++ Called uvc_init err :: opened /\
    forallb opening opened = true /\
    control_writes opened = [] /\ count is_reload opened = 0%nat.
Proof.
  split; [vm_compute; reflexivity|]. split; [vm_compute; reflexivity|].
  exact (@Start_pushes_nothing (sample_platform accepts_all)
           (CameraDriver_new tiny_config) started true ltac:(vm_compute; reflexivity) ltac:(vm_compute; reflexivity)).
Defined.

(** X6 on a streaming driver and the full mask. *)
Lemma reapplying_snapshot_witness :
  let d := running tiny_config in
  let r := @ReconfigureCallback (sample_platform accepts_all)
             (config_ d) 3 d in
  creation_ d = false /\
  is_number (exposure_absolute (config_ d)) = true /\
  returned r = true /\
  config_ (driver_of r) = config_ d /\
  exists opened : list Event,
    calls (driver_of r) = calls d ++ opened /\
    forallb opening opened = true /\
    control_writes opened = [] /\ count is_reload opened = 0%nat.
Proof.
  split; [vm_compute; reflexivity|]. split; [vm_compute; reflexivity|]. split; [vm_compute; reflexivity|].
  pose proof (@reapplying_snapshot (sample_platform accepts_all) 3
                tiny_config (running tiny_config)
                (driver_of (@ReconfigureCallback (sample_platform accepts_all)
                              tiny_config 3 (running tiny_config)))
                ltac:(vm_compute; reflexivity) ltac:(vm_compute; reflexivity) ltac:(vm_compute; reflexivity)) as H.
  split; [exact (proj1 (proj2 H))|exact (proj1 (proj2 (proj2 H)))].
Defined.

(** X7 on the refused relocation: exposure and gain are written. *)
Lemma changed_controls_written_witness :
  let d := running tiny_config in
  creation_ d = false /\
  relocation
    = Ret (config_ (driver_of relocation)) (driver_of relocation) /\
  wanted (config_ d) relocated_config
    = [uvc_set fn.exposure_abs 200; uvc_set fn.gain 4] /\
  exists evs : list Event,
    calls (driver_of relocation) = calls d ++ evs /\
    map call_of (control_writes evs)
    = if State_eqb (state_ (driver_of relocation)) kRunning
      then wanted (config_ d) relocated_config else [].
Proof.
  split; [vm_compute; reflexivity|]. split; [vm_compute; reflexivity|]. split; [vm_compute; reflexivity|].
  exact (@changed_controls_written (sample_platform rejects_controls)
           relocated_config (config_ (driver_of relocation)) 0
           (running tiny_config)
           (driver_of relocation) ltac:(vm_compute; reflexivity) ltac:(vm_compute; reflexivity)).
Defined.

(** X8 on the same run: the calibration, then the two writes. *)
Lemma reconfigure_call_order_witness :
  let d := running tiny_config in
  relocation
    = Ret (config_ (driver_of relocation)) (driver_of relocation) /\
  reloads (config_ d) relocated_config
    = [Called (loadCameraInfo "file:///calibration.yaml") 0] /\
  exists opened pushed : list Event,
    calls (driver_of relocation)
      = calls d ++ opened ++ reloads (config_ d) relocated_config ++ pushed /\
    forallb opening opened = true /\
    Forall (fun e => is_control_write e = true) pushed.
Proof.
  split; [vm_compute; reflexivity|]. split; [vm_compute; reflexivity|].
  exact (@reconfigure_call_order (sample_platform rejects_controls)
           relocated_config (config_ (driver_of relocation)) 0
           (running tiny_config)
           (driver_of relocation) ltac:(vm_compute; reflexivity)).
Defined.

(** X9 on the failed reopen: the caller keeps the new snapshot, the
    driver the old one. *)
Lemma returned_snapshot_witness :
  failed_reopen = Ret retuned_config (driver_of failed_reopen) /\
  config_ (driver_of failed_reopen) = tiny_config /\
  retuned_config <> tiny_config.
Proof.
  split; [vm_compute; reflexivity|].
  pose proof (@returned_snapshot (sample_platform no_device) retuned_config
                retuned_config 3 (running tiny_config)
                (driver_of failed_reopen) ltac:(vm_compute; reflexivity)) as H.
  split; [exact (proj2 H)|].
  intro E. apply (f_equal width) in E. discriminate E.
Defined.

(** X10 on a streaming driver asked for another width. *)
Lemma size_committed_while_streaming_witness :
  let d := running tiny_config in
  creation_ d = false /\ state_ d = kRunning /\
  exists (committed : UVCCameraConfig) (d' : CameraDriver)
         (pushed : list Event),
    @ReconfigureCallback (sample_platform accepts_all) retuned_config 0 d
      = Ret committed d' /\
    state_ d' = kRunning /\
    calls d' = calls d ++ reloads (config_ d) retuned_config ++ pushed /\
    Forall (fun e => is_control_write e = true) pushed /\
    rgb_frame_ d' = rgb_frame_ d /\
    width (config_ d') = width retuned_config /\
    height (config_ d') = height retuned_config /\
    video_mode (config_ d') = video_mode retuned_config /\
    frame_rate (config_ d') = frame_rate retuned_config.
Proof.
  split; [vm_compute; reflexivity|]. split; [vm_compute; reflexivity|].
  apply (@size_committed_while_streaming (sample_platform accepts_all)
           retuned_config 0 (running tiny_config));
    [vm_compute; reflexivity | vm_compute; reflexivity
     | intro H; vm_compute in H; discriminate H].
Defined.

(** X15 on a streaming driver with a report pending. *)
Lemma publish_then_report_witness :
  let d := pending tiny_config in
  let r := @ImageCallback (sample_platform accepts_all) 7 full_bgr_frame d in
  r = Ret tt (driver_of r) /\
  config_ (driver_of r) = config_ d /\
  config_changed_ (driver_of r) = false /\
  count is_update (calls (driver_of r)) = 1%nat.
Proof.
  split; [vm_compute; reflexivity|].
  pose proof (@publish_then_report (sample_platform accepts_all) 7
                full_bgr_frame (pending tiny_config)
                (driver_of (@ImageCallback (sample_platform accepts_all) 7
                              full_bgr_frame (pending tiny_config)))
                ltac:(vm_compute; reflexivity)) as H.
  split; [exact (proj1 H)|]. split; vm_compute; reflexivity.
Defined.

(** X16 on the seven-byte frame and the six-byte picture. *)
Lemma long_frame_overruns_witness :
  let d := running tiny_config in
  image_bytes (config_ d) = 6 /\
  data_bytes long_bgr_frame = 7 /\
  @ImageCallback (sample_platform accepts_all) 7 long_bgr_frame d =
    Fail OutOfBounds
      (set_calls (calls d ++ [Called (resize (image_bytes (config_ d))) 0]) d).
Proof.
  split; [vm_compute; reflexivity|]. split; [vm_compute; reflexivity|].
  apply (@long_frame_overruns (sample_platform accepts_all) 7 long_bgr_frame
           [Byte.x01; Byte.x02; Byte.x03; Byte.x04; Byte.x05; Byte.x06;
            Byte.x07] "bgr8" (running tiny_config));
    try (vm_compute; reflexivity); intro H; vm_compute in H; discriminate H.
Defined.

(** X17 on the payload [10 27 00 00] and the six-byte frame. *)
Lemma reported_change_sent_once_witness :
  let d := running tiny_config in
  exists (d1 d2 d3 : CameraDriver) (first second : list Event),
    @AutoControlsCallback (sample_platform accepts_all)
      UVC_STATUS_CLASS_CONTROL_CAMERA 0 4 UVC_STATUS_ATTRIBUTE_VALUE_CHANGE
      [Byte.x10; Byte.x27; Byte.x00; Byte.x00] d = Ret tt d1 /\
    @ImageCallback (sample_platform accepts_all) 7 full_bgr_frame d1
      = Ret tt d2 /\
    @ImageCallback (sample_platform accepts_all) 8 full_bgr_frame d2
      = Ret tt d3 /\
    calls d1 = calls d /\
    calls d2 = calls d1 ++ first ++ [Called (updateConfig (config_ d1)) 0] /\
    calls d3 = calls d2 ++ second /\
    List.length (published first) = 1%nat /\
    List.length (published second) = 1%nat /\
    count is_update first = 0%nat /\ count is_update second = 0%nat /\
    exposure_absolute (config_ d1)
    = PrimFloat.mul
        (uint32_to_double
           (exposure_int Byte.x10 Byte.x27 Byte.x00 Byte.x00))
        0.0001%float /\
    config_changed_ d3 = false.
Proof.
  apply (@reported_change_sent_once (sample_platform accepts_all) 0
           Byte.x10 Byte.x27 Byte.x00 Byte.x00 [] 7 8 full_bgr_frame
           [Byte.x01; Byte.x02; Byte.x03; Byte.x04; Byte.x05; Byte.x06]
           "bgr8" (running tiny_config));
    try (vm_compute; reflexivity); intro H; vm_compute in H; discriminate H.
Defined.

(** X18 on the reopen without memory. *)
Lemma reconfigure_stops_on_allocation_witness :
  let d := stopped tiny_config in
  let d' := driver_of starved_reopen in
  starved_reopen = Fail AssertionFailed d' /\
  state_ d' = kStopped /\ devh_ d' = NonNull /\ rgb_frame_ d' = None /\
  config_ d' = config_ d /\
  exists evs : list Event,
    calls d' = calls d ++ evs ++ [Called (uvc_allocate_frame 12) 0] /\
    control_writes evs = [] /\
    In (Called uvc_start_iso_streaming 0) evs.
Proof.
  split; [vm_compute; reflexivity|].
  pose proof (@reconfigure_stops_on_allocation (sample_platform no_memory)
                retuned_config 0 AssertionFailed (stopped tiny_config)
                (driver_of starved_reopen) ltac:(vm_compute; reflexivity)) as H.
  split; [exact (proj1 (proj2 (proj2 H)))|]. split; [vm_compute; reflexivity|].
  split; [exact (proj1 (proj2 (proj2 (proj2 H))))|].
  split; [exact (proj1 (proj2 (proj2 (proj2 (proj2 H)))))|].
  exact (proj2 (proj2 (proj2 (proj2 (proj2 H))))).
Defined.

(** X19 on the driver that a refused initialisation leaves. *)
Lemma creation_phase_calls_nothing_witness :
  @live (sample_platform no_library) refused_init /\
  creation_ refused_init = true /\
  calls refused_init = [Called uvc_init (-1)] /\
  unopened refused_init.
Proof.
  split; [exact refused_init_live|]. split; [vm_compute; reflexivity|].
  split; [vm_compute; reflexivity|].
  exact (@creation_phase_calls_nothing (sample_platform no_library)
           refused_init refused_init_live ltac:(vm_compute; reflexivity)).
Defined.
